(** * HAR loading for browser-use: cookies and URLs out of an HTTP archive

    A shallow embedding of [browser_use/browser/utils/har_loader.py],
    [browser_use/browser/extensions/har_extension.py] and the script
    [examples/features/load_from_har.py].

    - JSON values and the HAR document are inductive data; a key that
      [dict.get] may find absent is an [option] field.
    - The file system, the browser and the logger are a [world] that the
      operations thread through a state-and-exception monad; every effect
      leaves an [event] in the world's trace, in program order. A name of
      the file system holds a file that can be read, or something that
      [os.stat] and [open] answer with an error of their own, or nothing.
    - What the Python code borrows from outside the repository
      ([urllib.parse.urlparse], the builtin [float], pathlib's writing of a
      path, Playwright's [add_cookies]) is the [Runtime] interface. The general statements hold
      for every runtime; [CPython.runtime] is a reference runtime on which the
      definitions evaluate. *)

From Stdlib Require Import ZArith List String Ascii Bool Lia.
From Stdlib Require Import Floats.SpecFloat.
From stdpp Require Import base decidable option list gmap strings.

#[local] Set Warnings "-register-all,-clear-no-such-hyp".
Local Open Scope Z_scope.
Local Open Scope string_scope.
Local Open Scope list_scope.

(** ** Python values *)

(** What [json.load] produces. A Python [float] is an IEEE 754 binary64
    number, here a [spec_float] of precision 53. *)
Inductive json : Type :=
| JNull
| JBool (b : bool)
| JInt (n : Z)
| JFloat (f : spec_float)
| JStr (s : string)
| JArr (items : list json)
| JObj (members : list (string * json)).

(** [isinstance(v, (int, float))]; [bool] is a subclass of [int]. *)
Definition is_int_or_float (v : json) : bool :=
  match v with
  | JBool _ | JInt _ | JFloat _ => true
  | _ => false
  end.

(** [v is None] *)
Definition is_none (v : json) : bool :=
  match v with
  | JNull => true
  | _ => false
  end.

(** A string, or [None] when the key is absent. *)
Definition str_or_none (o : option string) : json :=
  match o with
  | Some s => JStr s
  | None => JNull
  end.

(** How an f-string renders a string or [None]. *)
Definition fmt (o : option string) : string :=
  match o with
  | Some s => s
  | None => "None"
  end.

(** [s.endswith(suffix)]: some tail of [s] is [suffix]. *)
Fixpoint endswith (s suffix : string) : bool :=
  if String.eqb s suffix then true
  else match s with
       | EmptyString => false
       | String _ s' => endswith s' suffix
       end.

(** Truth value of an [Optional[List[...]]] argument: [None] and the empty
    list are both falsy. *)
Definition truthy {A : Type} (o : option (list A)) : bool :=
  match o with
  | Some (_ :: _) => true
  | _ => false
  end.

(** The list behind a truthy filter. *)
Definition members {A : Type} (o : option (list A)) : list A :=
  match o with
  | Some l => l
  | None => []
  end.

(** ** The HAR document *)

Module Har.

(** An element of [request.cookies]. *)
Record RawCookie : Type := mkRawCookie {
  name : option string;
  value : option json;
  domain : option string;
  path : option json;
  expires : option json;
  httpOnly : option json;
  secure : option json;
  sameSite : option json
}.

Record Header : Type := mkHeader {
  header_name : option string;
  header_value : option string
}.

Record Request : Type := mkRequest {
  url : option string;
  cookies : option (list RawCookie)
}.

Record Response : Type := mkResponse {
  status : option Z;
  headers : option (list Header)
}.

Record Entry : Type := mkEntry {
  request : option Request;
  response : option Response
}.

Record Log : Type := mkLog {
  entries : option (list Entry)
}.

Record Document : Type := mkDocument {
  log : option Log
}.

End Har.

(** [har_data.get('log', {}).get('entries', [])] *)
Definition entries_of (har_data : Har.Document) : list Har.Entry :=
  match Har.log har_data with
  | Some l => match Har.entries l with
              | Some es => es
              | None => []
              end
  | None => []
  end.

(** [entry.get('request', {}).get('url', '')] *)
Definition url_of (entry : Har.Entry) : string :=
  match Har.request entry with
  | Some r => match Har.url r with
              | Some u => u
              | None => ""
              end
  | None => ""
  end.

(** [entry.get('request', {}).get('cookies', [])] *)
Definition cookies_of (entry : Har.Entry) : list Har.RawCookie :=
  match Har.request entry with
  | Some r => match Har.cookies r with
              | Some cs => cs
              | None => []
              end
  | None => []
  end.

(** [entry.get('response', {}).get('status', 0)] *)
Definition status_of (entry : Har.Entry) : Z :=
  match Har.response entry with
  | Some r => match Har.status r with
              | Some s => s
              | None => 0
              end
  | None => 0
  end.

(** ** The cookie handed to Playwright *)

Module Cookie.

Record t : Type := mk {
  name : json;
  value : json;
  domain : json;
  path : json;
  expires : json;
  httpOnly : json;
  secure : json;
  sameSite : json
}.

End Cookie.

(** ** Exceptions, log records and events *)

(** The exceptions that reach the two modules. [ValueError] is the one
    that [urlparse] raises, with the URL; the [ValueError] that [open] and
    [os.stat] raise on a name with a NUL character is [EmbeddedNullByte];
    [FileNameTooLong] is the [OSError] of ENAMETOOLONG. *)
Inductive exn : Type :=
| FileNotFoundError (path : string)
| JSONDecodeError
| ValueError (url : string)
| PlaywrightError (msg : string)
| IsADirectoryError (path : string)
| NotADirectoryError (path : string)
| PermissionError (path : string)
| FileNameTooLong (path : string)
| EmbeddedNullByte
| UnicodeDecodeError.

Inductive level : Type := INFO | WARNING | ERROR.

(** The messages the two modules log, by the data they are formatted from. *)
Inductive message : Type :=
| MsgCannotParse (path : string)
| MsgInvalidExpires (cookie_name : json)
| MsgLoadedCookies (count : nat)
| MsgNoCookies
| MsgNoSession
| MsgLoadSucceeded (path : string)
| MsgLoadFailed (e : exn).

Inductive event : Type :=
| EvExists (path : string)
| EvOpen (path : string)
| EvJsonLoad (path : string)
| EvLog (l : level) (m : message)
| EvAddCookies (cookies : list Cookie.t).

(** What a regular file that can be read holds: text that [json.load]
    rejects, a document, or bytes that are not UTF-8 text. *)
Inductive file : Type :=
| NotJson
| Json (har_data : Har.Document)
| NotUtf8.

(** What stands at a name that cannot be opened for reading, by what
    [os.stat] and [open] do there. *)
Inductive obstacle : Type :=
| Directory
| Unreadable
| NotADirectory
| NullByte
| NameTooLong
| NoAccess.

(** What the operating system finds at a name: a regular file that can be
    read, an obstacle, or nothing. *)
Inductive found : Type :=
| Readable (f : file)
| Blocked (o : obstacle)
| Nothing.

Inductive result (A : Type) : Type :=
| Ok (a : A)
| Raise (e : exn).
Arguments Ok {A} a.
Arguments Raise {A} e.

(** ** The runtime interface *)

Class Runtime : Type := {
  (** state of the browser behind a Playwright context *)
  browser : Type;
  (** handle on a Playwright [BrowserContext] *)
  ctx : Type;
  (** [await context.add_cookies(cookies)]: the message of the exception it
      raises, if any, and the browser afterwards *)
  add_cookies : ctx -> list Cookie.t -> browser -> option string * browser;
  (** [urlparse(url).netloc]; [None] when [urlparse] raises [ValueError] *)
  urlparse_netloc : string -> option string;
  (** [float(s)] on a string; [None] when it raises [ValueError] *)
  float_of_str : string -> option spec_float;
  (** [os.fspath(Path(s))]: the name as pathlib writes it *)
  fspath : string -> string
}.

(** ** Worlds and the monad of the operations *)

(** The files that can be read, by name; what else stands at a name (a
    directory, a file that may not be read, a name that the operating system
    refuses); the browser; and what has happened so far, oldest first. *)
Record world_of (B : Type) : Type := mkWorld {
  fs : gmap string file;
  blocked : gmap string obstacle;
  chromium : B;
  trace : list event
}.
Arguments mkWorld {B} fs blocked chromium trace.
Arguments fs {B} w.
Arguments blocked {B} w.
Arguments chromium {B} w.
Arguments trace {B} w.

Abbreviation world := (world_of browser).

Section Operations.

Context {R : Runtime}.

(** A computation runs in a world and ends, in a world, with a value or
    with a raised exception. *)
Definition M (A : Type) : Type := world -> result A * world.

Definition ret {A : Type} (a : A) : M A := fun w => (Ok a, w).

Definition raise {A : Type} (e : exn) : M A := fun w => (Raise e, w).

Definition bind {A B : Type} (m : M A) (k : A -> M B) : M B :=
  fun w => match m w with
           | (Ok a, w') => k a w'
           | (Raise e, w') => (Raise e, w')
           end.

(** [try: m except Exception as e: handler e] *)
Definition try_except {A : Type} (m : M A) (handler : exn -> M A) : M A :=
  fun w => match m w with
           | (Ok a, w') => (Ok a, w')
           | (Raise e, w') => handler e w'
           end.

(** The world after more events. *)
Definition record (evs : list event) (w : world) : world :=
  mkWorld (fs w) (blocked w) (chromium w) (trace w ++ evs).

Definition emit (ev : event) : M unit := fun w => (Ok tt, record [ev] w).

Definition emit_all (evs : list event) : M unit :=
  fun w => (Ok tt, record evs w).

Definition logger (l : level) (m : message) : M unit := emit (EvLog l m).

Definition lift {A : Type} (r : result A) : M A := fun w => (r, w).

(** What the operating system finds at a name as it is written. *)
Definition at_name (w : world) (name : string) : found :=
  match fs w !! name with
  | Some f => Readable f
  | None =>
      match blocked w !! name with
      | Some o => Blocked o
      | None => Nothing
      end
  end.

(** What the operating system finds at [Path(path)]. pathlib drops from a
    name what the operating system skips when it walks it (a repeated or a
    trailing slash, a [.] component), so a file or a directory that the name
    reaches is what [Path(path)] reaches. When the name reaches neither (the
    empty name, a slash after the name of a file), the name as pathlib
    writes it decides. *)
Definition at_Path (w : world) (path : string) : found :=
  match at_name w path with
  | Readable f => Readable f
  | Blocked Directory => Blocked Directory
  | Blocked Unreadable => Blocked Unreadable
  | _ => at_name w (fspath path)
  end.

(** What [Path.exists] makes of [os.stat] (Python 3.11): [stat] succeeds on
    a file and on a directory; its ENOENT and ENOTDIR and the [ValueError]
    of a NUL character are answered with [False]; any other error is raised
    again. *)
Definition exists_answer (name : string) (x : found) : result bool :=
  match x with
  | Readable _ | Blocked Directory | Blocked Unreadable => Ok true
  | Nothing | Blocked NotADirectory | Blocked NullByte => Ok false
  | Blocked NameTooLong => Raise (FileNameTooLong name)
  | Blocked NoAccess => Raise (PermissionError name)
  end.

(** What [open] raises at an obstacle. *)
Definition refused (name : string) (o : obstacle) : exn :=
  match o with
  | Directory => IsADirectoryError name
  | Unreadable | NoAccess => PermissionError name
  | NotADirectory => NotADirectoryError name
  | NullByte => EmbeddedNullByte
  | NameTooLong => FileNameTooLong name
  end.

(** What [open(name, 'r', encoding='utf-8')] gives: the file, or the
    exception of the operating system. *)
Definition open_answer (name : string) (x : found) : result file :=
  match x with
  | Readable f => Ok f
  | Blocked o => Raise (refused name o)
  | Nothing => Raise (FileNotFoundError name)
  end.

(** [Path(path).exists()] *)
Definition path_exists (path : string) : M bool :=
  fun w => (exists_answer (fspath path) (at_Path w path),
            record [EvExists path] w).

(** [open(path, 'r', encoding='utf-8')] on the string itself *)
Definition open_file (path : string) : M file :=
  fun w => (open_answer path (at_name w path), record [EvOpen path] w).

(** [open(Path(path), 'r', encoding='utf-8')] *)
Definition open_Path (path : string) : M file :=
  fun w => (open_answer (fspath path) (at_Path w path),
            record [EvOpen path] w).

(** [json.load(file)]: the text is read and decoded, then parsed. *)
Definition json_load (path : string) (f : file) : M Har.Document :=
  fun w => (match f with
            | Json har_data => Ok har_data
            | NotJson => Raise JSONDecodeError
            | NotUtf8 => Raise UnicodeDecodeError
            end,
            record [EvJsonLoad path] w).

(** [await context.add_cookies(cookies)] *)
Definition await_add_cookies (context : ctx) (cookies : list Cookie.t) : M unit :=
  fun w => let '(raised, b) := add_cookies context cookies (chromium w) in
           (match raised with
            | Some msg => Raise (PlaywrightError msg)
            | None => Ok tt
            end,
            mkWorld (fs w) (blocked w) b (trace w ++ [EvAddCookies cookies])).

End Operations.

Declare Scope har_scope.
Delimit Scope har_scope with har.
Notation "x <- m ;; k" := (bind m (fun x => k))
  (at level 100, m at next level, right associativity) : har_scope.
Notation "m ;;; k" := (bind m (fun _ => k))
  (at level 100, right associativity) : har_scope.

Local Open Scope har_scope.

(** ** [browser_use.browser.utils.har_loader] *)

Module HarLoader.
Section WithRuntime.

Context {R : Runtime}.

(** The variables of the cookie loop: the output list, the keys seen so far
    and the warnings logged so far. *)
Record loop_state : Type := mkLoop {
  cookies : list Cookie.t;
  processed_cookies : gset string;
  warnings : list event
}.

(** [f"{cookie.get('name')}@{cookie.get('domain')}"] *)
Definition cookie_key (cookie : Har.RawCookie) : string :=
  fmt (Har.name cookie) +:+ "@" +:+ fmt (Har.domain cookie).

(** [float(v)] for a [v] that is neither [None] nor a number, the only values
    it is called on: a string is parsed, on a list or a dict it raises
    [TypeError]. [None] when it raises. *)
Definition float_of (v : json) : option spec_float :=
  match v with
  | JStr s => float_of_str s
  | _ => None
  end.

(** Lines 75-83: the [expires] of the output cookie and the warning logged
    on the way, if any. *)
Definition expires_value (cookie : Har.RawCookie) : json * list event :=
  match Har.expires cookie with
  | None => (JInt (-1), [])
  | Some v =>
      if negb (is_none v) && negb (is_int_or_float v) then
        match float_of v with
        | Some f => (JFloat f, [])
        | None =>
            (JInt (-1),
             [EvLog WARNING (MsgInvalidExpires (str_or_none (Har.name cookie)))])
        end
      else (v, [])
  end.

(** Lines 85-94. *)
Definition cookie_obj (cookie : Har.RawCookie) (expires : json) : Cookie.t :=
  {| Cookie.name := str_or_none (Har.name cookie);
     Cookie.value := default JNull (Har.value cookie);
     Cookie.domain := str_or_none (Har.domain cookie);
     Cookie.path := default (JStr "/") (Har.path cookie);
     Cookie.expires := expires;
     Cookie.httpOnly := default (JBool false) (Har.httpOnly cookie);
     Cookie.secure := default (JBool false) (Har.secure cookie);
     Cookie.sameSite := default (JStr "Lax") (Har.sameSite cookie) |}.

(** Body of the loop over [request.cookies]. *)
Definition process_cookie (st : loop_state) (cookie : Har.RawCookie) : loop_state :=
  let key := cookie_key cookie in
  if decide (key ∈ processed_cookies st) then st
  else
    let '(expires, logged) := expires_value cookie in
    {| cookies := cookies st ++ [cookie_obj cookie expires];
       processed_cookies := {[key]} ∪ processed_cookies st;
       warnings := warnings st ++ logged |}.

(** The domain test both loops make: [Ok false] is the [continue],
    [Raise] what [urlparse] raised. The URL is parsed only under a truthy
    filter. *)
Definition domain_matches (filter_domains : option (list string))
    (request_url : string) : result bool :=
  if truthy filter_domains then
    match urlparse_netloc request_url with
    | Some domain =>
        Ok (existsb (fun d => endswith domain d) (members filter_domains))
    | None => Raise (ValueError request_url)
    end
  else Ok true.

(** The loop over the entries (lines 55-102). The scan of the response
    headers for [set-cookie] has an empty body and is left out. The state
    comes back with the exception that stopped the loop, if one did. *)
Fixpoint cookie_loop (filter_domains : option (list string))
    (entries : list Har.Entry) (st : loop_state) : loop_state * option exn :=
  match entries with
  | [] => (st, None)
  | entry :: rest =>
      match domain_matches filter_domains (url_of entry) with
      | Raise e => (st, Some e)
      | Ok false => cookie_loop filter_domains rest st
      | Ok true =>
          cookie_loop filter_domains rest
            (fold_left process_cookie (cookies_of entry) st)
      end
  end.

Definition load_cookies_from_har (context : ctx) (har_file_path : string)
    (filter_domains : option (list string)) : M (list Cookie.t) :=
  found <- path_exists har_file_path ;;
  if negb found then raise (FileNotFoundError har_file_path)
  else
    file <- open_Path har_file_path ;;
    har_data <- try_except (json_load har_file_path file)
                  (fun e => match e with
                            | JSONDecodeError =>
                                logger ERROR (MsgCannotParse har_file_path) ;;;
                                raise e
                            | _ => raise e
                            end) ;;
    let '(st, stopped) :=
      cookie_loop filter_domains (entries_of har_data) (mkLoop [] ∅ []) in
    (* the warnings of the loop, in the order it issued them: nothing else
       happens in the world while the loop runs *)
    emit_all (warnings st) ;;;
    match stopped with
    | Some e => raise e
    | None =>
        match cookies st with
        | _ :: _ =>
            logger INFO (MsgLoadedCookies (length (cookies st))) ;;;
            await_add_cookies context (cookies st)
        | [] => logger WARNING MsgNoCookies
        end ;;;
        ret (cookies st)
    end.

(** The loop of [extract_urls_from_har] (lines 134-149). *)
Fixpoint url_loop (filter_domains : option (list string))
    (status_filter : option (list Z)) (entries : list Har.Entry)
    (urls : list string) : result (list string) :=
  match entries with
  | [] => Ok urls
  | entry :: rest =>
      let url := url_of entry in
      let status := status_of entry in
      if truthy status_filter
         && negb (bool_decide (status ∈ members status_filter))
      then url_loop filter_domains status_filter rest urls
      else
        match domain_matches filter_domains url with
        | Raise e => Raise e
        | Ok false => url_loop filter_domains status_filter rest urls
        | Ok true => url_loop filter_domains status_filter rest (urls ++ [url])
        end
  end.

(** Both filters default to [None]: an argument left out is [None]. *)
Definition extract_urls_from_har (har_file_path : string)
    (filter_domains : option (list string))
    (status_filter : option (list Z)) : M (list string) :=
  file <- open_file har_file_path ;;
  har_data <- json_load har_file_path file ;;
  lift (url_loop filter_domains status_filter (entries_of har_data) []).

End WithRuntime.
End HarLoader.

(** ** [browser_use.browser.extensions.har_extension] *)

(** An optional argument of a Python call: left out, or passed. *)
Inductive arg (A : Type) : Type :=
| Omitted
| Passed (a : A).
Arguments Omitted {A}.
Arguments Passed {A} a.

Definition or_default {A : Type} (d : A) (x : arg A) : A :=
  match x with
  | Omitted => d
  | Passed a => a
  end.

Module HarExtension.
Section WithRuntime.

Context {R : Runtime}.

(** What [await context.get_session()] returns: an object whose [context]
    attribute is the Playwright context, or a falsy value. *)
Record Session : Type := mkSession {
  context : option ctx
}.

(** browser-use's [BrowserContext], by the session it yields ([None] when
    it yields none). *)
Record BrowserContext : Type := mkBrowserContext {
  get_session : option Session
}.

Definition load_from_har (browser_context : BrowserContext)
    (har_file_path : string) (filter_domains : option (list string)) : M unit :=
  let session := get_session browser_context in
  match session ≫= context with
  | None => logger ERROR MsgNoSession
  | Some playwright =>
      try_except
        (HarLoader.load_cookies_from_har playwright har_file_path filter_domains ;;;
         logger INFO (MsgLoadSucceeded har_file_path))
        (fun e => logger ERROR (MsgLoadFailed e) ;;; raise e)
  end.

(** [status_filter] defaults to [[200]]. *)
Definition extract_urls_from_har (har_file_path : string)
    (filter_domains : option (list string))
    (status_filter : arg (option (list Z))) : M (list string) :=
  HarLoader.extract_urls_from_har har_file_path filter_domains
    (or_default (Some [200]) status_filter).

End WithRuntime.
End HarExtension.

(** ** A reference runtime *)

(** CPython's versions of the two library functions, on ASCII text, and a
    small browser. *)
Module CPython.

Definition code (a : ascii) : nat := nat_of_ascii a.

Definition between (lo hi : nat) (a : ascii) : bool :=
  (lo <=? code a)%nat && (code a <=? hi)%nat.

Definition is_digit : ascii -> bool := between 48 57.

Definition is_alpha (a : ascii) : bool := between 65 90 a || between 97 122 a.

Definition is_ascii (a : ascii) : bool := (code a <? 128)%nat.

Definition is_char (c a : ascii) : bool := Ascii.eqb a c.

Fixpoint all_chars (p : ascii -> bool) (s : string) : bool :=
  match s with
  | EmptyString => true
  | String a s' => p a && all_chars p s'
  end.

Fixpoint any_char (p : ascii -> bool) (s : string) : bool :=
  match s with
  | EmptyString => false
  | String a s' => p a || any_char p s'
  end.

(** *** [urllib.parse.urlsplit], as far as [netloc] *)

(** [url.lstrip(_WHATWG_C0_CONTROL_OR_SPACE)] *)
Fixpoint lstrip_c0_or_space (url : string) : string :=
  match url with
  | String a url' => if between 0 32 a then lstrip_c0_or_space url' else url
  | EmptyString => EmptyString
  end.

(** the removal of tab, carriage return and line feed *)
Fixpoint remove_unsafe (url : string) : string :=
  match url with
  | String a url' =>
      if is_char "009" a || is_char "013" a || is_char "010" a
      then remove_unsafe url'
      else String a (remove_unsafe url')
  | EmptyString => EmptyString
  end.

(** [url[:i], url[i+1:]] for [i = url.find(':')], when there is a colon *)
Fixpoint split_colon (url : string) : option (string * string) :=
  match url with
  | EmptyString => None
  | String a url' =>
      if is_char ":" a then Some (EmptyString, url')
      else match split_colon url' with
           | Some (before, after) => Some (String a before, after)
           | None => None
           end
  end.

Definition is_scheme_char (a : ascii) : bool :=
  is_alpha a || is_digit a || is_char "+" a || is_char "-" a || is_char "." a.

(** the URL after its scheme, if it has one *)
Definition drop_scheme (url : string) : string :=
  match split_colon url with
  | Some ((String a _) as scheme, rest) =>
      if is_alpha a && all_chars is_scheme_char scheme then rest else url
  | _ => url
  end.

(** [_splitnetloc]: up to the first of [/], [?] and [#] *)
Fixpoint until_delimiter (s : string) : string :=
  match s with
  | String a s' =>
      if is_char "/" a || is_char "?" a || is_char "#" a then EmptyString
      else String a (until_delimiter s')
  | EmptyString => EmptyString
  end.

Definition splitnetloc (url : string) : string :=
  match url with
  | String "/" (String "/" rest) => until_delimiter rest
  | _ => EmptyString
  end.

(** [urlparse(url).netloc]. An authority with a square bracket or a
    non-ASCII character is one CPython validates further (the bracketed host
    against the [ipaddress] module, the NFKC form of the rest); those tables
    are not embedded and this parser rejects every such authority, so it is
    CPython's on the others only. *)
Definition netloc (url : string) : option string :=
  let authority :=
    splitnetloc (drop_scheme (remove_unsafe (lstrip_c0_or_space url))) in
  if any_char (fun a => is_char "[" a || is_char "]" a || negb (is_ascii a))
       authority
  then None
  else Some authority.

(** *** The builtin [float] on a string *)

(** [Py_ISSPACE] *)
Definition is_space (a : ascii) : bool := between 9 13 a || is_char " " a.

Definition lower (a : ascii) : ascii :=
  if between 65 90 a then ascii_of_nat (code a + 32) else a.

(** [_Py_string_to_number_with_underscores]: an underscore is dropped when
    it stands between two digits and is an error anywhere else. [prev] is
    the character before, if any. *)
Fixpoint drop_underscores (prev : option ascii) (s : list ascii)
    : option (list ascii) :=
  match s with
  | [] => match prev with
          | Some "_"%char => None
          | _ => Some []
          end
  | c :: s' =>
      if is_char "_" c then
        match prev with
        | Some p => if is_digit p then drop_underscores (Some c) s' else None
        | None => None
        end
      else
        match prev with
        | Some "_"%char =>
            if is_digit c then cons c <$> drop_underscores (Some c) s'
            else None
        | _ => cons c <$> drop_underscores (Some c) s'
        end
  end.

Fixpoint lstrip_space (s : list ascii) : list ascii :=
  match s with
  | c :: s' => if is_space c then lstrip_space s' else s
  | [] => []
  end.

Definition strip_space (s : list ascii) : list ascii :=
  rev (lstrip_space (rev (lstrip_space s))).

(** the leading digits and the rest *)
Fixpoint span_digits (s : list ascii) : list ascii * list ascii :=
  match s with
  | c :: s' =>
      if is_digit c then
        let '(ds, rest) := span_digits s' in (c :: ds, rest)
      else ([], s)
  | [] => ([], [])
  end.

Definition digits_value (ds : list ascii) : Z :=
  fold_left (fun acc c => 10 * acc + (Z.of_nat (code c) - 48)) ds 0.

(** an optional sign and the rest *)
Definition split_sign (s : list ascii) : bool * list ascii :=
  match s with
  | "-"%char :: s' => (true, s')
  | "+"%char :: s' => (false, s')
  | _ => (false, s)
  end.

(** The exponent part: [e] or [E], an optional sign, digits, and nothing
    after them. An empty rest is the exponent zero. *)
Definition exponent (s : list ascii) : option Z :=
  match s with
  | [] => Some 0
  | c :: s' =>
      if is_char "e" (lower c) then
        let '(neg, s'') := split_sign s' in
        match span_digits s'' with
        | ((_ :: _) as ds, []) =>
            Some (if neg then - digits_value ds else digits_value ds)
        | _ => None
        end
      else None
  end.

(** The binary64 number nearest to [m * 10 ^ e], ties to even, for
    [0 < m]. *)
Definition round_decimal (neg : bool) (m e : Z) : spec_float :=
  if (0 <=? e)%Z then
    binary_normalize 53 1024 (if neg then - (m * 10 ^ e) else m * 10 ^ e) 0 neg
  else
    let '(q, e2, l) := SFdiv_core_binary 53 1024 m 0 (10 ^ (- e)) 0 in
    binary_round_aux 53 1024 neg q e2 l.

(** An optional sign, then digits, a point and digits (a digit at least on
    one side of the point) and an optional exponent; or a sign and one of
    inf, infinity and nan, in any case of the letters. *)
Definition parse_float (s : list ascii) : option spec_float :=
  let '(neg, body) := split_sign s in
  let word := string_of_list_ascii (map lower body) in
  if String.eqb word "inf" || String.eqb word "infinity" then
    Some (S754_infinity neg)
  else if String.eqb word "nan" then Some S754_nan
  else
    let '(int_part, after_int) := span_digits body in
    let '(frac_part, after_frac) :=
      match after_int with
      | "."%char :: s' => span_digits s'
      | _ => ([], after_int)
      end in
    match (int_part ++ frac_part)%list with
    | [] => None
    | (_ :: _) as ds =>
        match exponent after_frac with
        | None => None
        | Some e =>
            let m := digits_value ds in
            if (m =? 0)%Z then Some (S754_zero neg)
            else Some (round_decimal neg m (e - Z.of_nat (length frac_part)))
        end
    end.

(** [float(s)] for a string of ASCII characters; a string with another
    character is rejected, although CPython accepts the Unicode digits and
    spaces among them. *)
Definition float_of_string (s : string) : option spec_float :=
  let chars := list_ascii_of_string s in
  if forallb is_ascii chars then
    drop_underscores None chars ≫= fun chars' => parse_float (strip_space chars')
  else None.

(** *** [str(PurePosixPath(s))] *)

(** [s.split('/')], with [current] for the part being read *)
Fixpoint split_slash (s current : string) : list string :=
  match s with
  | EmptyString => [current]
  | String a s' =>
      if is_char "/" a then (current :: split_slash s' EmptyString)%list
      else split_slash s' (current +:+ String a EmptyString)
  end.

(** the root: two leading slashes are kept, one or more than two are one *)
Definition root_of (s : string) : string :=
  match s with
  | String a (String b (String c _)) =>
      if is_char "/" a && is_char "/" b
      then if is_char "/" c then "/" else "//"
      else if is_char "/" a then "/" else EmptyString
  | String a (String b EmptyString) =>
      if is_char "/" a && is_char "/" b then "//"
      else if is_char "/" a then "/" else EmptyString
  | String a EmptyString => if is_char "/" a then "/" else EmptyString
  | EmptyString => EmptyString
  end.

(** the parts: empty components and [.] are dropped, [..] is kept *)
Definition parts_of (s : string) : list string :=
  List.filter (fun part => negb (String.eqb part "") && negb (String.eqb part "."))
    (split_slash s EmptyString).

Definition pure_path (s : string) : string :=
  match root_of s, parts_of s with
  | EmptyString, [] => "."
  | root, parts => root +:+ String.concat "/" parts
  end.

(** A browser that is closed ([None]) or holds a cookie jar: [add_cookies]
    raises on the closed one and stores the cookies in the other. *)
Definition runtime : Runtime :=
  {| browser := option (list Cookie.t);
     ctx := unit;
     add_cookies := fun _ cookies b =>
       match b with
       | Some jar => (None, Some (jar ++ cookies)%list)
       | None => (Some "Target page, context or browser has been closed", None)
       end;
     urlparse_netloc := netloc;
     float_of_str := float_of_string;
     fspath := pure_path |}.

End CPython.

(** ** What the statements are written with *)

Section Readings.

Context {R : Runtime}.

(** The status test of the URL loop lets the entry through. *)
Definition status_admits (status_filter : option (list Z))
    (entry : Har.Entry) : bool :=
  negb (truthy status_filter)
  || bool_decide (status_of entry ∈ members status_filter).

(** The status filter read as plain membership, which an empty list fails. *)
Definition status_member (status_filter : option (list Z))
    (entry : Har.Entry) : bool :=
  bool_decide (status_of entry ∈ members status_filter).

(** The domain test goes through without [urlparse] raising. *)
Definition url_parses (filter_domains : option (list string))
    (entry : Har.Entry) : bool :=
  match HarLoader.domain_matches filter_domains (url_of entry) with
  | Ok _ => true
  | Raise _ => false
  end.

(** The domain test lets the entry through. *)
Definition domain_admits (filter_domains : option (list string))
    (entry : Har.Entry) : bool :=
  match HarLoader.domain_matches filter_domains (url_of entry) with
  | Ok b => b
  | Raise _ => false
  end.

(** The URLs of the entries both tests let through, in entry order. *)
Definition admitted_urls (filter_domains : option (list string))
    (status_filter : option (list Z)) (entries : list Har.Entry) : list string :=
  map url_of
    (List.filter
       (fun e => status_admits status_filter e && domain_admits filter_domains e)
       entries).

(** The same with the status filter read as plain membership. *)
Definition member_urls (filter_domains : option (list string))
    (status_filter : option (list Z)) (entries : list Har.Entry) : list string :=
  map url_of
    (List.filter
       (fun e => status_member status_filter e && domain_admits filter_domains e)
       entries).

(** The first entry at which the URL loop raises, if there is one. *)
Definition first_unparsed (filter_domains : option (list string))
    (status_filter : option (list Z)) (entries : list Har.Entry)
    : option Har.Entry :=
  List.find
    (fun e => status_admits status_filter e && negb (url_parses filter_domains e))
    entries.

(** The state the cookie loop starts from. *)
Definition fresh : HarLoader.loop_state := HarLoader.mkLoop [] ∅ [].

(** The output cookie of a raw one. *)
Definition normalized (cookie : Har.RawCookie) : Cookie.t :=
  HarLoader.cookie_obj cookie (fst (HarLoader.expires_value cookie)).

(** What [expires] may be in an output cookie: [None], or a value that
    passes [isinstance(_, (int, float))]. *)
Definition number_or_none (v : json) : bool := is_int_or_float v || is_none v.

(** What [load_cookies_from_har] does once the loop is over: [st] is the
    state the loop ended in and [stopped] what it raised. *)
Definition after_loop (context : ctx) (st : HarLoader.loop_state)
    (stopped : option exn) (w : world) : result (list Cookie.t) * world :=
  match stopped with
  | Some e => (Raise e, record (HarLoader.warnings st) w)
  | None =>
      match HarLoader.cookies st with
      | [] =>
          (Ok [], record (HarLoader.warnings st ++ [EvLog WARNING MsgNoCookies]) w)
      | _ :: _ =>
          let '(raised, b) :=
            add_cookies context (HarLoader.cookies st) (chromium w) in
          (match raised with
           | Some msg => Raise (PlaywrightError msg)
           | None => Ok (HarLoader.cookies st)
           end,
           mkWorld (fs w) (blocked w) b
             (trace w ++ HarLoader.warnings st
                ++ [EvLog INFO (MsgLoadedCookies (length (HarLoader.cookies st)));
                    EvAddCookies (HarLoader.cookies st)]))
      end
  end.

(** The raw cookies the loop gets to see, in order: those of the entries
    that the domain test keeps. *)
Definition kept_cookies (filter_domains : option (list string))
    (entries : list Har.Entry) : list Har.RawCookie :=
  flat_map cookies_of (List.filter (domain_admits filter_domains) entries).

(** The first cookie of every key, in order of appearance. *)
Fixpoint firsts (cookies : list Har.RawCookie) : list Har.RawCookie :=
  match cookies with
  | [] => []
  | c :: cookies' =>
      c :: List.filter
             (fun c' => negb (String.eqb (HarLoader.cookie_key c')
                                         (HarLoader.cookie_key c)))
             (firsts cookies')
  end.

(** The key is new to the set. *)
Definition unseen (seen : gset string) (cookie : Har.RawCookie) : bool :=
  bool_decide (HarLoader.cookie_key cookie ∉ seen).

(** Every cookie collected so far has such an [expires]. *)
Definition expires_shaped (st : HarLoader.loop_state) : Prop :=
  Forall (fun c => number_or_none (Cookie.expires c) = true) (HarLoader.cookies st).

End Readings.

(** The binary64 number nearest to an integer. *)
Definition binary64_of_Z (n : Z) : spec_float := binary_normalize 53 1024 n 0 false.

(** The text after the last [c], all of it when there is none. *)
Fixpoint after_last (c : ascii) (s : string) : string :=
  match s with
  | EmptyString => EmptyString
  | String a s' =>
      if CPython.any_char (CPython.is_char c) s' then after_last c s'
      else if Ascii.eqb a c then s' else s
  end.

(** The text before the first [c], all of it when there is none. *)
Fixpoint before_first (c : ascii) (s : string) : string :=
  match s with
  | EmptyString => EmptyString
  | String a s' => if Ascii.eqb a c then EmptyString else String a (before_first c s')
  end.

(** The domain of a URL in the words of the specification: the host of the
    authority, without the user information before it and the port after
    it. The code does not compute it; the statements compare it with the
    netloc that the code tests. *)
Definition host_component (authority : string) : string :=
  before_first ":" (after_last "@" authority).

(** ** Sample archives *)

Module Sample.

Definition cookie (name domain : option string) (expires : option json)
    : Har.RawCookie :=
  Har.mkRawCookie name None domain None expires None None None.

Definition entry (url : string) (cookies : list Har.RawCookie) (status : Z)
    : Har.Entry :=
  Har.mkEntry (Some (Har.mkRequest (Some url) (Some cookies)))
              (Some (Har.mkResponse (Some status) None)).

Definition document (entries : list Har.Entry) : Har.Document :=
  Har.mkDocument (Some (Har.mkLog (Some entries))).

(** one cookie whose [expires] is JSON null *)
Definition null_expires : Har.Document :=
  document
    [entry "https://a.example.com/" [cookie (Some "sid") (Some "a.example.com") (Some JNull)] 200].

(** the three shapes of [expires] the specification names *)
Definition expiries : Har.Document :=
  document
    [entry "https://a.example.com/"
       [cookie (Some "stamp") (Some "a.example.com") (Some (JStr "1700000000"));
        cookie (Some "junk") (Some "a.example.com") (Some (JStr "not-a-number"));
        cookie (Some "plain") (Some "a.example.com") None] 200].

(** two cookies of different name and domain whose keys are the same text *)
Definition colliding : Har.Document :=
  document
    [entry "https://c/"
       [cookie (Some "a@b") (Some "c") None; cookie (Some "a") (Some "b@c") None] 200].

(** a request to a port that is not the default one *)
Definition with_port : Har.Document :=
  document
    [entry "https://a.example.com:8443/x" [cookie (Some "sid") (Some "a.example.com") None] 200].

(** the scenario of the specification: two entries on [a.example.com] with
    the cookie [sid], one on [b.other.com] answered 404 *)
Definition scenario : Har.Document :=
  document
    [entry "https://a.example.com/login" [cookie (Some "sid") (Some "a.example.com") None] 200;
     entry "https://a.example.com/home" [cookie (Some "sid") (Some "a.example.com") None] 200;
     entry "https://b.other.com/missing" [] 404].

Definition disk : gmap string file :=
  {[ "null.har" := Json null_expires;
     "expiries.har" := Json expiries;
     "colliding.har" := Json colliding;
     "port.har" := Json with_port;
     "scenario.har" := Json scenario;
     "broken.har" := NotJson ]}.

(** a world with these files, an open browser and nothing logged yet *)
Definition start : world_of (browser (Runtime := CPython.runtime)) :=
  mkWorld disk ∅ (Some []) [].

(** the same with the browser closed *)
Definition closed : world_of (browser (Runtime := CPython.runtime)) :=
  mkWorld disk ∅ None [].

End Sample.

(** ** The scan of the response headers *)

(** Lines 97-102 of [har_loader.py], which [HarLoader.cookie_loop] leaves
    out: after the cookies of a kept entry, the loop walks the response
    headers and compares each lowered name with [set-cookie]; the body of the
    test is [pass]. [lower] is [str.lower]. *)
Module ResponseHeaders.
Section WithRuntime.

Context {R : Runtime}.
Variable lower : string -> string.

(** [entry.get('response', {}).get('headers', [])] *)
Definition headers_of (entry : Har.Entry) : list Har.Header :=
  match Har.response entry with
  | Some r => match Har.headers r with
              | Some hs => hs
              | None => []
              end
  | None => []
  end.

(** [header.get('name', '').lower() == 'set-cookie'] *)
Definition is_set_cookie (header : Har.Header) : bool :=
  String.eqb (lower (default "" (Har.header_name header))) "set-cookie".

(** The loop over the headers: [pass] under the test, nothing otherwise. *)
Definition scan_headers (headers : list Har.Header)
    (st : HarLoader.loop_state) : HarLoader.loop_state :=
  fold_left (fun st' header => if is_set_cookie header then st' else st')
    headers st.

(** The loop over the entries with the scan in its place. *)
Fixpoint cookie_loop (filter_domains : option (list string))
    (entries : list Har.Entry) (st : HarLoader.loop_state)
    : HarLoader.loop_state * option exn :=
  match entries with
  | [] => (st, None)
  | entry :: rest =>
      match HarLoader.domain_matches filter_domains (url_of entry) with
      | Raise e => (st, Some e)
      | Ok false => cookie_loop filter_domains rest st
      | Ok true =>
          cookie_loop filter_domains rest
            (scan_headers (headers_of entry)
               (fold_left HarLoader.process_cookie (cookies_of entry) st))
      end
  end.

End WithRuntime.
End ResponseHeaders.

(** ** [examples/features/load_from_har.py]: the choice of the start page *)

Module StartPage.

(** [any(url.endswith(ext) for ext in ['.jpg', '.png', '.gif', '.css', '.js'])] *)
Definition is_media (url : string) : bool :=
  existsb (fun ext => endswith url ext) [".jpg"; ".png"; ".gif"; ".css"; ".js"].

(** Truth value of a string or [None]: [None] and the empty string are
    falsy. *)
Definition truthy_str (o : option string) : bool :=
  match o with
  | Some (String _ _) => true
  | _ => false
  end.

(** The [for] loop of lines 111-115: the first URL that is not a media
    resource, [None] when the loop ends without a [break]. *)
Definition first_page (urls : list string) : option string :=
  List.find (fun url => negb (is_media url)) urls.

(** Lines 107-120: [initial_url] before the default is applied. *)
Definition candidate (urls : list string) : option string :=
  match urls with
  | [] => None
  | first :: _ =>
      let initial_url := first_page urls in
      if negb (truthy_str initial_url) then Some first else initial_url
  end.

Definition default_url : string := "https://www.example.com".

(** Lines 107-127: the URL the agent is sent to. *)
Definition initial_url (urls : list string) : string :=
  match candidate urls with
  | Some url => if truthy_str (Some url) then url else default_url
  | None => default_url
  end.

End StartPage.

(** ** [examples/features/load_from_har.py]: the script *)

(** What the agent is asked to do: the page to visit and the instruction
    for the case that it finds itself logged in. The task text is formatted
    from the two. *)
Record task : Type := mkTask {
  start_url : string;
  prompt : string
}.

(** What the script needs of browser-use and of its own environment. Each
    call acts on the browser and returns normally or raises. *)
Class Host {R : Runtime} : Type := {
  (** [os.path.join(os.path.dirname(__file__), 'example.har')] *)
  example_har : string;
  (** [Browser()] *)
  start_browser : browser -> option exn * browser;
  (** [await browser.new_context(config=BrowserContextConfig())] *)
  new_context : browser -> result HarExtension.BrowserContext * browser;
  (** [Agent(browser_context=context, task=..., llm=ChatOpenAI(model='gpt-4o'))] *)
  create_agent : HarExtension.BrowserContext -> task -> browser -> option exn * browser;
  (** [await agent.run()] *)
  run_agent : HarExtension.BrowserContext -> task -> browser -> option exn * browser;
  (** [await context.close()] *)
  close_context : HarExtension.BrowserContext -> browser -> option exn * browser
}.

Module LoadFromHar.

Inductive severity : Type := Debug | Info | Error.

(** The messages of the script, by the data they are formatted from, in the
    order of the source. *)
Inductive note : Type :=
| ScriptStarted
| PathGiven (path : string)
| PathDefault (path : string)
| Usage
| PromptGiven (prompt : string)
| PromptDefault
| HarMissing (path : string)
| GiveValidPath
| HarValid
| CreatingBrowser
| BrowserCreated
| BrowserFailed (e : exn)
| CreatingContext
| ContextCreated
| ContextFailed (e : exn)
| LoadingCookies (path : string)
| CookiesLoaded
| ExtractingUrls
| UrlCount (count : nat)
| UrlSample (urls : list string)
| SeekingStart
| FilteringMedia
| FoundPage (url : string)
| UsingFirst (url : string)
| UsingDefault (url : string)
| StartIs (url : string)
| CreatingAgent
| AgentCreated
| RunningAgent
| AgentDone
| AgentFailed (e : exn)
| RunFailed (e : exn)
| Cleaning
| ContextClosed
| CloseFailed (e : exn)
| ScriptFinished.

(** What the script does besides what the HAR modules do: it logs and it
    calls browser-use. *)
Inductive step : Type :=
| Said (s : severity) (n : note)
| CalledBrowser
| CalledNewContext
| CalledAgent (t : task)
| CalledRun (t : task)
| CalledClose.

(** The world of the HAR modules and the journal of the script. *)
Record script_of (B : Type) : Type := mkScript {
  host : world_of B;
  journal : list step
}.
Arguments mkScript {B} host journal.
Arguments host {B} s.
Arguments journal {B} s.

Abbreviation script := (script_of browser).

Section WithHost.

Context {R : Runtime} {H : Host}.

Definition S (A : Type) : Type := script -> result A * script.

Definition sret {A : Type} (a : A) : S A := fun s => (Ok a, s).

Definition sbind {A B : Type} (m : S A) (k : A -> S B) : S B :=
  fun s => match m s with
           | (Ok a, s') => k a s'
           | (Raise e, s') => (Raise e, s')
           end.

(** [try: m except Exception as e: ...], with the outcome as a value. *)
Definition catch {A : Type} (m : S A) : S (result A) :=
  fun s => let '(r, s') := m s in (Ok r, s').

Definition say (sev : severity) (n : note) : S unit :=
  fun s => (Ok tt, mkScript (host s) (journal s ++ [Said sev n])).

(** A call of the HAR modules, in their world. *)
Definition core {A : Type} (m : M A) : S A :=
  fun s => let '(r, w) := m (host s) in (r, mkScript w (journal s)).

(** A call of browser-use that returns nothing. *)
Definition call (what : step) (f : browser -> option exn * browser) : S unit :=
  fun s => let '(raised, b) := f (chromium (host s)) in
           (match raised with
            | Some e => Raise e
            | None => Ok tt
            end,
            mkScript (mkWorld (fs (host s)) (blocked (host s)) b (trace (host s)))
                     (journal s ++ [what])).

(** [await browser.new_context(...)] *)
Definition call_new_context : S HarExtension.BrowserContext :=
  fun s => let '(r, b) := new_context (chromium (host s)) in
           (r, mkScript (mkWorld (fs (host s)) (blocked (host s)) b
                           (trace (host s)))
                        (journal s ++ [CalledNewContext])).

End WithHost.

Declare Scope script_scope.
Delimit Scope script_scope with script.
Notation "x <- m ;; k" := (sbind m (fun x => k))
  (at level 100, m at next level, right associativity) : script_scope.
Notation "m ;;; k" := (sbind m (fun _ => k))
  (at level 100, right associativity) : script_scope.

Section Script.

Context {R : Runtime} {H : Host}.

Local Open Scope script_scope.

(** The default of [login_prompt]. *)
Definition default_prompt : string :=
  "请告诉我当前登录的用户名或账户信息。".

(** Lines 44-61: the path of the archive and the prompt, from [sys.argv]. *)
Definition arguments (argv : list string) : S (string * string) :=
  har_file_path <- match argv with
                   | _ :: path :: _ => say Info (PathGiven path) ;;; sret path
                   | _ =>
                       say Info (PathDefault example_har) ;;;
                       say Info Usage ;;;
                       sret example_har
                   end ;;
  login_prompt <- match argv with
                  | _ :: _ :: given :: _ =>
                      say Info (PromptGiven given) ;;; sret given
                  | _ => say Info PromptDefault ;;; sret default_prompt
                  end ;;
  sret (har_file_path, login_prompt).

(** Lines 105-127: the choice of the start page, with what it logs. *)
Definition choose (urls : list string) : S string :=
  say Info SeekingStart ;;;
  initial_url <- match urls with
                 | [] => sret None
                 | first :: _ =>
                     say Info FilteringMedia ;;;
                     found <- match StartPage.first_page urls with
                              | Some url => say Info (FoundPage url) ;;; sret (Some url)
                              | None => sret None
                              end ;;
                     if negb (StartPage.truthy_str found)
                     then say Info (UsingFirst first) ;;; sret (Some first)
                     else sret found
                 end ;;
  match initial_url with
  | Some ((String _ _) as url) => say Info (StartIs url) ;;; sret url
  | _ =>
      say Info (UsingDefault StartPage.default_url) ;;;
      sret StartPage.default_url
  end.

(** Lines 129-150: the agent, inside its own [try]. *)
Definition agent (context : HarExtension.BrowserContext) (t : task) : S unit :=
  say Info CreatingAgent ;;;
  outcome <- catch (call (CalledAgent t) (create_agent context t) ;;;
                    say Info AgentCreated ;;;
                    say Info RunningAgent ;;;
                    call (CalledRun t) (run_agent context t) ;;;
                    say Info AgentDone) ;;
  match outcome with
  | Ok _ => sret tt
  | Raise e => say Error (AgentFailed e)
  end.

(** Lines 92-150: the body of the outer [try]. *)
Definition session (context : HarExtension.BrowserContext)
    (har_file_path login_prompt : string) : S unit :=
  say Info (LoadingCookies har_file_path) ;;;
  core (HarExtension.load_from_har context har_file_path None) ;;;
  say Info CookiesLoaded ;;;
  say Info ExtractingUrls ;;;
  urls <- core (HarExtension.extract_urls_from_har har_file_path None
                  (Passed (Some [200]))) ;;
  say Info (UrlCount (length urls)) ;;;
  match urls with
  | _ :: _ => say Debug (UrlSample (firstn 3 urls))
  | [] => sret tt
  end ;;;
  initial_url <- choose urls ;;
  agent context (mkTask initial_url login_prompt).

(** Lines 154-163: the [finally] clause. *)
Definition cleanup (context : HarExtension.BrowserContext) : S unit :=
  say Info Cleaning ;;;
  closed <- catch (call CalledClose (close_context context) ;;;
                   say Info ContextClosed) ;;
  match closed with
  | Ok _ => sret tt
  | Raise e => say Error (CloseFailed e)
  end ;;;
  say Info ScriptFinished.

Definition main (argv : list string) : S unit :=
  say Info ScriptStarted ;;;
  args <- arguments argv ;;
  let '(har_file_path, login_prompt) := args in
  found <- core (path_exists har_file_path) ;;
  if negb found then
    say Error (HarMissing har_file_path) ;;;
    say Info GiveValidPath
  else
    say Info HarValid ;;;
    say Info CreatingBrowser ;;;
    started <- catch (call CalledBrowser start_browser ;;;
                      say Info BrowserCreated) ;;
    match started with
    | Raise e => say Error (BrowserFailed e)
    | Ok _ =>
        opened <- catch (say Info CreatingContext ;;;
                         context <- call_new_context ;;
                         say Info ContextCreated ;;;
                         sret context) ;;
        match opened with
        | Raise e => say Error (ContextFailed e)
        | Ok context =>
            ran <- catch (session context har_file_path login_prompt) ;;
            match ran with
            | Ok _ => sret tt
            | Raise e => say Error (RunFailed e)
            end ;;;
            cleanup context
        end
    end.

End Script.

End LoadFromHar.

(** ** What the statements about the script are written with *)

Section ScriptReadings.

Context {R : Runtime} {H : Host}.

(** The steps that a run has added to the journal. *)
Definition added {A : Type} (m : LoadFromHar.S A) (s : LoadFromHar.script)
    : list LoadFromHar.step :=
  drop (length (LoadFromHar.journal s)) (LoadFromHar.journal (snd (m s))).

(** A step that only logs. *)
Definition is_talk (st : LoadFromHar.step) : Prop :=
  exists sev n, st = LoadFromHar.Said sev n.

(** A step that calls browser-use. *)
Definition is_call (st : LoadFromHar.step) : bool :=
  match st with
  | LoadFromHar.Said _ _ => false
  | _ => true
  end.

(** The calls of browser-use among the steps, in order. *)
Definition calls (steps : list LoadFromHar.step) : list LoadFromHar.step :=
  List.filter is_call steps.

(** The path that the script takes from its arguments. *)
Definition har_path_of (argv : list string) : string :=
  match argv with
  | _ :: path :: _ => path
  | _ => example_har
  end.

(** The prompt that the script takes from its arguments. *)
Definition prompt_of (argv : list string) : string :=
  match argv with
  | _ :: _ :: given :: _ => given
  | _ => LoadFromHar.default_prompt
  end.

End ScriptReadings.

(** A host of the reference runtime: browser-use works on an open browser
    and fails on a closed one; closing closes. *)
Module Desk.

Definition ready : HarExtension.BrowserContext (R := CPython.runtime) :=
  HarExtension.mkBrowserContext (R := CPython.runtime)
    (Some (HarExtension.mkSession (R := CPython.runtime) (Some tt))).

Definition on_open (b : browser (Runtime := CPython.runtime))
    : option exn * browser (Runtime := CPython.runtime) :=
  match b with
  | Some jar => (None, Some jar)
  | None => (Some (PlaywrightError "Target page, context or browser has been closed"), None)
  end.

Definition host : Host (R := CPython.runtime) :=
  {| example_har := "examples/features/example.har";
     start_browser := on_open;
     new_context := fun b : browser (Runtime := CPython.runtime) =>
       match b with
       | Some jar => (Ok ready, Some jar)
       | None =>
           (Raise (PlaywrightError "Target page, context or browser has been closed"),
            None)
       end;
     create_agent := fun _ _ => on_open;
     run_agent := fun _ _ => on_open;
     close_context := fun _ _ => (None, None : browser (Runtime := CPython.runtime)) |}.

(** the script starts with the sample files, an open browser and nothing
    logged *)
Definition start : LoadFromHar.script_of (browser (Runtime := CPython.runtime)) :=
  LoadFromHar.mkScript Sample.start [].

End Desk.

(** ** More of what the statements are written with *)

Section MoreReadings.

Context {R : Runtime}.

(** The name and the domain of an output cookie. *)
Definition name_and_domain (c : Cookie.t) : json * json :=
  (Cookie.name c, Cookie.domain c).

(** The key of a raw cookie from the name and the domain of its output. *)
Definition key_of_pair (p : json * json) : string :=
  let render (v : json) :=
    match v with
    | JStr s => s
    | _ => "None"
    end in
  render (fst p) +:+ "@" +:+ render (snd p).

(** The domain test on a URL by itself. *)
Definition url_admitted (filter_domains : option (list string))
    (url : string) : bool :=
  match HarLoader.domain_matches filter_domains url with
  | Ok b => b
  | Raise _ => false
  end.

(** The first entry at which the cookie loop raises, if there is one: the
    cookie loop tests the domain of every entry. *)
Definition first_rejected (filter_domains : option (list string))
    (entries : list Har.Entry) : option Har.Entry :=
  List.find (fun e => negb (url_parses filter_domains e)) entries.

(** The warnings that normalizing these cookies logs. *)
Definition warnings_of (cookies : list Har.RawCookie) : list event :=
  flat_map (fun c => snd (HarLoader.expires_value c)) cookies.

(** A warning about an [expires] that is not valid. *)
Definition is_expires_warning (ev : event) : bool :=
  match ev with
  | EvLog WARNING (MsgInvalidExpires _) => true
  | _ => false
  end.

(** The [expires] of the raw cookie is one that lines 76-83 replace by -1:
    it is there, it is neither [None] nor a number, and [float] rejects it. *)
Definition float_rejects (cookie : Har.RawCookie) : bool :=
  match Har.expires cookie with
  | Some v =>
      negb (is_none v) && negb (is_int_or_float v)
      && match HarLoader.float_of v with
         | Some _ => false
         | None => true
         end
  | None => false
  end.

(** The warning that names an output cookie. *)
Definition warning_about (c : Cookie.t) : event :=
  EvLog WARNING (MsgInvalidExpires (Cookie.name c)).

(** What a successful cookie extraction adds to the trace after the loop. *)
Definition closing_events (cookies : list Cookie.t) : list event :=
  match cookies with
  | [] => [EvLog WARNING MsgNoCookies]
  | _ :: _ => [EvLog INFO (MsgLoadedCookies (length cookies)); EvAddCookies cookies]
  end.

End MoreReadings.

(** ** More sample archives *)

Module Archive.

(** an entry whose URL [urlparse] rejects (a bracket that is not closed),
    between two entries it accepts; the first cookie has an [expires] that
    [float] rejects and comes twice *)
Definition with_bad_url : Har.Document :=
  Sample.document
    [Sample.entry "https://a.example.com/"
       [Sample.cookie (Some "sid") (Some "a.example.com") (Some (JStr "soon"));
        Sample.cookie (Some "sid") (Some "a.example.com") (Some (JStr "later"))] 200;
     Sample.entry "http://[bad/" [] 404;
     Sample.entry "https://b.example.com/"
       [Sample.cookie (Some "lang") (Some "b.example.com") None] 200].

(** the same cookies and URLs without the entry that is rejected, and a
    response with a [Set-Cookie] header *)
Definition with_set_cookie : Har.Document :=
  Sample.document
    [Sample.entry "https://a.example.com/"
       [Sample.cookie (Some "sid") (Some "a.example.com") (Some (JStr "soon"));
        Sample.cookie (Some "sid") (Some "a.example.com") (Some (JStr "later"))] 200;
     Har.mkEntry
       (Some (Har.mkRequest (Some "https://b.example.com/")
                (Some [Sample.cookie (Some "lang") (Some "b.example.com") None])))
       (Some (Har.mkResponse (Some 302)
                (Some [Har.mkHeader (Some "Set-Cookie") (Some "fresh=1; Path=/")])));
     Har.mkEntry None None].

(** a document without a [log] *)
Definition without_log : Har.Document := Har.mkDocument None.

Definition disk : gmap string file :=
  {[ "bad-url.har" := Json with_bad_url;
     "set-cookie.har" := Json with_set_cookie;
     "empty.har" := Json without_log ]}.

Definition start : world_of (browser (Runtime := CPython.runtime)) :=
  mkWorld disk ∅ (Some []) [].

End Archive.

(** ** A disk with more on it than files that can be read *)

Module Volume.

(** a name of 300 characters, more than a file name may have *)
Definition long_name : string := string_of_list_ascii (List.repeat "x"%char 300).

(** a name with a NUL character in it *)
Definition nul_name : string := String "a" (String "000" (String "b" EmptyString)).

(** the scenario of the specification and a file whose bytes are not UTF-8 *)
Definition disk : gmap string file :=
  {[ "scenario.har" := Json Sample.scenario;
     "binary.har" := NotUtf8 ]}.

(** two directories, one of them the current one; a file that may not be
    read; two names that run through the file of the scenario; the two names
    above; a file in a directory that may not be searched *)
Definition obstacles : gmap string obstacle :=
  {[ "archives" := Directory;
     "." := Directory;
     "locked.har" := Unreadable;
     "scenario.har/" := NotADirectory;
     "scenario.har/cookies" := NotADirectory;
     nul_name := NullByte;
     long_name := NameTooLong;
     "vault/scenario.har" := NoAccess ]}.

Definition start : world_of (browser (Runtime := CPython.runtime)) :=
  mkWorld disk obstacles (Some []) [].

End Volume.

(** ** The ways a call can go, by what stands at the path *)

Section Calls.

Context {R : Runtime}.

Implicit Types (w : world) (path : string) (evs : list event).
Implicit Types (filter_domains : option (list string)).
Implicit Types (status_filter : option (list Z)).

Lemma record_record evs1 evs2 w :
  record evs2 (record evs1 w) = record (evs1 ++ evs2) w.
Proof. unfold record; simpl. by rewrite <- app_assoc. Qed.

Lemma record_fs evs w : fs (record evs w) = fs w.
Proof. reflexivity. Qed.

Lemma record_chromium evs w : chromium (record evs w) = chromium w.
Proof. reflexivity. Qed.

Lemma record_trace evs w : trace (record evs w) = trace w ++ evs.
Proof. reflexivity. Qed.

Lemma at_name_readable w path f :
  fs w !! path = Some f -> at_name w path = Readable f.
Proof. intros Hfile. unfold at_name. by rewrite Hfile. Qed.

Lemma at_Path_readable w path f :
  fs w !! path = Some f -> at_Path w path = Readable f.
Proof. intros Hfile. unfold at_Path. by rewrite (at_name_readable _ _ _ Hfile). Qed.

Lemma at_name_blocked w path :
  fs w !! path = None ->
  at_name w path = match blocked w !! path with
                   | Some o => Blocked o
                   | None => Nothing
                   end.
Proof. intros Hnone. unfold at_name. by rewrite Hnone. Qed.

Lemma open_answer_ok name x f : open_answer name x = Ok f -> x = Readable f.
Proof. destruct x; simpl; congruence. Qed.

Lemma exists_answer_readable name f : exists_answer name (Readable f) = Ok true.
Proof. reflexivity. Qed.

(** Cookie extraction, by what stands at [Path(path)]. *)
Lemma load_cookies_at context path filter_domains w :
  HarLoader.load_cookies_from_har context path filter_domains w
  = match exists_answer (fspath path) (at_Path w path) with
    | Raise e => (Raise e, record [EvExists path] w)
    | Ok false => (Raise (FileNotFoundError path), record [EvExists path] w)
    | Ok true =>
        match open_answer (fspath path) (at_Path w path) with
        | Raise e => (Raise e, record [EvExists path; EvOpen path] w)
        | Ok NotJson =>
            (Raise JSONDecodeError,
             record [EvExists path; EvOpen path; EvJsonLoad path;
                     EvLog ERROR (MsgCannotParse path)] w)
        | Ok NotUtf8 =>
            (Raise UnicodeDecodeError,
             record [EvExists path; EvOpen path; EvJsonLoad path] w)
        | Ok (Json har_data) =>
            let '(st, stopped) :=
              HarLoader.cookie_loop filter_domains (entries_of har_data) fresh in
            after_loop context st stopped
              (record [EvExists path; EvOpen path; EvJsonLoad path] w)
        end
    end.
Proof.
  unfold HarLoader.load_cookies_from_har, bind, path_exists.
  destruct (exists_answer _ _) as [[|]|e]; simpl; [|done|done].
  unfold open_Path; simpl.
  assert (at_Path (record [EvExists path] w) path = at_Path w path) as ->
    by reflexivity.
  destruct (open_answer _ _) as [[|har_data|]|e]; simpl.
  - unfold try_except, json_load, logger, emit, raise; simpl.
    by rewrite !record_record.
  - unfold try_except, json_load; simpl. rewrite !record_record. simpl.
    unfold fresh.
    destruct (HarLoader.cookie_loop _ _ _) as [st stopped].
    unfold after_loop, emit_all, raise, logger, emit, ret, await_add_cookies.
    destruct stopped as [e|]; [reflexivity|].
    destruct (HarLoader.cookies st) as [|c cs] eqn:Hcs; simpl.
    + by rewrite record_record.
    + destruct (add_cookies _ _ _) as [[msg|] b]; simpl;
        by rewrite <- !app_assoc.
  - unfold try_except, json_load, raise; simpl. by rewrite !record_record.
  - by rewrite record_record.
Qed.

Lemma load_cookies_not_json context path filter_domains w :
  fs w !! path = Some NotJson ->
  HarLoader.load_cookies_from_har context path filter_domains w
  = (Raise JSONDecodeError,
     record [EvExists path; EvOpen path; EvJsonLoad path;
             EvLog ERROR (MsgCannotParse path)] w).
Proof.
  intros Hfile. by rewrite load_cookies_at, (at_Path_readable _ _ _ Hfile).
Qed.

Lemma load_cookies_not_utf8 context path filter_domains w :
  fs w !! path = Some NotUtf8 ->
  HarLoader.load_cookies_from_har context path filter_domains w
  = (Raise UnicodeDecodeError,
     record [EvExists path; EvOpen path; EvJsonLoad path] w).
Proof.
  intros Hfile. by rewrite load_cookies_at, (at_Path_readable _ _ _ Hfile).
Qed.

Lemma load_cookies_at_json context path filter_domains w har_data :
  at_Path w path = Readable (Json har_data) ->
  HarLoader.load_cookies_from_har context path filter_domains w
  = let '(st, stopped) :=
      HarLoader.cookie_loop filter_domains (entries_of har_data) fresh in
    after_loop context st stopped
      (record [EvExists path; EvOpen path; EvJsonLoad path] w).
Proof. intros Hat. by rewrite load_cookies_at, Hat. Qed.

Lemma load_cookies_json context path filter_domains w har_data :
  fs w !! path = Some (Json har_data) ->
  HarLoader.load_cookies_from_har context path filter_domains w
  = let '(st, stopped) :=
      HarLoader.cookie_loop filter_domains (entries_of har_data) fresh in
    after_loop context st stopped
      (record [EvExists path; EvOpen path; EvJsonLoad path] w).
Proof. intros Hfile. by apply load_cookies_at_json, at_Path_readable. Qed.

(** A call that returns has found a document at [Path(path)]. *)
Lemma load_cookies_ok context path filter_domains w cookies w' :
  HarLoader.load_cookies_from_har context path filter_domains w = (Ok cookies, w') ->
  exists har_data, at_Path w path = Readable (Json har_data).
Proof.
  rewrite load_cookies_at. intros Hrun.
  destruct (exists_answer _ _) as [[|]|e]; [|done|done].
  destruct (open_answer _ _) as [[|har_data|]|e] eqn:Hopen; try done.
  exists har_data. by apply open_answer_ok in Hopen.
Qed.

(** URL extraction, by what stands at the name. *)
Lemma extract_urls_missing path filter_domains status_filter w :
  fs w !! path = None ->
  HarLoader.extract_urls_from_har path filter_domains status_filter w
  = (Raise match blocked w !! path with
           | Some o => refused path o
           | None => FileNotFoundError path
           end,
     record [EvOpen path] w).
Proof.
  intros Hnone. unfold HarLoader.extract_urls_from_har, bind, open_file.
  rewrite (at_name_blocked _ _ Hnone). by destruct (blocked w !! path).
Qed.

Lemma extract_urls_not_json path filter_domains status_filter w :
  fs w !! path = Some NotJson ->
  HarLoader.extract_urls_from_har path filter_domains status_filter w
  = (Raise JSONDecodeError, record [EvOpen path; EvJsonLoad path] w).
Proof.
  intros Hfile. unfold HarLoader.extract_urls_from_har, bind, open_file.
  rewrite (at_name_readable _ _ _ Hfile). unfold json_load; simpl.
  by rewrite record_record.
Qed.

Lemma extract_urls_not_utf8 path filter_domains status_filter w :
  fs w !! path = Some NotUtf8 ->
  HarLoader.extract_urls_from_har path filter_domains status_filter w
  = (Raise UnicodeDecodeError, record [EvOpen path; EvJsonLoad path] w).
Proof.
  intros Hfile. unfold HarLoader.extract_urls_from_har, bind, open_file.
  rewrite (at_name_readable _ _ _ Hfile). unfold json_load; simpl.
  by rewrite record_record.
Qed.

Lemma extract_urls_json path filter_domains status_filter w har_data :
  fs w !! path = Some (Json har_data) ->
  HarLoader.extract_urls_from_har path filter_domains status_filter w
  = (HarLoader.url_loop filter_domains status_filter (entries_of har_data) [],
     record [EvOpen path; EvJsonLoad path] w).
Proof.
  intros Hfile. unfold HarLoader.extract_urls_from_har, bind, open_file.
  rewrite (at_name_readable _ _ _ Hfile). unfold json_load, lift; simpl.
  rewrite record_record.
  by destruct (HarLoader.url_loop _ _ _ _).
Qed.

End Calls.

(** ** The two loops *)

Section Loops.

Context {R : Runtime}.

Implicit Types (filter_domains : option (list string)).
Implicit Types (status_filter : option (list Z)).
Implicit Types (entries : list Har.Entry) (st : HarLoader.loop_state).

Lemma endswith_refl s : endswith s s = true.
Proof. destruct s; cbn [endswith]; by rewrite String.eqb_refl. Qed.

(** [endswith] is the suffix relation. *)
Lemma endswith_spec s suffix :
  endswith s suffix = true <-> exists front, s = front +:+ suffix.
Proof.
  induction s as [|a s IH]; cbn [endswith].
  - destruct (String.eqb_spec "" suffix) as [<-|Hne].
    + split; [by exists ""|done].
    + split; [done|]. intros [front Hfront]. destruct front; simpl in *; [done|].
      discriminate.
  - destruct (String.eqb_spec (String a s) suffix) as [<-|Hne].
    + split; [by exists ""|done].
    + rewrite IH. split.
      * intros [front ->]. by exists (String a front).
      * intros [front Hfront]. destruct front as [|b front].
        -- simpl in Hfront. by subst.
        -- exists front. by injection Hfront.
Qed.

Lemma domain_matches_raise filter_domains url e :
  HarLoader.domain_matches filter_domains url = Raise e -> e = ValueError url.
Proof.
  unfold HarLoader.domain_matches.
  destruct (truthy filter_domains); [|done].
  destruct (urlparse_netloc url); [done|]. congruence.
Qed.

(** When the entry is kept by the domain test. *)
Lemma domain_matches_kept filter_domains url :
  HarLoader.domain_matches filter_domains url = Ok true <->
  truthy filter_domains = false \/
  exists domain d front,
    truthy filter_domains = true /\ urlparse_netloc url = Some domain /\
    In d (members filter_domains) /\ domain = front +:+ d.
Proof.
  unfold HarLoader.domain_matches.
  destruct (truthy filter_domains) eqn:Htruthy.
  - destruct (urlparse_netloc url) as [domain|].
    + split.
      * intros [= Hex]. right. apply existsb_exists in Hex as (d & Hin & Hend).
        apply endswith_spec in Hend as [front ->]. by exists (front +:+ d), d, front.
      * intros [?|(domain' & d & front & _ & [= <-] & Hin & ->)]; [done|].
        f_equal. apply existsb_exists. exists d. split; [done|].
        apply endswith_spec. by exists front.
    + split; [done|]. intros [?|(? & ? & ? & _ & ? & _)]; done.
  - split; [by left|done].
Qed.

(** A falsy domain filter is no filter: the URL is not even parsed. *)
Lemma domain_matches_falsy filter_domains url :
  truthy filter_domains = false ->
  HarLoader.domain_matches filter_domains url = Ok true.
Proof. unfold HarLoader.domain_matches. by intros ->. Qed.

(** The URL loop, in one equation. *)
Lemma url_loop_spec filter_domains status_filter entries urls :
  HarLoader.url_loop filter_domains status_filter entries urls
  = match first_unparsed filter_domains status_filter entries with
    | Some e => Raise (ValueError (url_of e))
    | None => Ok (urls ++ admitted_urls filter_domains status_filter entries)
    end.
Proof.
  revert urls.
  induction entries as [|entry rest IH]; intros urls.
  - unfold admitted_urls; simpl. by rewrite app_nil_r.
  - cbn [HarLoader.url_loop].
    unfold first_unparsed, admitted_urls in *. cbn [find List.filter].
    assert (truthy status_filter
            && negb (bool_decide (status_of entry ∈ members status_filter))
            = negb (status_admits status_filter entry)) as ->.
    { unfold status_admits.
      by destruct (truthy status_filter), (bool_decide _). }
    destruct (status_admits status_filter entry); simpl; [|apply IH].
    destruct (HarLoader.domain_matches filter_domains (url_of entry))
      as [b|e] eqn:Hdom.
    + assert (url_parses filter_domains entry = true) as ->
        by (unfold url_parses; by rewrite Hdom).
      assert (domain_admits filter_domains entry = b) as ->
        by (unfold domain_admits; by rewrite Hdom).
      simpl. destruct b; rewrite IH; [|done].
      destruct (find _ rest); [done|]. simpl. by rewrite <- app_assoc.
    + assert (url_parses filter_domains entry = false) as ->
        by (unfold url_parses; by rewrite Hdom).
      simpl. by rewrite (domain_matches_raise _ _ _ Hdom).
Qed.

(** With a falsy domain filter the URL loop never raises. *)
Lemma first_unparsed_falsy filter_domains status_filter entries :
  truthy filter_domains = false ->
  first_unparsed filter_domains status_filter entries = None.
Proof.
  intros Hfalsy. unfold first_unparsed.
  induction entries as [|entry rest IH]; simpl; [done|].
  unfold url_parses at 1. rewrite domain_matches_falsy by done.
  by rewrite andb_false_r.
Qed.

Lemma first_unparsed_none filter_domains status_filter entries :
  (forall e, In e entries -> status_admits status_filter e = true ->
             url_parses filter_domains e = true) ->
  first_unparsed filter_domains status_filter entries = None.
Proof.
  intros Hparse. unfold first_unparsed.
  destruct (find _ entries) as [e|] eqn:Hfind; [|done].
  apply find_some in Hfind as [Hin Hbad].
  apply andb_true_iff in Hbad as [Hst Hnot].
  rewrite (Hparse e Hin Hst) in Hnot. done.
Qed.

End Loops.

(** ** URL extraction *)

Section Urls.

Context {R : Runtime}.

Implicit Types (w : world) (path : string).
Implicit Types (filter_domains : option (list string)).
Implicit Types (status_filter : option (list Z)).

Lemma status_admits_falsy status_filter e :
  truthy status_filter = false -> status_admits status_filter e = true.
Proof. unfold status_admits. by intros ->. Qed.

Lemma status_admits_truthy status_filter e :
  truthy status_filter = true ->
  status_admits status_filter e = status_member status_filter e.
Proof. unfold status_admits, status_member. by intros ->. Qed.

Lemma domain_admits_falsy filter_domains e :
  truthy filter_domains = false -> domain_admits filter_domains e = true.
Proof.
  intros Hfalsy. unfold domain_admits. by rewrite domain_matches_falsy.
Qed.




(** Every admitted URL is the URL of an entry that passes both tests. *)
Lemma admitted_urls_origin filter_domains status_filter entries url :
  In url (admitted_urls filter_domains status_filter entries) ->
  exists e, In e entries /\ url_of e = url
            /\ status_admits status_filter e = true
            /\ domain_admits filter_domains e = true.
Proof.
  unfold admitted_urls. rewrite in_map_iff.
  intros (e & Hurl & Hin). apply filter_In in Hin as [Hin Hpass].
  apply andb_true_iff in Hpass as [? ?]. by exists e.
Qed.

End Urls.

(** ** Cookie extraction *)

Section Cookies.

Context {R : Runtime}.

Implicit Types (w : world) (path : string) (cookie : Har.RawCookie).
Implicit Types (filter_domains : option (list string)).
Implicit Types (entries : list Har.Entry) (st : HarLoader.loop_state).

(** A cookie whose key was seen leaves the state as it is. *)
Lemma process_cookie_seen st cookie :
  HarLoader.cookie_key cookie ∈ HarLoader.processed_cookies st ->
  HarLoader.process_cookie st cookie = st.
Proof. intros Hseen. unfold HarLoader.process_cookie. by rewrite decide_True. Qed.

(** A cookie with a new key is normalized and appended. *)
Lemma process_cookie_fresh st cookie :
  HarLoader.cookie_key cookie ∉ HarLoader.processed_cookies st ->
  HarLoader.process_cookie st cookie
  = {| HarLoader.cookies := HarLoader.cookies st ++ [normalized cookie];
       HarLoader.processed_cookies :=
         {[HarLoader.cookie_key cookie]} ∪ HarLoader.processed_cookies st;
       HarLoader.warnings :=
         HarLoader.warnings st ++ snd (HarLoader.expires_value cookie) |}.
Proof.
  intros Hnew. unfold HarLoader.process_cookie, normalized.
  rewrite decide_False by done.
  by destruct (HarLoader.expires_value cookie).
Qed.

(** The [expires] that comes out is a number or [None]. *)
Lemma expires_value_shape cookie :
  number_or_none (fst (HarLoader.expires_value cookie)) = true.
Proof.
  unfold HarLoader.expires_value, number_or_none.
  destruct (Har.expires cookie) as [v|]; [|done].
  destruct v; simpl; try done; by destruct (float_of_str _).
Qed.

Lemma process_cookie_shaped st cookie :
  expires_shaped st -> expires_shaped (HarLoader.process_cookie st cookie).
Proof.
  intros Hst. unfold HarLoader.process_cookie.
  destruct (decide _); [done|].
  pose proof (expires_value_shape cookie) as Hshape.
  destruct (HarLoader.expires_value cookie) as [e logged].
  unfold expires_shaped; simpl. apply Forall_app. split; [done|].
  by constructor.
Qed.

Lemma fold_process_cookie_shaped cookies st :
  expires_shaped st ->
  expires_shaped (fold_left HarLoader.process_cookie cookies st).
Proof.
  revert st. induction cookies as [|c cs IH]; intros st Hst; simpl; [done|].
  by apply IH, process_cookie_shaped.
Qed.

Lemma cookie_loop_shaped filter_domains entries st :
  expires_shaped st ->
  expires_shaped (fst (HarLoader.cookie_loop filter_domains entries st)).
Proof.
  revert st. induction entries as [|entry rest IH]; intros st Hst; simpl; [done|].
  destruct (HarLoader.domain_matches _ _) as [[|]|]; simpl; [|by apply IH|done].
  by apply IH, fold_process_cookie_shaped.
Qed.

(** What the call returns is what the loop collected from a fresh state. *)
Lemma load_cookies_returns context path filter_domains w cookies w' :
  HarLoader.load_cookies_from_har context path filter_domains w = (Ok cookies, w') ->
  exists har_data st,
    at_Path w path = Readable (Json har_data)
    /\ HarLoader.cookie_loop filter_domains (entries_of har_data) fresh = (st, None)
    /\ cookies = HarLoader.cookies st.
Proof.
  intros Hrun.
  destruct (load_cookies_ok _ _ _ _ _ _ Hrun) as [har_data Hat].
  rewrite (load_cookies_at_json _ _ _ _ _ Hat) in Hrun.
  destruct (HarLoader.cookie_loop _ _ _) as [st stopped] eqn:Hloop.
  exists har_data, st. split; [done|].
  unfold after_loop in Hrun. destruct stopped; [done|]. split; [done|].
  destruct (HarLoader.cookies st) as [|c cs]; [congruence|].
  destruct (add_cookies _ _ _) as [[msg|] b]; congruence.
Qed.

(** A falsy domain filter takes the cookies of every entry. *)
Lemma cookie_loop_falsy filter_domains entries st :
  truthy filter_domains = false ->
  HarLoader.cookie_loop filter_domains entries st
  = (fold_left
       (fun st' entry => fold_left HarLoader.process_cookie (cookies_of entry) st')
       entries st,
     None).
Proof.
  intros Hfalsy. revert st.
  induction entries as [|entry rest IH]; intros st; simpl; [done|].
  by rewrite domain_matches_falsy, IH.
Qed.

(** The call leaves the files as they are. *)
Lemma load_cookies_fs context path filter_domains w :
  fs (snd (HarLoader.load_cookies_from_har context path filter_domains w)) = fs w.
Proof.
  rewrite load_cookies_at.
  destruct (exists_answer _ _) as [[|]|e]; [|done|done].
  destruct (open_answer _ _) as [[|har_data|]|e]; try done.
  destruct (HarLoader.cookie_loop _ _ _) as [st stopped].
  unfold after_loop. destruct stopped; [done|].
  destruct (HarLoader.cookies st); [done|].
  by destruct (add_cookies _ _ _) as [[msg|] b].
Qed.

(** The call leaves the obstacles as they are. *)
Lemma load_cookies_blocked context path filter_domains w :
  blocked (snd (HarLoader.load_cookies_from_har context path filter_domains w))
  = blocked w.
Proof.
  rewrite load_cookies_at.
  destruct (exists_answer _ _) as [[|]|e]; [|done|done].
  destruct (open_answer _ _) as [[|har_data|]|e]; try done.
  destruct (HarLoader.cookie_loop _ _ _) as [st stopped].
  unfold after_loop. destruct stopped; [done|].
  destruct (HarLoader.cookies st); [done|].
  by destruct (add_cookies _ _ _) as [[msg|] b].
Qed.

End Cookies.

(** ** Deduplication *)

Section Deduplication.

Context {R : Runtime}.

Implicit Types (cookie : Har.RawCookie) (cookies : list Har.RawCookie).
Implicit Types (filter_domains : option (list string)).
Implicit Types (entries : list Har.Entry) (st : HarLoader.loop_state).

Lemma firsts_incl cookies cookie : In cookie (firsts cookies) -> In cookie cookies.
Proof.
  induction cookies as [|c cs IH]; simpl; [done|].
  intros [->|Hin]; [by left|]. right. apply IH.
  by apply filter_In in Hin as [? _].
Qed.

(** No two of the [firsts] have the same key. *)
Lemma firsts_keys_NoDup cookies :
  NoDup (map HarLoader.cookie_key (firsts cookies)).
Proof.
  induction cookies as [|c cs IH]; simpl; [constructor|].
  apply NoDup_cons. split.
  - intros Hin. apply list_elem_of_In, in_map_iff in Hin as (c' & Hkey & Hin).
    apply filter_In in Hin as [_ Hne].
    rewrite Hkey, String.eqb_refl in Hne. done.
  - revert IH. generalize (firsts cs). intros l Hl.
    induction l as [|c' l IHl]; simpl; [constructor|].
    apply NoDup_cons in Hl as [Hnotin Hl].
    destruct (negb _); simpl; [|by apply IHl].
    apply NoDup_cons. split; [|by apply IHl].
    intros Hin. apply Hnotin.
    apply list_elem_of_In, in_map_iff in Hin as (c'' & Hkey & Hin).
    apply filter_In in Hin as [Hin _].
    apply list_elem_of_In, in_map_iff. by exists c''.
Qed.

(** Every key that occurs has its cookie among the [firsts]. *)
Lemma firsts_cover cookies cookie :
  In cookie cookies ->
  exists c, In c (firsts cookies)
            /\ HarLoader.cookie_key c = HarLoader.cookie_key cookie.
Proof.
  induction cookies as [|c cs IH]; simpl; [done|].
  intros [->|Hin]; [exists cookie; by split; [left|]|].
  destruct (IH Hin) as (c' & Hc' & Hkey).
  destruct (String.eqb_spec (HarLoader.cookie_key c') (HarLoader.cookie_key c))
    as [Heq|Hne].
  - exists c. split; [by left|congruence].
  - exists c'. split; [|done]. right. apply filter_In. split; [done|].
    by apply negb_true_iff, String.eqb_neq.
Qed.

(** First occurrence wins: a cookie with no cookie of its key before it is
    among the [firsts]. *)
Lemma firsts_first_wins before cookie after :
  (forall c, In c before ->
             HarLoader.cookie_key c <> HarLoader.cookie_key cookie) ->
  In cookie (firsts (before ++ cookie :: after)).
Proof.
  induction before as [|c cs IH]; simpl; intros Hnone; [by left|].
  right. apply filter_In. split.
  - apply IH. intros c' Hc'. apply Hnone. by right.
  - apply negb_true_iff, String.eqb_neq. intros Heq.
    by apply (Hnone c); [left|].
Qed.

Lemma filter_unseen_insert (seen : gset string) cookie cookies :
  List.filter (unseen seen)
    (List.filter
       (fun c' => negb (String.eqb (HarLoader.cookie_key c')
                                   (HarLoader.cookie_key cookie)))
       cookies)
  = List.filter (unseen ({[HarLoader.cookie_key cookie]} ∪ seen)) cookies.
Proof.
  induction cookies as [|c cs IH]; simpl; [done|].
  unfold unseen at 2.
  destruct (String.eqb_spec (HarLoader.cookie_key c) (HarLoader.cookie_key cookie))
    as [Heq|Hne]; simpl.
  - rewrite bool_decide_eq_false_2 by set_solver. done.
  - unfold unseen at 1.
    destruct (decide (HarLoader.cookie_key c ∈ seen)) as [Hin|Hnotin].
    + rewrite !bool_decide_eq_false_2 by set_solver. done.
    + rewrite !bool_decide_eq_true_2 by set_solver. by rewrite IH.
Qed.

Lemma filter_unseen_firsts (seen : gset string) cookie cookies :
  List.filter (unseen seen) (firsts (cookie :: cookies))
  = if decide (HarLoader.cookie_key cookie ∈ seen)
    then List.filter (unseen seen) (firsts cookies)
    else cookie
         :: List.filter (unseen ({[HarLoader.cookie_key cookie]} ∪ seen))
              (firsts cookies).
Proof.
  cbn [firsts List.filter]. rewrite filter_unseen_insert.
  unfold unseen at 1. destruct (decide _) as [Hin|Hnew].
  - rewrite bool_decide_eq_false_2 by (by intros ?).
    f_equal. f_equal. set_solver.
  - by rewrite bool_decide_eq_true_2.
Qed.

(** The loop over the cookies of one entry appends the normalized [firsts]
    whose key is new, and logs their warnings. *)
Lemma fold_process_cookie_spec cookies st :
  HarLoader.cookies (fold_left HarLoader.process_cookie cookies st)
  = HarLoader.cookies st
    ++ map normalized
         (List.filter (unseen (HarLoader.processed_cookies st)) (firsts cookies))
  /\ HarLoader.warnings (fold_left HarLoader.process_cookie cookies st)
     = HarLoader.warnings st
       ++ flat_map (fun c => snd (HarLoader.expires_value c))
            (List.filter (unseen (HarLoader.processed_cookies st)) (firsts cookies))
  /\ HarLoader.processed_cookies (fold_left HarLoader.process_cookie cookies st)
     = list_to_set (map HarLoader.cookie_key cookies)
       ∪ HarLoader.processed_cookies st.
Proof.
  revert st. induction cookies as [|c cs IH]; intros st.
  - simpl. rewrite !app_nil_r. repeat split. set_solver.
  - cbn [fold_left].
    destruct (IH (HarLoader.process_cookie st c)) as (Hcookies & Hwarn & Hseen).
    rewrite Hcookies, Hwarn, Hseen, filter_unseen_firsts.
    clear IH Hcookies Hwarn Hseen.
    destruct (decide (HarLoader.cookie_key c ∈ HarLoader.processed_cookies st))
      as [Hin|Hnew].
    + rewrite process_cookie_seen by done.
      repeat split. simpl. set_solver.
    + rewrite process_cookie_fresh by done. simpl.
      rewrite <- !app_assoc. repeat split. set_solver.
Qed.

(** A loop that was not stopped has walked the kept cookies in order. *)
Lemma cookie_loop_fold filter_domains entries st st' :
  HarLoader.cookie_loop filter_domains entries st = (st', None) ->
  st' = fold_left HarLoader.process_cookie (kept_cookies filter_domains entries) st.
Proof.
  revert st. induction entries as [|entry rest IH]; intros st; simpl.
  - by intros [= <-].
  - unfold kept_cookies. simpl. unfold domain_admits at 1.
    destruct (HarLoader.domain_matches _ _) as [[|]|]; [| |done].
    + intros Hloop. simpl. rewrite fold_left_app. by apply IH.
    + apply IH.
Qed.

(** What cookie extraction collects: the normalized first cookie of every
    key among the kept cookies, in order of first appearance, and the
    warnings of those cookies. *)
Lemma cookie_loop_firsts filter_domains entries st :
  HarLoader.cookie_loop filter_domains entries fresh = (st, None) ->
  HarLoader.cookies st = map normalized (firsts (kept_cookies filter_domains entries))
  /\ HarLoader.warnings st
     = flat_map (fun c => snd (HarLoader.expires_value c))
         (firsts (kept_cookies filter_domains entries)).
Proof.
  intros Hloop. rewrite (cookie_loop_fold _ _ _ _ Hloop).
  destruct (fold_process_cookie_spec (kept_cookies filter_domains entries) fresh)
    as (Hcookies & Hwarn & _).
  rewrite Hcookies, Hwarn. simpl.
  assert (forall l, List.filter (unseen ∅) l = l) as Hall.
  { induction l as [|c l IHl]; simpl; [done|].
    unfold unseen at 1. rewrite bool_decide_eq_true_2 by set_solver.
    by rewrite IHl. }
  by rewrite Hall.
Qed.

End Deduplication.

(** ** Where keys and domains are what the specification takes them for *)

Section Boundaries.

Context {R : Runtime}.

Lemma append_cons a s t : String a s +:+ t = String a (s +:+ t).
Proof. reflexivity. Qed.

Lemma any_char_append p s t :
  CPython.any_char p (s +:+ t) = CPython.any_char p s || CPython.any_char p t.
Proof.
  induction s as [|a s IH]; [done|].
  rewrite append_cons. simpl. by rewrite IH, orb_assoc.
Qed.

(** Two texts joined by [@] are told apart by the join when neither of the
    right-hand parts has an [@]. *)
Lemma join_at_injective s1 d1 s2 d2 :
  CPython.any_char (CPython.is_char "@") d1 = false ->
  CPython.any_char (CPython.is_char "@") d2 = false ->
  s1 +:+ String "@" d1 = s2 +:+ String "@" d2 ->
  s1 = s2 /\ d1 = d2.
Proof.
  intros Hd1 Hd2. revert s2.
  induction s1 as [|a s1 IH]; intros [|b s2] Heq;
    rewrite ?append_cons in Heq; change ("" +:+ ?s) with s in Heq.
  - by injection Heq.
  - injection Heq as _ ->. rewrite any_char_append in Hd1.
    simpl in Hd1. by rewrite orb_true_r in Hd1.
  - injection Heq as _ <-. rewrite any_char_append in Hd2.
    simpl in Hd2. by rewrite orb_true_r in Hd2.
  - injection Heq as -> Heq. destruct (IH _ Heq) as [-> ->]. done.
Qed.

(** The key tells two cookies apart when both have a name and a domain and
    no domain has an [@] in it: the collisions need such a domain, or a
    missing field next to the text [None]. *)
Lemma cookie_key_injective (c1 c2 : Har.RawCookie) n1 d1 n2 d2 :
  Har.name c1 = Some n1 -> Har.domain c1 = Some d1 ->
  Har.name c2 = Some n2 -> Har.domain c2 = Some d2 ->
  CPython.any_char (CPython.is_char "@") d1 = false ->
  CPython.any_char (CPython.is_char "@") d2 = false ->
  HarLoader.cookie_key c1 = HarLoader.cookie_key c2 ->
  n1 = n2 /\ d1 = d2.
Proof.
  intros Hn1 Hd1 Hn2 Hd2 Hat1 Hat2. unfold HarLoader.cookie_key.
  rewrite Hn1, Hd1, Hn2, Hd2. simpl. by apply join_at_injective.
Qed.

Lemma before_first_none c s :
  CPython.any_char (CPython.is_char c) s = false -> before_first c s = s.
Proof.
  induction s as [|a s IH]; simpl; [done|].
  unfold CPython.is_char at 1. intros Hnone.
  apply orb_false_iff in Hnone as [-> Hnone]. by rewrite IH.
Qed.

Lemma after_last_none c s :
  CPython.any_char (CPython.is_char c) s = false -> after_last c s = s.
Proof.
  induction s as [|a s IH]; simpl; [done|].
  unfold CPython.is_char at 1. intros Hnone.
  apply orb_false_iff in Hnone as [Ha Hnone]. by rewrite Hnone, Ha.
Qed.

(** An authority without user information and port is its own host: on
    such a URL the domain that the code tests is the domain that the
    specification means. *)
Lemma host_component_plain authority :
  CPython.any_char (CPython.is_char "@") authority = false ->
  CPython.any_char (CPython.is_char ":") authority = false ->
  host_component authority = authority.
Proof.
  intros Hat Hcolon. unfold host_component.
  by rewrite after_last_none, before_first_none.
Qed.

End Boundaries.

(** ** The properties of the specification *)

Section Claims.

Context {R : Runtime}.

Implicit Types (w : world) (path : string) (context : ctx).
Implicit Types (filter_domains : option (list string)).
Implicit Types (status_filter : option (list Z)).



(** C4, amended. When the path holds a document, URL extraction returns
    exactly the URLs of the entries whose status (0 when absent) passes the
    status test and whose domain passes the domain test, in entry order
    and once per entry; the status test is membership when the status filter
    is a non-empty list and lets every status through when it is absent or
    empty. The call returns that list unless [urlparse] raises on the URL of
    an entry that reached the domain test, and then it raises too. *)
Theorem extract_urls_postcondition path filter_domains status_filter w har_data :
  fs w !! path = Some (Json har_data) ->
  let entries := entries_of har_data in
  let outcome :=
    fst (HarLoader.extract_urls_from_har path filter_domains status_filter w) in
  (forall urls, outcome = Ok urls ->
     urls = admitted_urls filter_domains status_filter entries)
  /\ ((forall e, In e entries -> status_admits status_filter e = true ->
                 url_parses filter_domains e = true) ->
      outcome = Ok (admitted_urls filter_domains status_filter entries))
  /\ (truthy status_filter = true ->
      admitted_urls filter_domains status_filter entries
      = member_urls filter_domains status_filter entries)
  /\ (truthy status_filter = false ->
      admitted_urls filter_domains status_filter entries
      = map url_of (List.filter (domain_admits filter_domains) entries)).
Proof.
  intros Hfile entries outcome. subst outcome.
  rewrite (extract_urls_json _ _ _ _ _ Hfile). simpl.
  rewrite url_loop_spec. fold entries. repeat split.
  - intros urls Hok.
    destruct (first_unparsed _ _ _); [done|]. by injection Hok as <-.
  - intros Hparse. by rewrite first_unparsed_none.
  - intros Htruthy. unfold admitted_urls, member_urls. f_equal.
    apply filter_ext. intros e. by rewrite status_admits_truthy.
  - intros Hfalsy. unfold admitted_urls. f_equal.
    apply filter_ext. intros e. by rewrite status_admits_falsy.
Qed.

(** C9. [HarLoader.extract_urls_from_har] called without a status filter
    lets the URLs of every status through; [HarExtension.extract_urls_from_har]
    called without one is the former called with [[200]], and what it returns
    are URLs of entries answered with 200. *)
Theorem status_filter_defaults path filter_domains w har_data :
  fs w !! path = Some (Json har_data) ->
  (forall e, In e (entries_of har_data) -> url_parses filter_domains e = true) ->
  HarExtension.extract_urls_from_har path filter_domains Omitted w
  = HarLoader.extract_urls_from_har path filter_domains (Some [200]) w
  /\ fst (HarLoader.extract_urls_from_har path filter_domains None w)
     = Ok (map url_of
             (List.filter (domain_admits filter_domains) (entries_of har_data)))
  /\ fst (HarExtension.extract_urls_from_har path filter_domains Omitted w)
     = Ok (map url_of
             (List.filter
                (fun e => (status_of e =? 200)%Z && domain_admits filter_domains e)
                (entries_of har_data))).
Proof.
  intros Hfile Hparse. split; [reflexivity|]. split.
  - rewrite (extract_urls_json _ _ _ _ _ Hfile). simpl.
    rewrite url_loop_spec, first_unparsed_none by auto.
    unfold admitted_urls. simpl. do 2 f_equal.
  - unfold HarExtension.extract_urls_from_har. simpl.
    rewrite (extract_urls_json _ _ _ _ _ Hfile). simpl.
    rewrite url_loop_spec, first_unparsed_none by auto.
    unfold admitted_urls. simpl. do 2 f_equal.
    apply filter_ext. intros e. f_equal.
    unfold status_admits. simpl.
    destruct (Z.eqb_spec (status_of e) 200) as [->|Hne].
    + apply bool_decide_eq_true_2. by left.
    + apply bool_decide_eq_false_2. intros Hin.
      apply list_elem_of_In in Hin. simpl in Hin. by destruct Hin as [?|[]].
Qed.


(** C7. When the session is missing or has no browser context,
    [load_from_har] logs an error and returns: no file is touched, nothing
    is injected, nothing is raised. Otherwise whatever
    [load_cookies_from_har] raises, the exception of a failed [add_cookies]
    among it, is logged at error level with the exception in the message and
    raised again, and a success is logged at info level. *)
Theorem load_from_har_propagation
    (browser_context : HarExtension.BrowserContext) path filter_domains w :
  (HarExtension.get_session browser_context = None
   \/ (exists session,
         HarExtension.get_session browser_context = Some session
         /\ HarExtension.context session = None) ->
   HarExtension.load_from_har browser_context path filter_domains w
   = (Ok tt, record [EvLog ERROR MsgNoSession] w))
  /\ (forall session playwright,
        HarExtension.get_session browser_context = Some session ->
        HarExtension.context session = Some playwright ->
        (forall e w',
           HarLoader.load_cookies_from_har playwright path filter_domains w
           = (Raise e, w') ->
           HarExtension.load_from_har browser_context path filter_domains w
           = (Raise e, record [EvLog ERROR (MsgLoadFailed e)] w'))
        /\ (forall cookies w',
              HarLoader.load_cookies_from_har playwright path filter_domains w
              = (Ok cookies, w') ->
              HarExtension.load_from_har browser_context path filter_domains w
              = (Ok tt, record [EvLog INFO (MsgLoadSucceeded path)] w'))
        /\ (forall har_data st msg b,
              fs w !! path = Some (Json har_data) ->
              HarLoader.cookie_loop filter_domains (entries_of har_data) fresh
              = (st, None) ->
              HarLoader.cookies st <> [] ->
              add_cookies playwright (HarLoader.cookies st) (chromium w)
              = (Some msg, b) ->
              exists w',
                HarExtension.load_from_har browser_context path filter_domains w
                = (Raise (PlaywrightError msg),
                   record [EvLog ERROR (MsgLoadFailed (PlaywrightError msg))] w'))).
Proof.
  split.
  - intros Hnone. unfold HarExtension.load_from_har.
    destruct Hnone as [->|(session & -> & Hctx)]; simpl; [done|].
    by rewrite Hctx.
  - intros session playwright Hsession Hctx.
    assert (forall r w',
              HarLoader.load_cookies_from_har playwright path filter_domains w
              = (r, w') ->
              HarExtension.load_from_har browser_context path filter_domains w
              = match r with
                | Ok _ => (Ok tt, record [EvLog INFO (MsgLoadSucceeded path)] w')
                | Raise e => (Raise e, record [EvLog ERROR (MsgLoadFailed e)] w')
                end) as Hrun.
    { intros r w' Hload. unfold HarExtension.load_from_har.
      rewrite Hsession. simpl. rewrite Hctx.
      unfold try_except, bind. rewrite Hload. by destruct r. }
    split; [|split].
    + intros e w' Hload. by rewrite (Hrun _ _ Hload).
    + intros cookies w' Hload. by rewrite (Hrun _ _ Hload).
    + intros har_data st msg b Hfile Hloop Hsome Hadd.
      destruct (HarLoader.load_cookies_from_har playwright path filter_domains w)
        as [r w'] eqn:Hload.
      exists w'. rewrite (Hrun r w' eq_refl).
      rewrite (load_cookies_json _ _ _ _ _ Hfile), Hloop in Hload.
      unfold after_loop in Hload.
      destruct (HarLoader.cookies st) as [|c cs]; [done|].
      simpl in Hload. rewrite Hadd in Hload. by injection Hload as <- _.
Qed.

(** C8. When cookie extraction has returned a list, the files and what else
    stands on the disk are as they were, and the call made again, right
    after or in any later world in which [Path(path)] holds what it held,
    computes the same list from a fresh state of the loop: it returns that
    list, unless the browser refuses it this time. *)
Theorem cookie_extraction_idempotent context path filter_domains w cookies w1 :
  HarLoader.load_cookies_from_har context path filter_domains w = (Ok cookies, w1) ->
  (fs w1 = fs w /\ blocked w1 = blocked w)
  /\ (exists har_data st,
        at_Path w path = Readable (Json har_data)
        /\ HarLoader.cookie_loop filter_domains (entries_of har_data) fresh
           = (st, None)
        /\ cookies = HarLoader.cookies st)
  /\ (forall w2, at_Path w2 path = at_Path w path ->
        let again :=
          fst (HarLoader.load_cookies_from_har context path filter_domains w2) in
        again = Ok cookies
        \/ exists msg,
             again = Raise (PlaywrightError msg)
             /\ fst (add_cookies context cookies (chromium w2)) = Some msg)
  /\ (let again :=
        fst (HarLoader.load_cookies_from_har context path filter_domains w1) in
      again = Ok cookies
      \/ exists msg,
           again = Raise (PlaywrightError msg)
           /\ fst (add_cookies context cookies (chromium w1)) = Some msg).
Proof.
  intros Hrun.
  assert (fs w1 = fs w) as Hfs.
  { pose proof (load_cookies_fs context path filter_domains w) as Hsame.
    by rewrite Hrun in Hsame. }
  destruct (load_cookies_returns _ _ _ _ _ _ Hrun)
    as (har_data & st & Hfile & Hloop & ->).
  assert (blocked w1 = blocked w) as Hblocked.
  { pose proof (load_cookies_blocked context path filter_domains w) as Hsame.
    by rewrite Hrun in Hsame. }
  assert (forall w2, at_Path w2 path = at_Path w path ->
            let again :=
              fst (HarLoader.load_cookies_from_har context path filter_domains w2) in
            again = Ok (HarLoader.cookies st)
            \/ exists msg,
                 again = Raise (PlaywrightError msg)
                 /\ fst (add_cookies context (HarLoader.cookies st) (chromium w2))
                    = Some msg) as Hagain.
  { intros w2 Hsame. rewrite Hfile in Hsame. simpl.
    rewrite (load_cookies_at_json _ _ _ _ _ Hsame), Hloop.
    unfold after_loop.
    destruct (HarLoader.cookies st) as [|c cs]; [by left|].
    simpl. destruct (add_cookies _ _ _) as [[msg|] b]; simpl.
    - right. by exists msg.
    - by left. }
  split; [done|]. split; [by exists har_data, st|]. split; [done|].
  apply Hagain. unfold at_Path, at_name. by rewrite Hfs, Hblocked.
Qed.

(** What lines 75-83 do with [expires], case by case. The [expires] of a
    cookie that cookie extraction returns is never a string: it is [None]
    or passes [isinstance(_, (int, float))], which a boolean passes too. An
    absent [expires] becomes -1. A JSON null and a value that passes the
    test are kept as they are, without a warning. A string that [float]
    converts becomes that float, and ["1700000000"] becomes 1700000000.0.
    Any other value becomes -1 with a warning that names the cookie; the
    cookie is still appended to the output and the loop goes on. *)
Theorem expires_normalization :
  (forall context path filter_domains w cookies w',
     HarLoader.load_cookies_from_har context path filter_domains w
     = (Ok cookies, w') ->
     Forall (fun c => number_or_none (Cookie.expires c) = true
                      /\ forall s, Cookie.expires c <> JStr s) cookies)
  /\ (forall cookie, Har.expires cookie = None ->
        HarLoader.expires_value cookie = (JInt (-1), []))
  /\ (forall cookie v, Har.expires cookie = Some v ->
        is_none v || is_int_or_float v = true ->
        HarLoader.expires_value cookie = (v, []))
  /\ (forall cookie s f, Har.expires cookie = Some (JStr s) ->
        float_of_str s = Some f ->
        HarLoader.expires_value cookie = (JFloat f, []))
  /\ (forall cookie v, Har.expires cookie = Some v ->
        is_none v || is_int_or_float v = false ->
        HarLoader.float_of v = None ->
        HarLoader.expires_value cookie
        = (JInt (-1),
           [EvLog WARNING (MsgInvalidExpires (str_or_none (Har.name cookie)))])
        /\ forall st,
             HarLoader.cookie_key cookie ∉ HarLoader.processed_cookies st ->
             HarLoader.cookies (HarLoader.process_cookie st cookie)
             = HarLoader.cookies st ++ [HarLoader.cookie_obj cookie (JInt (-1))])
  /\ CPython.float_of_string "1700000000" = Some (binary64_of_Z 1700000000)
  /\ CPython.float_of_string "not-a-number" = None.
Proof.
  split; [|split; [|split; [|split; [|split; [|split]]]]].
  - intros context path filter_domains w cookies w' Hrun.
    destruct (load_cookies_returns _ _ _ _ _ _ Hrun)
      as (har_data & st & _ & Hloop & ->).
    assert (expires_shaped st) as Hshaped.
    { pose proof (cookie_loop_shaped filter_domains (entries_of har_data) fresh)
        as Hinv.
      rewrite Hloop in Hinv. apply Hinv. constructor. }
    eapply Forall_impl; [exact Hshaped|].
    intros c Hc. split; [done|]. intros s Hs. simpl in Hc. by rewrite Hs in Hc.
  - intros cookie Hexp. unfold HarLoader.expires_value. by rewrite Hexp.
  - intros cookie v Hexp Hkeep. unfold HarLoader.expires_value. rewrite Hexp.
    by destruct v.
  - intros cookie s f Hexp Hfloat. unfold HarLoader.expires_value.
    rewrite Hexp. simpl. by rewrite Hfloat.
  - intros cookie v Hexp Hother Hfloat.
    assert (HarLoader.expires_value cookie
            = (JInt (-1),
               [EvLog WARNING (MsgInvalidExpires (str_or_none (Har.name cookie)))]))
      as Hvalue.
    { unfold HarLoader.expires_value. rewrite Hexp.
      apply orb_false_iff in Hother as [-> ->]. simpl. by rewrite Hfloat. }
    split; [done|]. intros st Hnew.
    rewrite process_cookie_fresh by done. unfold normalized.
    by rewrite Hvalue.
  - by vm_compute.
  - by vm_compute.
Qed.

End Claims.

(** ** The properties on the sample archives *)

(** C1. A cookie whose [expires] is JSON null is returned with [None] for
    [expires], which is neither a number nor -1, and no warning is logged:
    the test of line 76 leaves [None] out of the conversion that the comment
    of line 74 announces for every value. *)
Lemma expires_null_passes_through :
  let run :=
    HarLoader.load_cookies_from_har (R := CPython.runtime) tt "null.har" None
      Sample.start in
  Har.expires (Sample.cookie (Some "sid") (Some "a.example.com") (Some JNull))
  = Some JNull
  /\ HarLoader.float_of (R := CPython.runtime) JNull = None
  /\ map Cookie.expires
       match fst run with
       | Ok cookies => cookies
       | Raise _ => []
       end
     = [JNull]
  /\ is_int_or_float JNull = false
  /\ JNull <> JInt (-1)
  /\ (forall name, ~ In (EvLog WARNING (MsgInvalidExpires name)) (trace (snd run))).
Proof.
  repeat split; try by vm_compute.
  intros name. vm_compute. intros [?|[?|[?|[?|[?|[]]]]]]; discriminate.
Qed.

(** The three shapes of [expires] that the specification names, in one archive. *)
Lemma expires_normalization_witness :
  let run :=
    HarLoader.load_cookies_from_har (R := CPython.runtime) tt "expiries.har" None
      Sample.start in
  map Cookie.expires
    match fst run with
    | Ok cookies => cookies
    | Raise _ => []
    end
  = [JFloat (binary64_of_Z 1700000000); JInt (-1); JInt (-1)]
  /\ Forall (fun c => number_or_none (Cookie.expires c) = true
                      /\ forall s, Cookie.expires c <> JStr s)
       match fst run with
       | Ok cookies => cookies
       | Raise _ => []
       end
  /\ HarLoader.expires_value (R := CPython.runtime)
       (Sample.cookie (Some "junk") (Some "a.example.com") (Some (JStr "not-a-number")))
     = (JInt (-1), [EvLog WARNING (MsgInvalidExpires (JStr "junk"))]).
Proof.
  intros run.
  destruct (expires_normalization (R := CPython.runtime))
    as (Hall & _ & _ & _ & Hother & _ & _).
  split; [by vm_compute|]. split.
  - apply (Hall tt "expiries.har" None Sample.start _ (snd run)).
    by vm_compute.
  - refine (proj1 (Hother _ (JStr "not-a-number") _ _ _)); by vm_compute.
Defined.

(** C2. The cookies [a@b] of domain [c] and [a] of domain [b@c] differ in
    name and in domain, but the key of both is the text [a@b@c]: cookie
    extraction returns the first one only. A cookie without a domain and
    one of the domain ["None"] share their key in the same way. *)
Theorem colliding_keys_drop_a_cookie :
  let first := Sample.cookie (Some "a@b") (Some "c") None in
  let second := Sample.cookie (Some "a") (Some "b@c") None in
  Har.name first <> Har.name second
  /\ Har.domain first <> Har.domain second
  /\ cookies_of (Sample.entry "https://c/" [first; second] 200) = [first; second]
  /\ HarLoader.cookie_key first = "a@b@c"
  /\ HarLoader.cookie_key second = "a@b@c"
  /\ fst (HarLoader.load_cookies_from_har (R := CPython.runtime) tt
            "colliding.har" None Sample.start)
     = Ok [normalized (R := CPython.runtime) first]
  /\ HarLoader.cookie_key (Sample.cookie (Some "sid") None None)
     = HarLoader.cookie_key (Sample.cookie (Some "sid") (Some "None") None).
Proof. repeat split; by vm_compute. Qed.

(** C3. The domain the code tests is [urlparse(url).netloc], which keeps the
    port. For a request to [https://a.example.com:8443/x] the host is
    [a.example.com] and ends with [example.com], the netloc does not, and
    under the filter [["example.com"]] both operations drop the entry. Under
    the filter [[":8443"]], which the host does not end with, they keep it. *)
Theorem port_defeats_domain_filter :
  CPython.netloc "https://a.example.com:8443/x" = Some "a.example.com:8443"
  /\ host_component "a.example.com:8443" = "a.example.com"
  /\ endswith "a.example.com" "example.com" = true
  /\ endswith "a.example.com:8443" "example.com" = false
  /\ map url_of (entries_of Sample.with_port) = ["https://a.example.com:8443/x"]
  /\ fst (HarLoader.extract_urls_from_har (R := CPython.runtime) "port.har"
            (Some ["example.com"]) None Sample.start)
     = Ok []
  /\ fst (HarLoader.load_cookies_from_har (R := CPython.runtime) tt "port.har"
            (Some ["example.com"]) Sample.start)
     = Ok []
  /\ endswith "a.example.com" ":8443" = false
  /\ fst (HarLoader.extract_urls_from_har (R := CPython.runtime) "port.har"
            (Some [":8443"]) None Sample.start)
     = Ok ["https://a.example.com:8443/x"].
Proof. repeat split; by vm_compute. Qed.

(** C4 as stated fails on an empty status filter: no status is a member of
    the empty list, and every URL is returned. *)
Lemma empty_status_filter_admits_all :
  let returned :=
    fst (HarLoader.extract_urls_from_har (R := CPython.runtime) "scenario.har"
           None (Some []) Sample.start) in
  returned
  = Ok ["https://a.example.com/login"; "https://a.example.com/home";
        "https://b.other.com/missing"]
  /\ member_urls (R := CPython.runtime) None (Some []) (entries_of Sample.scenario)
     = []
  /\ returned
     <> Ok (member_urls (R := CPython.runtime) None (Some [])
              (entries_of Sample.scenario)).
Proof. repeat split; by vm_compute. Qed.

(** The scenario of the specification under the filters [example.com] and 200. *)
Lemma extract_urls_postcondition_witness :
  fs Sample.start !! "scenario.har" = Some (Json Sample.scenario)
  /\ (forall e, In e (entries_of Sample.scenario) ->
        status_admits (Some [200]) e = true ->
        url_parses (R := CPython.runtime) (Some ["example.com"]) e = true)
  /\ fst (HarLoader.extract_urls_from_har (R := CPython.runtime) "scenario.har"
            (Some ["example.com"]) (Some [200]) Sample.start)
     = Ok ["https://a.example.com/login"; "https://a.example.com/home"].
Proof.
  assert (fs Sample.start !! "scenario.har" = Some (Json Sample.scenario))
    as Hfile by (by vm_compute).
  assert (forall e, In e (entries_of Sample.scenario) ->
            status_admits (Some [200]) e = true ->
            url_parses (R := CPython.runtime) (Some ["example.com"]) e = true)
    as Hparse.
  { intros e [<-|[<-|[<-|[]]]] _; by vm_compute. }
  split; [done|]. split; [done|].
  destruct (extract_urls_postcondition (R := CPython.runtime) "scenario.har"
              (Some ["example.com"]) (Some [200]) Sample.start Sample.scenario
              Hfile) as (_ & Hreturns & _ & _).
  rewrite (Hreturns Hparse). by vm_compute.
Defined.





(** No session, a file that is not JSON, and a browser that has been closed. *)
Lemma load_from_har_witness :
  let no_session := HarExtension.mkBrowserContext (R := CPython.runtime) None in
  let ready :=
    HarExtension.mkBrowserContext (R := CPython.runtime)
      (Some (HarExtension.mkSession (R := CPython.runtime) (Some tt))) in
  HarExtension.load_from_har no_session "scenario.har" None Sample.start
  = (Ok tt, record [EvLog ERROR MsgNoSession] Sample.start)
  /\ fst (HarExtension.load_from_har ready "broken.har" None Sample.start)
     = Raise JSONDecodeError
  /\ trace (snd (HarExtension.load_from_har ready "broken.har" None Sample.start))
     = [EvExists "broken.har"; EvOpen "broken.har"; EvJsonLoad "broken.har";
        EvLog ERROR (MsgCannotParse "broken.har");
        EvLog ERROR (MsgLoadFailed JSONDecodeError)]
  /\ fst (HarExtension.load_from_har ready "scenario.har" None Sample.closed)
     = Raise (PlaywrightError "Target page, context or browser has been closed").
Proof.
  intros no_session ready.
  destruct (load_from_har_propagation (R := CPython.runtime) no_session
              "scenario.har" None Sample.start) as [Hsoft _].
  destruct (load_from_har_propagation (R := CPython.runtime) ready
              "broken.har" None Sample.start) as [_ Hbroken].
  destruct (Hbroken (HarExtension.mkSession (R := CPython.runtime) (Some tt)) tt
              eq_refl eq_refl) as (Hraise & _ & _).
  destruct (load_from_har_propagation (R := CPython.runtime) ready
              "scenario.har" None Sample.closed) as [_ Hclosed].
  destruct (Hclosed (HarExtension.mkSession (R := CPython.runtime) (Some tt)) tt
              eq_refl eq_refl) as (_ & _ & Hinject).
  split; [apply Hsoft; by left|].
  pose proof (Hraise JSONDecodeError
                (snd (HarLoader.load_cookies_from_har (R := CPython.runtime) tt
                        "broken.har" None Sample.start))) as Hlogged.
  rewrite Hlogged by (by vm_compute).
  split; [done|]. split; [by vm_compute|].
  destruct (Hinject Sample.scenario
              (fst (HarLoader.cookie_loop (R := CPython.runtime) None
                      (entries_of Sample.scenario) fresh))
              "Target page, context or browser has been closed" None)
    as [w' Hrun]; [by vm_compute..|].
  by rewrite Hrun.
Defined.

(** The scenario of the specification, extracted twice in a row. *)
Lemma cookie_extraction_idempotent_witness :
  let sid :=
    normalized (R := CPython.runtime)
      (Sample.cookie (Some "sid") (Some "a.example.com") None) in
  let first :=
    HarLoader.load_cookies_from_har (R := CPython.runtime) tt "scenario.har"
      (Some ["example.com"]) Sample.start in
  first = (Ok [sid], snd first)
  /\ fst (HarLoader.load_cookies_from_har (R := CPython.runtime) tt "scenario.har"
            (Some ["example.com"]) (snd first))
     = Ok [sid].
Proof.
  intros sid first.
  assert (first = (Ok [sid], snd first)) as Hfirst by (by vm_compute).
  split; [done|].
  destruct (cookie_extraction_idempotent (R := CPython.runtime) tt "scenario.har"
              (Some ["example.com"]) Sample.start [sid] (snd first) Hfirst)
    as (_ & _ & _ & [Hsame|(msg & _ & Hrefused)]); [done|].
  by vm_compute in Hrefused.
Defined.

(** The scenario of the specification through the loader and through the wrapper. *)
Lemma status_filter_defaults_witness :
  fs Sample.start !! "scenario.har" = Some (Json Sample.scenario)
  /\ (forall e, In e (entries_of Sample.scenario) ->
        url_parses (R := CPython.runtime) None e = true)
  /\ fst (HarLoader.extract_urls_from_har (R := CPython.runtime) "scenario.har"
            None None Sample.start)
     = Ok ["https://a.example.com/login"; "https://a.example.com/home";
           "https://b.other.com/missing"]
  /\ fst (HarExtension.extract_urls_from_har (R := CPython.runtime) "scenario.har"
            None Omitted Sample.start)
     = Ok ["https://a.example.com/login"; "https://a.example.com/home"].
Proof.
  assert (fs Sample.start !! "scenario.har" = Some (Json Sample.scenario))
    as Hfile by (by vm_compute).
  assert (forall e, In e (entries_of Sample.scenario) ->
            url_parses (R := CPython.runtime) None e = true) as Hparse.
  { intros e _. reflexivity. }
  destruct (status_filter_defaults (R := CPython.runtime) "scenario.har" None
              Sample.start Sample.scenario Hfile Hparse)
    as (_ & Hloader & Hwrapper).
  split; [done|]. split; [done|]. split.
  - rewrite Hloader. by vm_compute.
  - rewrite Hwrapper. by vm_compute.
Defined.


(** ** More about cookie extraction *)

Section CookieRuns.

Context {R : Runtime}.

Implicit Types (w : world) (path : string) (context : ctx).
Implicit Types (filter_domains : option (list string)).
Implicit Types (entries : list Har.Entry) (st : HarLoader.loop_state).

(** What stops the cookie loop: the first entry whose URL [urlparse]
    rejects. *)
Lemma cookie_loop_stopped filter_domains entries st :
  snd (HarLoader.cookie_loop filter_domains entries st)
  = (fun e => ValueError (url_of e)) <$> first_rejected filter_domains entries.
Proof.
  revert st. unfold first_rejected.
  induction entries as [|entry rest IH]; intros st; simpl; [done|].
  unfold url_parses at 1.
  destruct (HarLoader.domain_matches filter_domains (url_of entry))
    as [[|]|e] eqn:Hdom; simpl; [apply IH|apply IH|].
  by rewrite (domain_matches_raise _ _ _ Hdom).
Qed.

(** A successful run, in full. *)
Lemma load_cookies_success context path filter_domains w cookies w' :
  HarLoader.load_cookies_from_har context path filter_domains w = (Ok cookies, w') ->
  exists har_data,
    at_Path w path = Readable (Json har_data)
    /\ first_rejected filter_domains (entries_of har_data) = None
    /\ cookies
       = map normalized (firsts (kept_cookies filter_domains (entries_of har_data)))
    /\ trace w'
       = trace w ++ [EvExists path; EvOpen path; EvJsonLoad path]
         ++ warnings_of (firsts (kept_cookies filter_domains (entries_of har_data)))
         ++ closing_events cookies
    /\ fs w' = fs w
    /\ match cookies with
       | [] => chromium w' = chromium w
       | _ :: _ => add_cookies context cookies (chromium w) = (None, chromium w')
       end.
Proof.
  intros Hrun.
  destruct (load_cookies_ok _ _ _ _ _ _ Hrun) as [har_data Hat].
  exists har_data. split; [done|].
  rewrite (load_cookies_at_json _ _ _ _ _ Hat) in Hrun.
  pose proof (cookie_loop_stopped filter_domains (entries_of har_data) fresh)
    as Hstopped.
  destruct (HarLoader.cookie_loop _ _ _) as [st stopped] eqn:Hloop.
  simpl in Hstopped. unfold after_loop in Hrun.
  destruct stopped as [e|]; [done|].
  split; [by destruct (first_rejected _ _)|].
  destruct (cookie_loop_firsts _ _ _ Hloop) as [Hcookies Hwarn].
  fold (warnings_of (firsts (kept_cookies filter_domains (entries_of har_data))))
    in Hwarn.
  rewrite <- Hcookies, <- Hwarn.
  destruct (HarLoader.cookies st) as [|c cs] eqn:Hcs.
  - injection Hrun as <- <-. simpl. by rewrite <- !app_assoc.
  - destruct (add_cookies _ _ _) as [[msg|] b] eqn:Hadd; [done|].
    injection Hrun as <- <-. simpl. by rewrite <- !app_assoc.
Qed.

Lemma cookie_key_of_pair (cookie : Har.RawCookie) :
  key_of_pair (name_and_domain (normalized cookie)) = HarLoader.cookie_key cookie.
Proof.
  unfold key_of_pair, name_and_domain, normalized, HarLoader.cookie_key. simpl.
  by destruct (Har.name cookie), (Har.domain cookie).
Qed.

Lemma firsts_length (cookies : list Har.RawCookie) :
  (length (firsts cookies) <= length cookies)%nat.
Proof.
  induction cookies as [|c cs IH]; simpl; [done|].
  pose proof (List.filter_length_le
                (fun c' => negb (String.eqb (HarLoader.cookie_key c')
                                            (HarLoader.cookie_key c)))
                (firsts cs)).
  lia.
Qed.

Lemma warnings_of_shape (cookies : list Har.RawCookie) ev :
  In ev (warnings_of cookies) ->
  exists c, In c cookies
            /\ ev = EvLog WARNING (MsgInvalidExpires (str_or_none (Har.name c)))
            /\ fst (HarLoader.expires_value c) = JInt (-1).
Proof.
  unfold warnings_of. rewrite in_flat_map. intros (c & Hin & Hev).
  exists c. split; [done|]. revert Hev. unfold HarLoader.expires_value.
  destruct (Har.expires c) as [v|]; [|done].
  destruct (negb (is_none v) && negb (is_int_or_float v)); [|done].
  destruct (HarLoader.float_of v); [done|].
  simpl. by intros [<-|[]].
Qed.

End CookieRuns.

Section CookieProperties.

Context {R : Runtime}.

Implicit Types (w : world) (path : string) (context : ctx).
Implicit Types (filter_domains : option (list string)).

(** A cookie among the [firsts] has no cookie of its key before it. *)
Lemma firsts_are_first (cookies : list Har.RawCookie) c :
  In c (firsts cookies) ->
  exists before after,
    cookies = before ++ c :: after
    /\ forall c', In c' before -> HarLoader.cookie_key c' <> HarLoader.cookie_key c.
Proof.
  induction cookies as [|a cs IH]; simpl; [done|].
  intros [->|Hin].
  - by exists [], cs.
  - apply filter_In in Hin as [Hin Hne].
    apply negb_true_iff, String.eqb_neq in Hne.
    destruct (IH Hin) as (before & after & -> & Hnone).
    exists (a :: before), after. split; [done|].
    intros c' [<-|Hc']; [congruence|by apply Hnone].
Qed.

Lemma NoDup_map_inv {A B : Type} (f : A -> B) (l : list A) :
  NoDup (map f l) -> NoDup l.
Proof.
  induction l as [|a l IH]; simpl; intros Hnodup; [constructor|].
  apply NoDup_cons in Hnodup as [Hnotin Hnodup].
  apply NoDup_cons. split; [|by apply IH].
  intros Hin. apply Hnotin. apply list_elem_of_In, in_map.
  by apply list_elem_of_In.
Qed.

(** X1. No two cookies that cookie extraction returns have the same name
    and the same domain. *)
Theorem returned_cookies_differ_in_name_or_domain
    context path filter_domains w cookies w' :
  HarLoader.load_cookies_from_har context path filter_domains w = (Ok cookies, w') ->
  NoDup (map name_and_domain cookies).
Proof.
  intros Hrun.
  destruct (load_cookies_success _ _ _ _ _ _ Hrun) as (har_data & _ & _ & -> & _).
  apply (NoDup_map_inv key_of_pair). rewrite !map_map.
  rewrite (map_ext _ HarLoader.cookie_key); [apply firsts_keys_NoDup|].
  intros c. apply cookie_key_of_pair.
Qed.

(** X2. Of the cookies of the kept entries, taken in order, cookie
    extraction returns the first of every key and no other: a cookie with
    no cookie of its key before it is returned, normalized; every cookie has
    a cookie of its key returned; and every returned cookie is such a first
    cookie, normalized. *)
Theorem first_cookie_of_a_key_is_returned
    context path filter_domains w cookies w' har_data :
  HarLoader.load_cookies_from_har context path filter_domains w = (Ok cookies, w') ->
  fs w !! path = Some (Json har_data) ->
  let kept := kept_cookies filter_domains (entries_of har_data) in
  (forall before c after,
     kept = before ++ c :: after ->
     (forall c', In c' before -> HarLoader.cookie_key c' <> HarLoader.cookie_key c) ->
     In (normalized c) cookies)
  /\ (forall c, In c kept ->
        exists c0, In c0 kept
                   /\ HarLoader.cookie_key c0 = HarLoader.cookie_key c
                   /\ In (normalized c0) cookies)
  /\ (forall out, In out cookies ->
        exists before c after,
          kept = before ++ c :: after
          /\ out = normalized c
          /\ forall c', In c' before ->
                        HarLoader.cookie_key c' <> HarLoader.cookie_key c).
Proof.
  intros Hrun Hfile kept.
  destruct (load_cookies_success _ _ _ _ _ _ Hrun)
    as (har_data' & Hfile' & _ & -> & _).
  rewrite (at_Path_readable _ _ _ Hfile) in Hfile'. injection Hfile' as <-. fold kept.
  split; [|split].
  - intros before c after -> Hnone. apply in_map. by apply firsts_first_wins.
  - intros c Hin. destruct (firsts_cover _ _ Hin) as (c0 & Hc0 & Hkey).
    exists c0. split; [by apply firsts_incl|]. split; [done|]. by apply in_map.
  - intros out Hout. apply in_map_iff in Hout as (c & <- & Hc).
    destruct (firsts_are_first _ _ Hc) as (before & after & Hsplit & Hnone).
    by exists before, c, after.
Qed.

(** X3. Cookie extraction returns at most as many cookies as the kept
    entries hold, and returns none exactly when they hold none. *)
Theorem returned_cookies_count context path filter_domains w cookies w' har_data :
  HarLoader.load_cookies_from_har context path filter_domains w = (Ok cookies, w') ->
  fs w !! path = Some (Json har_data) ->
  let kept := kept_cookies filter_domains (entries_of har_data) in
  (length cookies <= length kept)%nat /\ (cookies = [] <-> kept = []).
Proof.
  intros Hrun Hfile kept.
  destruct (load_cookies_success _ _ _ _ _ _ Hrun)
    as (har_data' & Hfile' & _ & -> & _).
  rewrite (at_Path_readable _ _ _ Hfile) in Hfile'. injection Hfile' as <-. fold kept.
  rewrite length_map. split; [apply firsts_length|].
  destruct kept as [|c cs]; simpl; [done|]. by split.
Qed.

(** X4. What a successful cookie extraction leaves behind. The trace grows
    by the existence probe, the opening and the decoding of the file, the
    warnings of the cookies returned, and then either a warning that no
    cookie was found, or the count of the cookies at info level and one
    call of [add_cookies] on exactly the list returned. The files are as
    before; the browser is as before when the list is empty and is what
    [add_cookies] made of it otherwise. *)
Theorem successful_extraction_footprint context path filter_domains w cookies w' :
  HarLoader.load_cookies_from_har context path filter_domains w = (Ok cookies, w') ->
  exists warned,
    Forall (fun ev => exists name, ev = EvLog WARNING (MsgInvalidExpires name)) warned
    /\ trace w'
       = trace w ++ [EvExists path; EvOpen path; EvJsonLoad path] ++ warned
         ++ match cookies with
            | [] => [EvLog WARNING MsgNoCookies]
            | _ :: _ =>
                [EvLog INFO (MsgLoadedCookies (length cookies)); EvAddCookies cookies]
            end
    /\ fs w' = fs w
    /\ match cookies with
       | [] => chromium w' = chromium w
       | _ :: _ => add_cookies context cookies (chromium w) = (None, chromium w')
       end.
Proof.
  intros Hrun.
  destruct (load_cookies_success _ _ _ _ _ _ Hrun)
    as (har_data & _ & _ & _ & Htrace & Hfs & Hbrowser).
  eexists. split; [|split; [exact Htrace|by split]].
  apply Forall_forall. intros ev Hev. apply list_elem_of_In in Hev.
  destruct (warnings_of_shape _ _ Hev) as (c & _ & -> & _). by eexists.
Qed.

Lemma warnings_of_rejected (cookies : list Har.RawCookie) :
  warnings_of cookies
  = map (fun c => warning_about (normalized c)) (List.filter float_rejects cookies).
Proof.
  unfold warnings_of.
  induction cookies as [|c cs IH]; simpl; [done|]. rewrite IH.
  unfold HarLoader.expires_value, float_rejects.
  destruct (Har.expires c) as [v|]; [|done].
  destruct (negb (is_none v) && negb (is_int_or_float v)); [|done].
  by destruct (HarLoader.float_of v).
Qed.

Lemma filter_warnings_of (cookies : list Har.RawCookie) :
  List.filter is_expires_warning (warnings_of cookies) = warnings_of cookies.
Proof.
  rewrite warnings_of_rejected.
  induction (List.filter float_rejects cookies) as [|c cs IH]; simpl; [done|].
  by rewrite IH.
Qed.

Lemma float_rejects_expires (c : Har.RawCookie) :
  float_rejects c = true -> Cookie.expires (normalized c) = JInt (-1).
Proof.
  unfold float_rejects, normalized, HarLoader.expires_value. simpl.
  destruct (Har.expires c) as [v|]; [|done].
  destruct (negb (is_none v) && negb (is_int_or_float v)); [|done].
  by destruct (HarLoader.float_of v).
Qed.

(** X5. The warnings about an invalid [expires] that a successful cookie
    extraction logs are, in order, one for each cookie it returns whose raw
    [expires] [float] rejects, and no other: each names its cookie, which is
    returned with -1 for [expires], and a cookie that is dropped as a
    duplicate is not warned about, whatever its [expires] is. *)
Theorem warnings_name_returned_cookies
    context path filter_domains w cookies w' :
  HarLoader.load_cookies_from_har context path filter_domains w = (Ok cookies, w') ->
  exists har_data,
    at_Path w path = Readable (Json har_data)
    /\ let returned := firsts (kept_cookies filter_domains (entries_of har_data)) in
       cookies = map normalized returned
       /\ List.filter is_expires_warning (drop (length (trace w)) (trace w'))
          = map (fun c => warning_about (normalized c))
              (List.filter float_rejects returned)
       /\ (forall c, In c returned -> float_rejects c = true ->
              Cookie.expires (normalized c) = JInt (-1))
       /\ (forall name,
              In (EvLog WARNING (MsgInvalidExpires name))
                 (drop (length (trace w)) (trace w')) ->
              exists c, In c cookies /\ Cookie.name c = name
                        /\ Cookie.expires c = JInt (-1)).
Proof.
  intros Hrun.
  destruct (load_cookies_success _ _ _ _ _ _ Hrun)
    as (har_data & Hat & _ & Hcookies & Htrace & _).
  exists har_data. split; [done|]. cbv zeta.
  set (returned := firsts (kept_cookies filter_domains (entries_of har_data))) in *.
  assert (List.filter is_expires_warning (drop (length (trace w)) (trace w'))
          = warnings_of returned) as Hwarnings.
  { rewrite Htrace, drop_app_length, !List.filter_app, filter_warnings_of.
    unfold closing_events. destruct cookies; simpl; by rewrite app_nil_r. }
  split; [done|]. split; [by rewrite Hwarnings, warnings_of_rejected|].
  split; [intros c _; apply float_rejects_expires|].
  intros name Hwarned.
  assert (In (EvLog WARNING (MsgInvalidExpires name)) (warnings_of returned))
    as Hin.
  { rewrite <- Hwarnings. apply filter_In. by split. }
  rewrite warnings_of_rejected in Hin.
  apply in_map_iff in Hin as (c & [= <-] & Hc).
  apply filter_In in Hc as [Hc Hrejected].
  exists (normalized c). rewrite Hcookies.
  split; [by apply in_map|]. split; [done|]. by apply float_rejects_expires.
Qed.

End CookieProperties.

Section CookieErrors.

Context {R : Runtime}.

Implicit Types (w : world) (path : string) (context : ctx).
Implicit Types (filter_domains : option (list string)).
Implicit Types (entries : list Har.Entry) (st : HarLoader.loop_state).

(** The loop logs nothing but warnings about [expires]. *)
Lemma cookie_loop_warnings filter_domains entries st :
  Forall (fun ev => exists name, ev = EvLog WARNING (MsgInvalidExpires name))
    (HarLoader.warnings st) ->
  Forall (fun ev => exists name, ev = EvLog WARNING (MsgInvalidExpires name))
    (HarLoader.warnings (fst (HarLoader.cookie_loop filter_domains entries st))).
Proof.
  revert st. induction entries as [|entry rest IH]; intros st Hst; simpl; [done|].
  destruct (HarLoader.domain_matches _ _) as [[|]|]; simpl; [|by apply IH|done].
  apply IH.
  destruct (fold_process_cookie_spec (cookies_of entry) st) as (_ & -> & _).
  apply Forall_app. split; [done|].
  apply Forall_forall. intros ev Hev. apply list_elem_of_In in Hev.
  destruct (warnings_of_shape _ _ Hev) as (c & _ & -> & _). by eexists.
Qed.

Lemma first_rejected_at filter_domains (before : list Har.Entry) e after :
  truthy filter_domains = true ->
  (forall e', In e' before -> urlparse_netloc (url_of e') <> None) ->
  urlparse_netloc (url_of e) = None ->
  first_rejected filter_domains (before ++ e :: after) = Some e.
Proof.
  intros Htruthy Hbefore He. unfold first_rejected.
  induction before as [|b before IH]; simpl.
  - unfold url_parses, HarLoader.domain_matches. by rewrite Htruthy, He.
  - unfold url_parses at 1, HarLoader.domain_matches. rewrite Htruthy.
    destruct (urlparse_netloc (url_of b)) eqn:Hb.
    + simpl. apply IH. intros e' He'. apply Hbefore. by right.
    + exfalso. by apply (Hbefore b); [left|].
Qed.

(** X6. Under a domain filter, cookie extraction parses the URL of every
    entry, with or without cookies: at the first entry whose URL [urlparse]
    rejects it raises that [ValueError], whatever it has collected so far
    is lost, [add_cookies] is not called and the browser and the files are
    as before. *)
Theorem rejected_url_stops_cookie_extraction
    context path filter_domains w har_data before e after :
  fs w !! path = Some (Json har_data) ->
  entries_of har_data = before ++ e :: after ->
  truthy filter_domains = true ->
  (forall e', In e' before -> urlparse_netloc (url_of e') <> None) ->
  urlparse_netloc (url_of e) = None ->
  let run := HarLoader.load_cookies_from_har context path filter_domains w in
  fst run = Raise (ValueError (url_of e))
  /\ fs (snd run) = fs w
  /\ chromium (snd run) = chromium w
  /\ forall cookies,
       ~ In (EvAddCookies cookies) (drop (length (trace w)) (trace (snd run))).
Proof.
  intros Hfile Hentries Htruthy Hbefore He run. subst run.
  rewrite (load_cookies_json _ _ _ _ _ Hfile).
  pose proof (cookie_loop_stopped filter_domains (entries_of har_data) fresh)
    as Hstopped.
  pose proof (cookie_loop_warnings filter_domains (entries_of har_data) fresh)
    as Hwarnings.
  rewrite Hentries, first_rejected_at in Hstopped by done.
  rewrite <- Hentries in Hstopped.
  destruct (HarLoader.cookie_loop _ _ _) as [st stopped].
  simpl in Hstopped, Hwarnings. subst stopped. unfold after_loop. simpl.
  repeat split.
  intros cookies Hin. rewrite <- app_assoc, drop_app_length in Hin.
  apply in_app_iff in Hin as [Hprobe|Hwarned].
  - simpl in Hprobe. by destruct Hprobe as [?|[?|[?|[]]]].
  - assert (Forall (fun ev => exists name, ev = EvLog WARNING (MsgInvalidExpires name))
              (HarLoader.warnings st)) as Hlogs by (apply Hwarnings; constructor).
    rewrite Forall_forall in Hlogs.
    apply list_elem_of_In in Hwarned. by destruct (Hlogs _ Hwarned).
Qed.

(** X7. Without a domain filter, or with an empty one, no URL is parsed:
    neither operation raises a [ValueError], whatever the URLs are. *)
Theorem no_filter_no_url_error context path filter_domains status_filter w url :
  truthy filter_domains = false ->
  fst (HarLoader.load_cookies_from_har context path filter_domains w)
  <> Raise (ValueError url)
  /\ fst (HarLoader.extract_urls_from_har path filter_domains status_filter w)
     <> Raise (ValueError url).
Proof.
  intros Hfalsy. split.
  - rewrite load_cookies_at.
    destruct (at_Path w path) as [[|har_data|]|[]|]; simpl; try done.
    rewrite cookie_loop_falsy by done. unfold after_loop.
    destruct (HarLoader.cookies _); [done|].
    by destruct (add_cookies _ _ _) as [[msg|] b].
  - destruct (fs w !! path) as [[|har_data|]|] eqn:Hfile.
    + by rewrite (extract_urls_not_json _ _ _ _ Hfile).
    + rewrite (extract_urls_json _ _ _ _ _ Hfile). simpl.
      by rewrite url_loop_spec, first_unparsed_falsy by done.
    + by rewrite (extract_urls_not_utf8 _ _ _ _ Hfile).
    + rewrite (extract_urls_missing _ _ _ _ Hfile). simpl.
      by destruct (blocked w !! path) as [[]|].
Qed.

(** X8. Every cookie that cookie extraction returns is the normalized
    form of a cookie of an entry that the domain test has kept: under a
    non-empty filter, an entry whose netloc ends with one of the suffixes. *)
Theorem returned_cookies_come_from_kept_entries
    context path filter_domains w cookies w' har_data out :
  HarLoader.load_cookies_from_har context path filter_domains w = (Ok cookies, w') ->
  fs w !! path = Some (Json har_data) ->
  In out cookies ->
  exists entry raw,
    In entry (entries_of har_data)
    /\ In raw (cookies_of entry)
    /\ out = normalized raw
    /\ (truthy filter_domains = false
        \/ exists domain d,
             urlparse_netloc (url_of entry) = Some domain
             /\ In d (members filter_domains)
             /\ endswith domain d = true).
Proof.
  intros Hrun Hfile Hout.
  destruct (load_cookies_success _ _ _ _ _ _ Hrun)
    as (har_data' & Hfile' & _ & -> & _).
  rewrite (at_Path_readable _ _ _ Hfile) in Hfile'. injection Hfile' as <-.
  apply in_map_iff in Hout as (raw & <- & Hraw).
  apply firsts_incl in Hraw. unfold kept_cookies in Hraw.
  apply in_flat_map in Hraw as (entry & Hentry & Hraw).
  apply filter_In in Hentry as [Hentry Hkept].
  exists entry, raw. repeat split; try done.
  unfold domain_admits in Hkept.
  destruct (HarLoader.domain_matches filter_domains (url_of entry))
    as [b|] eqn:Hdom; [|done]. subst b.
  apply domain_matches_kept in Hdom
    as [?|(domain & d & front & _ & Hnetloc & Hd & ->)]; [by left|].
  right. exists (front +:+ d), d. repeat split; try done.
  apply endswith_spec. by exists front.
Qed.

(** X9. A document without entries (no [log], no [entries], or an empty
    list) is not an error: URL extraction returns the empty list, and
    cookie extraction returns the empty list, warns that no cookie was found
    and leaves the browser alone. *)
Theorem document_without_entries
    context path filter_domains status_filter w har_data :
  fs w !! path = Some (Json har_data) ->
  Har.log har_data = None
  \/ (exists l, Har.log har_data = Some l
                /\ (Har.entries l = None \/ Har.entries l = Some [])) ->
  HarLoader.extract_urls_from_har path filter_domains status_filter w
  = (Ok [], record [EvOpen path; EvJsonLoad path] w)
  /\ HarLoader.load_cookies_from_har context path filter_domains w
     = (Ok [],
        record [EvExists path; EvOpen path; EvJsonLoad path;
                EvLog WARNING MsgNoCookies] w).
Proof.
  intros Hfile Hempty.
  assert (entries_of har_data = []) as Hnone.
  { unfold entries_of.
    destruct Hempty as [->|(l & -> & [->| ->])]; done. }
  rewrite (extract_urls_json _ _ _ _ _ Hfile),
    (load_cookies_json _ _ _ _ _ Hfile), Hnone. simpl.
  split; [done|]. unfold after_loop. simpl. by rewrite record_record.
Qed.

End CookieErrors.

Section ResponseHeadersProperties.

Context {R : Runtime}.
Variable lower : string -> string.

Lemma scan_headers_id headers st :
  ResponseHeaders.scan_headers lower headers st = st.
Proof.
  unfold ResponseHeaders.scan_headers. revert st.
  induction headers as [|h hs IH]; intros st; simpl; [done|].
  by destruct (ResponseHeaders.is_set_cookie lower h).
Qed.

(** The loop with the scan of the headers is the loop without it. *)
Lemma cookie_loop_without_scan filter_domains entries st :
  ResponseHeaders.cookie_loop lower filter_domains entries st
  = HarLoader.cookie_loop filter_domains entries st.
Proof.
  revert st. induction entries as [|entry rest IH]; intros st; simpl; [done|].
  destruct (HarLoader.domain_matches _ _) as [[|]|]; [|done|done].
  by rewrite scan_headers_id.
Qed.

End ResponseHeadersProperties.

(** ** More about URL extraction *)

Section UrlProperties.

Context {R : Runtime}.

Implicit Types (w : world) (path : string).
Implicit Types (filter_domains : option (list string)).
Implicit Types (status_filter : option (list Z)).
Implicit Types (entries : list Har.Entry).

Lemma filter_sublist {A : Type} (f : A -> bool) (l : list A) :
  sublist (List.filter f l) l.
Proof.
  induction l as [|a l IH]; simpl; [constructor|].
  destruct (f a); by constructor.
Qed.

Lemma map_sublist {A B : Type} (f : A -> B) (l1 l2 : list A) :
  sublist l1 l2 -> sublist (map f l1) (map f l2).
Proof. induction 1; simpl; by constructor. Qed.

Lemma filter_sublist_weaker {A : Type} (f g : A -> bool) (l : list A) :
  (forall a, f a = true -> g a = true) ->
  sublist (List.filter f l) (List.filter g l).
Proof.
  intros Hweaker. induction l as [|a l IH]; simpl; [constructor|].
  destruct (f a) eqn:Hf.
  - rewrite (Hweaker _ Hf). by constructor.
  - destruct (g a); [by apply sublist_cons|done].
Qed.

(** X11. URL extraction only reads: whatever it returns or raises, it
    leaves the files and the browser as they are, logs nothing, and adds to
    the trace that it opened the file and, when there was one, that it
    decoded it. *)
Theorem extract_urls_only_reads path filter_domains status_filter w :
  let run := HarLoader.extract_urls_from_har path filter_domains status_filter w in
  fs (snd run) = fs w
  /\ chromium (snd run) = chromium w
  /\ trace (snd run)
     = trace w ++ match fs w !! path with
                  | Some _ => [EvOpen path; EvJsonLoad path]
                  | None => [EvOpen path]
                  end.
Proof.
  destruct (fs w !! path) as [[|har_data|]|] eqn:Hfile; simpl.
  - by rewrite (extract_urls_not_json _ _ _ _ Hfile).
  - by rewrite (extract_urls_json _ _ _ _ _ Hfile).
  - by rewrite (extract_urls_not_utf8 _ _ _ _ Hfile).
  - by rewrite (extract_urls_missing _ _ _ _ Hfile).
Qed.

(** X12. The URLs that URL extraction returns are a subsequence of the
    URLs of the entries: they keep the order of the file and there are no
    more of them than entries. *)
Theorem extracted_urls_are_a_subsequence
    path filter_domains status_filter w urls w' har_data :
  HarLoader.extract_urls_from_har path filter_domains status_filter w = (Ok urls, w') ->
  fs w !! path = Some (Json har_data) ->
  sublist urls (map url_of (entries_of har_data))
  /\ (length urls <= length (entries_of har_data))%nat.
Proof.
  intros Hrun Hfile.
  rewrite (extract_urls_json _ _ _ _ _ Hfile), url_loop_spec in Hrun.
  destruct (first_unparsed _ _ _); [done|]. injection Hrun as <- _. simpl.
  assert (sublist (admitted_urls filter_domains status_filter (entries_of har_data))
            (map url_of (entries_of har_data))) as Hsub.
  { unfold admitted_urls. apply map_sublist, filter_sublist. }
  split; [done|]. apply sublist_length in Hsub. by rewrite length_map in Hsub.
Qed.

Lemma url_admitted_entry filter_domains e :
  domain_admits filter_domains e = url_admitted filter_domains (url_of e).
Proof. reflexivity. Qed.

(** X13. The domain filter works on the URLs alone: what URL extraction
    returns under a domain filter is what it returns without one, the URLs
    that fail the domain test taken out. *)
Theorem domain_filter_selects_from_the_unfiltered
    path filter_domains status_filter w urls w' :
  HarLoader.extract_urls_from_har path filter_domains status_filter w = (Ok urls, w') ->
  exists every,
    fst (HarLoader.extract_urls_from_har path None status_filter w) = Ok every
    /\ urls = List.filter (url_admitted filter_domains) every.
Proof.
  intros Hrun.
  destruct (fs w !! path) as [[|har_data|]|] eqn:Hfile;
    [|
     |by rewrite (extract_urls_not_utf8 _ _ _ _ Hfile) in Hrun
     |].
  - by rewrite (extract_urls_not_json _ _ _ _ Hfile) in Hrun.
  - rewrite (extract_urls_json _ _ _ _ _ Hfile), url_loop_spec in Hrun.
    rewrite (extract_urls_json _ _ _ _ _ Hfile), url_loop_spec.
    rewrite (first_unparsed_falsy None) by done. simpl.
    destruct (first_unparsed _ _ _); [done|]. injection Hrun as <- _.
    eexists. split; [done|]. simpl. unfold admitted_urls.
    induction (entries_of har_data) as [|e es IH]; simpl; [done|].
    destruct (status_admits status_filter e); simpl; [|done].
    rewrite url_admitted_entry.
    destruct (url_admitted filter_domains (url_of e)); simpl; by rewrite IH.
  - by rewrite (extract_urls_missing _ _ _ _ Hfile) in Hrun.
Qed.

Lemma status_admits_weaker status_filter status_filter' e :
  truthy status_filter = true ->
  truthy status_filter' = false
  \/ (forall s, In s (members status_filter) -> In s (members status_filter')) ->
  status_admits status_filter e = true -> status_admits status_filter' e = true.
Proof.
  intros Htruthy Hwider. unfold status_admits. rewrite Htruthy. simpl.
  intros Hin. apply bool_decide_eq_true_1 in Hin.
  destruct Hwider as [->|Hincl]; [done|].
  apply orb_true_iff. right. apply bool_decide_eq_true_2.
  by apply list_elem_of_In, Hincl, list_elem_of_In.
Qed.

(** X14. A wider status filter returns more: if URL extraction returns
    under a status filter, it returns under every non-empty filter whose
    codes are among those of the first (and the same domain filter), and
    what it returns is a subsequence of the first result. *)
Theorem narrower_status_filter_returns_less
    path filter_domains status_filter status_filter' w urls' w' :
  truthy status_filter = true ->
  truthy status_filter' = false
  \/ (forall s, In s (members status_filter) -> In s (members status_filter')) ->
  HarLoader.extract_urls_from_har path filter_domains status_filter' w
  = (Ok urls', w') ->
  exists urls,
    fst (HarLoader.extract_urls_from_har path filter_domains status_filter w)
    = Ok urls
    /\ sublist urls urls'.
Proof.
  intros Htruthy Hwider Hrun.
  destruct (fs w !! path) as [[|har_data|]|] eqn:Hfile;
    [|
     |by rewrite (extract_urls_not_utf8 _ _ _ _ Hfile) in Hrun
     |].
  - by rewrite (extract_urls_not_json _ _ _ _ Hfile) in Hrun.
  - rewrite (extract_urls_json _ _ _ _ _ Hfile), url_loop_spec in Hrun.
    rewrite (extract_urls_json _ _ _ _ _ Hfile), url_loop_spec. simpl.
    destruct (first_unparsed filter_domains status_filter' _) as [|] eqn:Hwide;
      [done|].
    injection Hrun as <- _.
    rewrite first_unparsed_none.
    + eexists. split; [done|]. unfold admitted_urls.
      apply map_sublist, filter_sublist_weaker. intros e Hpass.
      apply andb_true_iff in Hpass as [Hst Hdom].
      by rewrite (status_admits_weaker _ _ _ Htruthy Hwider Hst), Hdom.
    + intros e Hin Hst.
      destruct (url_parses filter_domains e) eqn:Hparse; [done|].
      unfold first_unparsed in Hwide.
      pose proof (find_none _ _ Hwide e Hin) as Hnot. simpl in Hnot.
      by rewrite (status_admits_weaker _ _ _ Htruthy Hwider Hst), Hparse in Hnot.
  - by rewrite (extract_urls_missing _ _ _ _ Hfile) in Hrun.
Qed.

(** X15. The status filter comes before the domain filter: URL extraction
    raises the [ValueError] of [urlparse] exactly when the filter of the
    domains is not empty and an entry that passes the status test has a URL
    that [urlparse] rejects. An entry that the status test skips is not
    parsed. *)
Theorem url_error_needs_an_admitted_entry
    path filter_domains status_filter w har_data :
  fs w !! path = Some (Json har_data) ->
  (exists url,
     fst (HarLoader.extract_urls_from_har path filter_domains status_filter w)
     = Raise (ValueError url))
  <-> truthy filter_domains = true
      /\ exists e, In e (entries_of har_data)
                   /\ status_admits status_filter e = true
                   /\ urlparse_netloc (url_of e) = None.
Proof.
  intros Hfile.
  rewrite (extract_urls_json _ _ _ _ _ Hfile), url_loop_spec. simpl.
  unfold first_unparsed. split.
  - intros [url Hraise].
    destruct (find _ _) as [e|] eqn:Hfind; [|done].
    apply find_some in Hfind as [Hin Hbad].
    apply andb_true_iff in Hbad as [Hst Hparse].
    apply negb_true_iff in Hparse. unfold url_parses in Hparse.
    unfold HarLoader.domain_matches in Hparse.
    destruct (truthy filter_domains); [|done]. split; [done|].
    exists e. repeat split; try done.
    by destruct (urlparse_netloc (url_of e)).
  - intros (Htruthy & e & Hin & Hst & Hnone).
    destruct (find _ _) as [e'|] eqn:Hfind; [by eexists|].
    pose proof (find_none _ _ Hfind e Hin) as Hnot. simpl in Hnot.
    rewrite Hst in Hnot. unfold url_parses, HarLoader.domain_matches in Hnot.
    by rewrite Htruthy, Hnone in Hnot.
Qed.

End UrlProperties.

(** ** The start page of the example *)

Section StartPageProperties.

Context {R : Runtime}.

Lemma truthy_str_spec (url : string) :
  StartPage.truthy_str (Some url) = true <-> url <> "".
Proof. destruct url; simpl; split; done. Qed.

Lemma first_page_at (before : list string) url after :
  (forall u, In u before -> StartPage.is_media u = true) ->
  StartPage.is_media url = false ->
  StartPage.first_page (before ++ url :: after) = Some url.
Proof.
  intros Hbefore Hurl. unfold StartPage.first_page.
  induction before as [|b before IH]; simpl.
  - by rewrite Hurl.
  - rewrite (Hbefore b) by (by left). simpl. apply IH.
    intros u Hu. apply Hbefore. by right.
Qed.

Lemma first_page_none (urls : list string) :
  (forall u, In u urls -> StartPage.is_media u = true) ->
  StartPage.first_page urls = None.
Proof.
  intros Hall. unfold StartPage.first_page.
  destruct (find _ urls) as [u|] eqn:Hfind; [|done].
  apply find_some in Hfind as [Hin Hnot]. by rewrite (Hall u Hin) in Hnot.
Qed.

Lemma is_media_nonempty (url : string) : StartPage.is_media url = true -> url <> "".
Proof. intros Hmedia ->. by vm_compute in Hmedia. Qed.

Lemma initial_url_cases (urls : list string) :
  StartPage.initial_url urls <> ""
  /\ (In (StartPage.initial_url urls) urls
      \/ StartPage.initial_url urls = StartPage.default_url).
Proof.
  unfold StartPage.initial_url, StartPage.candidate.
  destruct urls as [|first rest]; [by split; [|right]|].
  destruct (StartPage.first_page (first :: rest)) as [[|a page]|] eqn:Hpage.
  - cbn [StartPage.truthy_str negb].
    destruct first as [|b first]; cbn [StartPage.truthy_str].
    + split; [done|by right].
    + split; [done|]. left. by left.
  - cbn [StartPage.truthy_str negb]. split; [done|]. left.
    unfold StartPage.first_page in Hpage. by apply find_some in Hpage as [? _].
  - cbn [StartPage.truthy_str negb].
    destruct first as [|b first]; cbn [StartPage.truthy_str].
    + split; [done|by right].
    + split; [done|]. left. by left.
Qed.

(** X16. The start page is never the empty string, and it is one of the
    URLs it was chosen from or the default page. *)
Theorem initial_url_is_usable (urls : list string) :
  StartPage.initial_url urls <> ""
  /\ (In (StartPage.initial_url urls) urls
      \/ StartPage.initial_url urls = StartPage.default_url).
Proof. apply initial_url_cases. Qed.

Lemma initial_url_unfold (first : string) (rest : list string) :
  StartPage.initial_url (first :: rest)
  = let fallback :=
      if StartPage.truthy_str (Some first) then first else StartPage.default_url in
    match StartPage.first_page (first :: rest) with
    | Some page => if StartPage.truthy_str (Some page) then page else fallback
    | None => fallback
    end.
Proof.
  unfold StartPage.initial_url, StartPage.candidate.
  destruct (StartPage.first_page (first :: rest)) as [[|a page]|]; try done.
Qed.

(** X17. How the start page is chosen. The first URL that is not a media
    resource is taken when it is not empty. When every URL is a media
    resource, the first URL is taken. When the first URL that is not a media
    resource is the empty string, the choice falls back on the first URL of
    the list, a media resource, or on the default page when the empty
    string is the first URL. *)
Theorem initial_url_prefers_pages (before : list string) (url : string)
    (after : list string) :
  (forall u, In u before -> StartPage.is_media u = true) ->
  (StartPage.is_media url = false -> url <> "" ->
   StartPage.initial_url (before ++ url :: after) = url)
  /\ (StartPage.is_media url = true ->
      (forall u, In u after -> StartPage.is_media u = true) ->
      StartPage.initial_url (before ++ url :: after) = hd url before)
  /\ (url = "" ->
      StartPage.initial_url (before ++ url :: after)
      = hd StartPage.default_url before).
Proof.
  intros Hbefore.
  assert (forall b, In b before -> StartPage.truthy_str (Some b) = true) as Htruthy.
  { intros b Hb. by apply truthy_str_spec, is_media_nonempty, Hbefore. }
  split; [|split].
  - intros Hurl Hnonempty.
    pose proof (first_page_at _ _ after Hbefore Hurl) as Hpage.
    apply truthy_str_spec in Hnonempty.
    destruct before as [|b before]; cbn [app] in *;
      rewrite initial_url_unfold, Hpage; cbv zeta; by rewrite Hnonempty.
  - intros Hurl Hafter.
    assert (StartPage.first_page (before ++ url :: after) = None) as Hpage.
    { apply first_page_none. intros u Hu.
      apply in_app_iff in Hu as [Hu|[<-|Hu]]; auto. }
    destruct before as [|b before]; cbn [app] in *;
      rewrite initial_url_unfold, Hpage; cbv zeta.
    + apply is_media_nonempty, truthy_str_spec in Hurl. by rewrite Hurl.
    + by rewrite (Htruthy b) by (by left).
  - intros ->.
    assert (StartPage.first_page (before ++ "" :: after) = Some "") as Hpage
      by (by apply first_page_at).
    destruct before as [|b before]; cbn [app] in *;
      rewrite initial_url_unfold, Hpage; cbv zeta; [done|].
    by rewrite (Htruthy b) by (by left).
Qed.

(** X18. The example asks [HarExtension.extract_urls_from_har] for the
    URLs of status 200, without a domain filter, and chooses the start page
    among them: when the file holds a document the call returns, and the
    start page is the default page or the URL of an entry that was answered
    with 200. *)
Theorem start_page_was_answered_200 (path : string) (w : world) har_data :
  fs w !! path = Some (Json har_data) ->
  exists urls,
    fst (HarExtension.extract_urls_from_har path None (Passed (Some [200])) w)
    = Ok urls
    /\ (StartPage.initial_url urls = StartPage.default_url
        \/ exists e, In e (entries_of har_data)
                     /\ status_of e = 200
                     /\ url_of e = StartPage.initial_url urls).
Proof.
  intros Hfile. unfold HarExtension.extract_urls_from_har. simpl.
  rewrite (extract_urls_json _ _ _ _ _ Hfile), url_loop_spec.
  rewrite first_unparsed_falsy by done. simpl.
  eexists. split; [done|].
  destruct (initial_url_cases
              (admitted_urls None (Some [200]) (entries_of har_data)))
    as [_ [Hin|Hdefault]]; [|by left].
  right. destruct (admitted_urls_origin _ _ _ _ Hin) as (e & He & Hurl & Hst & _).
  exists e. repeat split; try done.
  unfold status_admits in Hst. simpl in Hst.
  apply bool_decide_eq_true_1, list_elem_of_In in Hst. simpl in Hst.
  by destruct Hst as [?|[]].
Qed.

End StartPageProperties.

(** ** The script of the example *)

Section ScriptRuns.

Context {R : Runtime} {H : Host}.

Implicit Types (s : LoadFromHar.script) (context : HarExtension.BrowserContext).

Lemma calls_app steps1 steps2 : calls (steps1 ++ steps2) = calls steps1 ++ calls steps2.
Proof. unfold calls. apply List.filter_app. Qed.

(** [load_from_har] leaves the files as they are. *)
Lemma load_from_har_fs context path filter_domains (w : world) :
  fs (snd (HarExtension.load_from_har context path filter_domains w)) = fs w.
Proof.
  unfold HarExtension.load_from_har.
  destruct (HarExtension.get_session context ≫= HarExtension.context)
    as [playwright|]; [|done].
  unfold try_except, bind.
  pose proof (load_cookies_fs playwright path filter_domains w) as Hfs.
  destruct (HarLoader.load_cookies_from_har playwright path filter_domains w)
    as [[cookies|e] w1]; simpl in *; done.
Qed.

(** The arguments: the path and the prompt, and only talk. *)
Lemma arguments_run argv s :
  exists new,
    LoadFromHar.arguments argv s
    = (Ok (har_path_of argv, prompt_of argv),
       LoadFromHar.mkScript (LoadFromHar.host s) (LoadFromHar.journal s ++ new))
    /\ calls new = [].
Proof.
  unfold LoadFromHar.arguments, har_path_of, prompt_of.
  destruct argv as [|a0 [|a1 [|a2 rest]]];
    unfold LoadFromHar.sbind, LoadFromHar.say, LoadFromHar.sret; simpl;
    rewrite <- ?app_assoc; eexists; split; try reflexivity; done.
Qed.

(** The choice of the start page: the page, and only talk. *)
Lemma choose_run urls s :
  exists new,
    LoadFromHar.choose urls s
    = (Ok (StartPage.initial_url urls),
       LoadFromHar.mkScript (LoadFromHar.host s) (LoadFromHar.journal s ++ new))
    /\ calls new = [].
Proof.
  unfold LoadFromHar.choose, StartPage.initial_url, StartPage.candidate.
  destruct urls as [|first rest].
  - unfold LoadFromHar.sbind, LoadFromHar.say, LoadFromHar.sret; simpl.
    rewrite <- ?app_assoc. eexists. split; [reflexivity|done].
  - destruct (StartPage.first_page (first :: rest)) as [[|a page]|];
      destruct first as [|b first];
      unfold LoadFromHar.sbind, LoadFromHar.say, LoadFromHar.sret; simpl;
      rewrite <- ?app_assoc; eexists; split; try reflexivity; done.
Qed.

(** The agent: it always returns, it is created once with the task, and
    it is run with the task when its creation did not raise. *)
Lemma agent_run context t s :
  exists new b,
    LoadFromHar.agent context t s
    = (Ok tt,
       LoadFromHar.mkScript
         (mkWorld (fs (LoadFromHar.host s)) (blocked (LoadFromHar.host s)) b
            (trace (LoadFromHar.host s)))
         (LoadFromHar.journal s ++ new))
    /\ (calls new = [LoadFromHar.CalledAgent t]
        \/ calls new = [LoadFromHar.CalledAgent t; LoadFromHar.CalledRun t]).
Proof.
  unfold LoadFromHar.agent, LoadFromHar.catch, LoadFromHar.sbind,
    LoadFromHar.call, LoadFromHar.say, LoadFromHar.sret. simpl.
  destruct (create_agent context t (chromium (LoadFromHar.host s)))
    as [[e|] b] eqn:Hcreate; simpl.
  - rewrite <- ?app_assoc. eexists _, b. split; [reflexivity|by left].
  - destruct (run_agent context t b) as [[e|] b'] eqn:Hrun; simpl;
      rewrite <- ?app_assoc; eexists _, b'; (split; [reflexivity|by right]).
Qed.

(** The [finally] clause: it always returns and closes the context once. *)
Lemma cleanup_run context s :
  exists new b,
    LoadFromHar.cleanup context s
    = (Ok tt,
       LoadFromHar.mkScript
         (mkWorld (fs (LoadFromHar.host s)) (blocked (LoadFromHar.host s)) b
            (trace (LoadFromHar.host s)))
         (LoadFromHar.journal s ++ new))
    /\ calls new = [LoadFromHar.CalledClose].
Proof.
  unfold LoadFromHar.cleanup, LoadFromHar.catch, LoadFromHar.sbind,
    LoadFromHar.call, LoadFromHar.say, LoadFromHar.sret. simpl.
  destruct (close_context context (chromium (LoadFromHar.host s)))
    as [[e|] b] eqn:Hclose; simpl;
    rewrite <- ?app_assoc; eexists _, b; (split; [reflexivity|done]).
Qed.

End ScriptRuns.

Section ScriptSession.

Context {R : Runtime} {H : Host}.

Implicit Types (s : LoadFromHar.script) (context : HarExtension.BrowserContext).

(** The task that the script gives the agent for a document. *)
Lemma session_run context path login_prompt s :
  exists r new w',
    LoadFromHar.session context path login_prompt s
    = (r, LoadFromHar.mkScript w' (LoadFromHar.journal s ++ new))
    /\ fs w' = fs (LoadFromHar.host s)
    /\ match fs (LoadFromHar.host s) !! path with
       | Some (Json har_data) =>
           let t := mkTask
                      (StartPage.initial_url
                         (admitted_urls None (Some [200]) (entries_of har_data)))
                      login_prompt in
           (calls new = []
            /\ exists e, r = Raise e
                         /\ fst (HarExtension.load_from_har context path None
                                   (LoadFromHar.host s)) = Raise e)
           \/ (r = Ok tt
               /\ fst (HarExtension.load_from_har context path None
                         (LoadFromHar.host s)) = Ok tt
               /\ (calls new = [LoadFromHar.CalledAgent t]
                   \/ calls new = [LoadFromHar.CalledAgent t; LoadFromHar.CalledRun t]))
       | _ => calls new = [] /\ exists e, r = Raise e
       end.
Proof.
  unfold LoadFromHar.session.
  unfold LoadFromHar.sbind at 1. unfold LoadFromHar.say at 1.
  unfold LoadFromHar.sbind at 1. unfold LoadFromHar.core at 1.
  cbn [LoadFromHar.host LoadFromHar.journal].
  pose proof (load_from_har_fs context path None (LoadFromHar.host s)) as Hfs.
  destruct (HarExtension.load_from_har context path None (LoadFromHar.host s))
    as [[[]|e] w1] eqn:Hload; cbn [snd] in Hfs.
  2:{ eexists _, _, w1. split; [reflexivity|]. split; [done|].
      destruct (fs (LoadFromHar.host s) !! path) as [[|har_data|]|];
        [| left | |]; (split; [done|by eexists]). }
  cbn [fst].
  unfold LoadFromHar.sbind at 1. unfold LoadFromHar.say at 1.
  unfold LoadFromHar.sbind at 1. unfold LoadFromHar.say at 1.
  unfold LoadFromHar.sbind at 1. unfold LoadFromHar.core at 1.
  cbn [LoadFromHar.host LoadFromHar.journal].
  unfold HarExtension.extract_urls_from_har. cbn [or_default].
  destruct (fs (LoadFromHar.host s) !! path) as [[|har_data|]|] eqn:Hfile;
    [|
     |rewrite extract_urls_not_utf8 by (by rewrite Hfs);
      rewrite <- !app_assoc;
      eexists _, _, _; (split; [reflexivity|]); (split; [by rewrite record_fs|]);
      (split; [done|by eexists])
     |].
  - rewrite extract_urls_not_json by (by rewrite Hfs).
    rewrite <- !app_assoc.
    eexists _, _, _. split; [reflexivity|]. split; [by rewrite record_fs|].
    split; [done|by eexists].
  - rewrite (extract_urls_json _ _ _ _ har_data) by (by rewrite Hfs).
    rewrite url_loop_spec, first_unparsed_falsy by done. cbn [app].
    set (urls := admitted_urls None (Some [200]) (entries_of har_data)).
    unfold LoadFromHar.sbind at 1. unfold LoadFromHar.say at 1.
    unfold LoadFromHar.sbind at 1.
    cbn [LoadFromHar.host LoadFromHar.journal].
    set (s2 := match urls with
               | [] => LoadFromHar.sret tt
               | _ :: _ => LoadFromHar.say LoadFromHar.Debug
                             (LoadFromHar.UrlSample (firstn 3 urls))
               end _).
    assert (exists new2, s2 = (Ok tt,
              LoadFromHar.mkScript (record [EvOpen path; EvJsonLoad path] w1)
                (LoadFromHar.journal s ++ new2)) /\ calls new2 = [])
      as (new2 & -> & Hnew2).
    { subst s2. destruct urls; unfold LoadFromHar.sret, LoadFromHar.say;
        cbn [LoadFromHar.host LoadFromHar.journal]; rewrite <- !app_assoc;
        eexists; (split; [reflexivity|done]). }
    unfold LoadFromHar.sbind at 1.
    destruct (choose_run urls
                (LoadFromHar.mkScript (record [EvOpen path; EvJsonLoad path] w1)
                   (LoadFromHar.journal s ++ new2)))
      as (new3 & -> & Hnew3).
    cbn [LoadFromHar.host LoadFromHar.journal].
    destruct (agent_run context (mkTask (StartPage.initial_url urls) login_prompt)
                (LoadFromHar.mkScript (record [EvOpen path; EvJsonLoad path] w1)
                   ((LoadFromHar.journal s ++ new2) ++ new3)))
      as (new4 & b & -> & Hnew4).
    cbn [LoadFromHar.host LoadFromHar.journal].
    rewrite <- !app_assoc.
    eexists _, _, _. split; [reflexivity|]. split; [by rewrite <- Hfs|].
    right. split; [done|]. split; [done|].
    rewrite !calls_app, Hnew2, Hnew3. cbn [app]. exact Hnew4.
  - rewrite extract_urls_missing by (by rewrite Hfs).
    rewrite <- !app_assoc.
    eexists _, _, _. split; [reflexivity|]. split; [by rewrite record_fs|].
    split; [done|by eexists].
Qed.

End ScriptSession.

Section ScriptProperties.

Context {R : Runtime} {H : Host}.

Implicit Types (s : LoadFromHar.script) (argv : list string).

Lemma last_app_one {A : Type} (l : list A) (x : A) : last (l ++ [x]) = Some x.
Proof. apply last_snoc. Qed.

(** What a run of the script adds, by what the existence test answers, by
    what the path holds and by what browser-use answers. *)
Lemma main_run argv s :
  exists r new w',
    LoadFromHar.main argv s
    = (r, LoadFromHar.mkScript w' (LoadFromHar.journal s ++ new))
    /\ fs w' = fs (LoadFromHar.host s)
    /\ match exists_answer (fspath (har_path_of argv))
               (at_Path (LoadFromHar.host s) (har_path_of argv)) with
       | Raise e =>
           r = Raise e
           /\ w' = record [EvExists (har_path_of argv)] (LoadFromHar.host s)
           /\ calls new = []
       | Ok false =>
           r = Ok tt
           /\ w' = record [EvExists (har_path_of argv)] (LoadFromHar.host s)
           /\ exists said,
                calls said = []
                /\ new = said ++ [LoadFromHar.Said LoadFromHar.Error
                                    (LoadFromHar.HarMissing (har_path_of argv));
                                  LoadFromHar.Said LoadFromHar.Info
                                    LoadFromHar.GiveValidPath]
       | Ok true =>
           r = Ok tt
           /\ match start_browser (chromium (LoadFromHar.host s)) with
              | (Some e, _) =>
                  calls new = [LoadFromHar.CalledBrowser]
                  /\ last new
                     = Some (LoadFromHar.Said LoadFromHar.Error
                               (LoadFromHar.BrowserFailed e))
              | (None, b1) =>
                  match new_context b1 with
                  | (Raise e, _) =>
                      calls new
                      = [LoadFromHar.CalledBrowser; LoadFromHar.CalledNewContext]
                      /\ last new
                         = Some (LoadFromHar.Said LoadFromHar.Error
                                   (LoadFromHar.ContextFailed e))
                  | (Ok context, _) =>
                      exists mid,
                        calls new
                        = [LoadFromHar.CalledBrowser; LoadFromHar.CalledNewContext]
                          ++ mid ++ [LoadFromHar.CalledClose]
                        /\ match fs (LoadFromHar.host s) !! har_path_of argv with
                           | Some (Json har_data) =>
                               let t := mkTask
                                          (StartPage.initial_url
                                             (admitted_urls None (Some [200])
                                                (entries_of har_data)))
                                          (prompt_of argv) in
                               mid = []
                               \/ mid = [LoadFromHar.CalledAgent t]
                               \/ mid = [LoadFromHar.CalledAgent t;
                                         LoadFromHar.CalledRun t]
                           | _ => mid = []
                           end
                  end
              end
       end.
Proof.
  unfold LoadFromHar.main.
  unfold LoadFromHar.sbind at 1. unfold LoadFromHar.say at 1.
  unfold LoadFromHar.sbind at 1.
  destruct (arguments_run argv
              (LoadFromHar.mkScript (LoadFromHar.host s)
                 (LoadFromHar.journal s ++ [LoadFromHar.Said LoadFromHar.Info
                                              LoadFromHar.ScriptStarted])))
    as (new1 & -> & Hnew1).
  cbn [LoadFromHar.host LoadFromHar.journal].
  set (path := har_path_of argv). set (login_prompt := prompt_of argv).
  unfold LoadFromHar.sbind at 1. unfold LoadFromHar.core at 1.
  unfold path_exists at 1. cbn [LoadFromHar.host LoadFromHar.journal].
  destruct (exists_answer (fspath path) (at_Path (LoadFromHar.host s) path))
    as [[|]|e0] eqn:Hprobe; cbn [negb].
  3:{ rewrite <- !app_assoc.
      eexists _, _, _. split; [reflexivity|]. split; [done|].
      split; [done|]. split; [done|]. by rewrite calls_app, Hnew1. }
  2:{ unfold LoadFromHar.sbind, LoadFromHar.say.
      cbn [LoadFromHar.host LoadFromHar.journal]. rewrite <- !app_assoc.
      eexists _, _, _. split; [reflexivity|]. split; [done|]. split; [done|].
      split; [done|].
      exists ([LoadFromHar.Said LoadFromHar.Info LoadFromHar.ScriptStarted] ++ new1).
      split; [by rewrite calls_app, Hnew1|]. by rewrite <- !app_assoc. }
  unfold LoadFromHar.sbind at 1. unfold LoadFromHar.say at 1.
  unfold LoadFromHar.sbind at 1. unfold LoadFromHar.say at 1.
  unfold LoadFromHar.sbind at 1. unfold LoadFromHar.catch at 1.
  unfold LoadFromHar.sbind at 1. unfold LoadFromHar.call at 1.
  cbn [LoadFromHar.host LoadFromHar.journal chromium fs blocked trace record].
  destruct (start_browser (chromium (LoadFromHar.host s))) as [[e|] b1] eqn:Hstart.
  { unfold LoadFromHar.say. cbn [LoadFromHar.host LoadFromHar.journal].
    eexists _, _, _. split; [by rewrite <- !app_assoc|]. split; [done|].
    split; [done|]. split; [|by rewrite !app_assoc, last_app_one].
    rewrite !calls_app, Hnew1. done. }
  unfold LoadFromHar.say at 1. cbn [LoadFromHar.host LoadFromHar.journal].
  unfold LoadFromHar.sbind at 1. unfold LoadFromHar.catch at 1.
  unfold LoadFromHar.sbind at 1. unfold LoadFromHar.say at 1.
  unfold LoadFromHar.sbind at 1. unfold LoadFromHar.call_new_context at 1.
  cbn [LoadFromHar.host LoadFromHar.journal chromium fs blocked trace].
  destruct (new_context b1) as [[context|e] b2] eqn:Hcontext.
  2:{ unfold LoadFromHar.say. cbn [LoadFromHar.host LoadFromHar.journal].
      eexists _, _, _. split; [by rewrite <- !app_assoc|]. split; [done|].
      split; [done|]. split; [|by rewrite !app_assoc, last_app_one].
      rewrite !calls_app, Hnew1. done. }
  unfold LoadFromHar.sbind at 1. unfold LoadFromHar.say at 1.
  unfold LoadFromHar.sret at 1. cbn [LoadFromHar.host LoadFromHar.journal].
  unfold LoadFromHar.sbind at 1. unfold LoadFromHar.sbind at 1.
  unfold LoadFromHar.catch at 1.
  match goal with
  | |- context [LoadFromHar.session context path login_prompt ?s0] =>
      destruct (session_run context path login_prompt s0)
        as (r & new2 & w2 & -> & Hfs2 & Hnew2)
  end.
  cbn [LoadFromHar.host LoadFromHar.journal fs] in Hfs2, Hnew2.
  set (pages := match fs (LoadFromHar.host s) !! path with
                | Some (Json har_data) =>
                    Some (mkTask
                            (StartPage.initial_url
                               (admitted_urls None (Some [200])
                                  (entries_of har_data)))
                            login_prompt)
                | _ => None
                end).
  set (s3 := match r with
             | Ok _ => LoadFromHar.sret tt
             | Raise e => LoadFromHar.say LoadFromHar.Error (LoadFromHar.RunFailed e)
             end _).
  assert (exists new3, s3 = (Ok tt, LoadFromHar.mkScript w2
            (LoadFromHar.journal s ++ new3))
          /\ exists mid, calls new3
             = [LoadFromHar.CalledBrowser; LoadFromHar.CalledNewContext] ++ mid
             /\ match pages with
                | Some t =>
                    mid = []
                    \/ mid = [LoadFromHar.CalledAgent t]
                    \/ mid = [LoadFromHar.CalledAgent t; LoadFromHar.CalledRun t]
                | None => mid = []
                end) as (new3 & -> & mid & Hnew3 & Hmid).
  { subst s3 pages. destruct r as [[]|e];
      unfold LoadFromHar.sret, LoadFromHar.say;
      cbn [LoadFromHar.host LoadFromHar.journal]; rewrite <- !app_assoc;
      (eexists; split; [reflexivity|]); exists (calls new2);
      (split; [rewrite !calls_app, Hnew1; cbn [app]; rewrite ?calls_app;
               cbn [calls List.filter is_call app]; by rewrite ?app_nil_r|]).
    - destruct (fs (LoadFromHar.host s) !! path) as [[|har_data|]|];
        try (by destruct Hnew2 as [_ [? ?]]).
      destruct Hnew2 as [[-> _]|[_ [_ [->| ->]]]]; auto.
    - destruct (fs (LoadFromHar.host s) !! path) as [[|har_data|]|];
        try (by destruct Hnew2 as [-> _]).
      destruct Hnew2 as [[-> _]|[? _]]; [auto|done]. }
  match goal with
  | |- context [LoadFromHar.cleanup context ?s0] =>
      destruct (cleanup_run context s0) as (new4 & b4 & -> & Hnew4)
  end.
  cbn [LoadFromHar.host LoadFromHar.journal fs].
  rewrite <- !app_assoc.
  eexists _, _, _. split; [reflexivity|]. split; [done|]. split; [done|].
  exists mid. split; [by rewrite calls_app, Hnew3, Hnew4, <- app_assoc|].
  subst pages.
  by destruct (fs (LoadFromHar.host s) !! path) as [[|har_data|]|].
Qed.

Lemma added_main argv s r new w' :
  LoadFromHar.main argv s
  = (r, LoadFromHar.mkScript w' (LoadFromHar.journal s ++ new)) ->
  added (LoadFromHar.main argv) s = new.
Proof. intros Hrun. unfold added. rewrite Hrun. simpl. apply drop_app_length. Qed.

Lemma In_calls st steps : In st (calls steps) <-> In st steps /\ is_call st = true.
Proof. unfold calls. apply filter_In. Qed.

(** X19. The script raises exactly when its existence test raises, which
    [Path.exists] does for a name that is too long or that may not be
    searched: the exception leaves [main] before anything is called. In
    every other case the script ends normally, whatever the files hold and
    whatever browser-use raises; a failure of [Browser()] or of
    [new_context] is the last thing the script logs, at error level and with
    the exception. *)
Theorem main_raises_only_at_the_probe argv s :
  let path := har_path_of argv in
  match fst (path_exists path (LoadFromHar.host s)) with
  | Raise e =>
      fst (LoadFromHar.main argv s) = Raise e
      /\ calls (added (LoadFromHar.main argv) s) = []
      /\ LoadFromHar.host (snd (LoadFromHar.main argv s))
         = record [EvExists path] (LoadFromHar.host s)
  | Ok found =>
      fst (LoadFromHar.main argv s) = Ok tt
      /\ (found = true ->
          (forall e b,
             start_browser (chromium (LoadFromHar.host s)) = (Some e, b) ->
             last (added (LoadFromHar.main argv) s)
             = Some (LoadFromHar.Said LoadFromHar.Error
                       (LoadFromHar.BrowserFailed e)))
          /\ (forall b1 e b2,
                start_browser (chromium (LoadFromHar.host s)) = (None, b1) ->
                new_context b1 = (Raise e, b2) ->
                last (added (LoadFromHar.main argv) s)
                = Some (LoadFromHar.Said LoadFromHar.Error
                          (LoadFromHar.ContextFailed e))))
  end.
Proof.
  intros path. subst path.
  destruct (main_run argv s) as (r & new & w' & Hrun & _ & Hnew).
  rewrite (added_main _ _ _ _ _ Hrun), Hrun.
  unfold path_exists. cbn [fst snd LoadFromHar.host].
  destruct (exists_answer _ _) as [[|]|e0].
  - destruct Hnew as [-> Hnew]. split; [done|]. intros _. split.
    + intros e b Hstart. rewrite Hstart in Hnew. by destruct Hnew.
    + intros b1 e b2 Hstart Hcontext. rewrite Hstart, Hcontext in Hnew.
      by destruct Hnew.
  - destruct Hnew as (-> & _). by split.
  - by destruct Hnew as (-> & -> & ->).
Qed.

(** X20. When the existence test answers no, the script stops before it
    touches browser-use: it makes no call, it probes the path once and does
    nothing else in the world of the loader, and the last things it logs are
    the error that the file is missing and the request for a valid path. *)
Theorem missing_archive_starts_nothing argv s :
  fst (path_exists (har_path_of argv) (LoadFromHar.host s)) = Ok false ->
  let path := har_path_of argv in
  calls (added (LoadFromHar.main argv) s) = []
  /\ LoadFromHar.host (snd (LoadFromHar.main argv s))
     = record [EvExists path] (LoadFromHar.host s)
  /\ exists said,
       added (LoadFromHar.main argv) s
       = said ++ [LoadFromHar.Said LoadFromHar.Error (LoadFromHar.HarMissing path);
                  LoadFromHar.Said LoadFromHar.Info LoadFromHar.GiveValidPath].
Proof.
  intros Hnone path. subst path.
  destruct (main_run argv s) as (r & new & w' & Hrun & _ & Hnew).
  unfold path_exists in Hnone. cbn [fst] in Hnone.
  rewrite Hnone in Hnew. destruct Hnew as (_ & -> & said & Hsaid & ->).
  rewrite (added_main _ _ _ _ _ Hrun), Hrun. simpl.
  split; [by rewrite calls_app, Hsaid|]. split; [done|]. by exists said.
Qed.

(** X21. The calls of browser-use that a run of the script makes are, in
    order, one of six sequences: none; the browser; the browser and a
    context; and, with the browser and a context first and the closing of
    the context last, nothing, the creation of an agent, or the creation and
    the run of an agent. So a context is closed at most once and after
    everything else, an agent is run at most once and only after it has been
    created with the same task, and the task has the prompt of the
    arguments. *)
Theorem calls_of_a_run argv s :
  exists t,
    prompt t = prompt_of argv
    /\ In (calls (added (LoadFromHar.main argv) s))
         [ [];
           [LoadFromHar.CalledBrowser];
           [LoadFromHar.CalledBrowser; LoadFromHar.CalledNewContext];
           [LoadFromHar.CalledBrowser; LoadFromHar.CalledNewContext;
            LoadFromHar.CalledClose];
           [LoadFromHar.CalledBrowser; LoadFromHar.CalledNewContext;
            LoadFromHar.CalledAgent t; LoadFromHar.CalledClose];
           [LoadFromHar.CalledBrowser; LoadFromHar.CalledNewContext;
            LoadFromHar.CalledAgent t; LoadFromHar.CalledRun t;
            LoadFromHar.CalledClose] ].
Proof.
  destruct (main_run argv s) as (r & new & w' & Hrun & _ & Hnew).
  rewrite (added_main _ _ _ _ _ Hrun).
  destruct (exists_answer _ _) as [[|]|e0].
  2:{ exists (mkTask "" (prompt_of argv)). split; [done|].
      destruct Hnew as (_ & _ & said & Hsaid & ->).
      rewrite calls_app, Hsaid. by left. }
  2:{ exists (mkTask "" (prompt_of argv)). split; [done|].
      destruct Hnew as (_ & _ & ->). by left. }
  destruct Hnew as [_ Hnew].
  destruct (start_browser _) as [[e|] b1].
  { exists (mkTask "" (prompt_of argv)). split; [done|].
    destruct Hnew as [-> _]. simpl. auto. }
  destruct (new_context b1) as [[context|e] b2].
  2:{ exists (mkTask "" (prompt_of argv)). split; [done|].
      destruct Hnew as [-> _]. simpl. auto. }
  destruct Hnew as (mid & -> & Hmid).
  destruct (fs (LoadFromHar.host s) !! har_path_of argv) as [[|har_data|]|];
    try (exists (mkTask "" (prompt_of argv)); split; [done|];
         subst mid; simpl; by auto).
  eexists. split; [|destruct Hmid as [->|[->| ->]]; simpl; auto 10].
  done.
Qed.

(** X22. An agent is created only for an archive that could be read: the
    file holds a document, the page of the task is the start page chosen
    among the URLs of the entries that were answered with 200, and the
    prompt of the task is the prompt of the arguments. *)
Theorem agent_task argv s t :
  In (LoadFromHar.CalledAgent t) (added (LoadFromHar.main argv) s) ->
  exists har_data,
    fs (LoadFromHar.host s) !! har_path_of argv = Some (Json har_data)
    /\ start_url t
       = StartPage.initial_url (admitted_urls None (Some [200]) (entries_of har_data))
    /\ prompt t = prompt_of argv.
Proof.
  intros Hin.
  destruct (main_run argv s) as (r & new & w' & Hrun & _ & Hnew).
  rewrite (added_main _ _ _ _ _ Hrun) in Hin.
  assert (In (LoadFromHar.CalledAgent t) (calls new)) as Hcalled
    by (by apply In_calls).
  destruct (exists_answer _ _) as [[|]|e0].
  2:{ destruct Hnew as (_ & _ & said & Hsaid & ->).
      rewrite calls_app, Hsaid in Hcalled. by destruct Hcalled. }
  2:{ destruct Hnew as (_ & _ & Hnone). rewrite Hnone in Hcalled.
      by destruct Hcalled. }
  destruct Hnew as [_ Hnew].
  destruct (start_browser _) as [[e|] b1].
  { destruct Hnew as [Hnew _]. rewrite Hnew in Hcalled.
    by destruct Hcalled as [?|[]]. }
  destruct (new_context b1) as [[context|e] b2].
  2:{ destruct Hnew as [Hnew _]. rewrite Hnew in Hcalled.
      by destruct Hcalled as [?|[?|[]]]. }
  destruct Hnew as (mid & Hcalls & Hmid). rewrite Hcalls in Hcalled.
  destruct (fs (LoadFromHar.host s) !! har_path_of argv) as [[|har_data|]|];
    try (subst mid; by destruct Hcalled as [?|[?|[?|[]]]]).
  exists har_data. split; [done|].
  destruct Hmid as [->|[->| ->]]; simpl in Hcalled.
  - by destruct Hcalled as [?|[?|[?|[]]]].
  - destruct Hcalled as [?|[?|[[= <-]|[?|[]]]]]; done.
  - destruct Hcalled as [?|[?|[[= <-]|[?|[?|[]]]]]]; done.
Qed.

(** X23. The [finally] clause: when the file is there and the browser has
    started, the context is closed exactly when its creation returned one,
    whatever happened in between, a failure of the loader or of the agent
    included. *)
Theorem context_closed_iff_opened argv s b1 :
  is_Some (fs (LoadFromHar.host s) !! har_path_of argv) ->
  start_browser (chromium (LoadFromHar.host s)) = (None, b1) ->
  In LoadFromHar.CalledClose (added (LoadFromHar.main argv) s)
  <-> exists context, fst (new_context b1) = Ok context.
Proof.
  intros [f Hfile] Hstart.
  destruct (main_run argv s) as (r & new & w' & Hrun & _ & Hnew).
  rewrite (added_main _ _ _ _ _ Hrun).
  rewrite (at_Path_readable _ _ _ Hfile) in Hnew. cbn [exists_answer] in Hnew.
  destruct Hnew as [_ Hnew]. rewrite Hstart in Hnew.
  assert (In LoadFromHar.CalledClose new <-> In LoadFromHar.CalledClose (calls new))
    as -> by (rewrite In_calls; by intuition).
  destruct (new_context b1) as [[context|e] b2]; simpl.
  - destruct Hnew as (mid & -> & _). split; [by eexists|]. intros _.
    apply in_app_iff. right. apply in_app_iff. right. by left.
  - destruct Hnew as [-> _]. split; [by intros [?|[?|[]]]|by intros [? ?]].
Qed.

End ScriptProperties.

Section SessionProperties.

Context {R : Runtime} {H : Host}.

(** X24. Inside the outer [try], when the file holds a document, the agent
    is created exactly when [HarExtension.load_from_har] returned: a browser
    that refuses the cookies means that no agent is created, and a context
    without a session, which the extension only logs, does not. *)
Theorem agent_needs_loaded_cookies
    (context : HarExtension.BrowserContext) (path login_prompt : string)
    (s : LoadFromHar.script) har_data :
  fs (LoadFromHar.host s) !! path = Some (Json har_data) ->
  (exists t, In (LoadFromHar.CalledAgent t)
               (added (LoadFromHar.session context path login_prompt) s))
  <-> fst (HarExtension.load_from_har context path None (LoadFromHar.host s)) = Ok tt.
Proof.
  intros Hfile.
  destruct (session_run context path login_prompt s)
    as (r & new & w' & Hrun & _ & Hnew).
  unfold added. rewrite Hrun. simpl. rewrite drop_app_length.
  rewrite Hfile in Hnew. cbv zeta in Hnew.
  destruct Hnew as [(Hnone & e & _ & Hload)|(_ & Hload & Hcalls)].
  - rewrite Hload. split; [|done]. intros [t Hin].
    assert (In (LoadFromHar.CalledAgent t) (calls new)) as Hcalled
      by (by apply In_calls).
    rewrite Hnone in Hcalled. by destruct Hcalled.
  - split; [done|]. intros _. eexists.
    apply (proj1 (In_calls _ new)).
    destruct Hcalls as [-> | ->]; by left.
Qed.

End SessionProperties.

(** ** The properties above on the sample archives *)

(** The archive with the duplicated cookie, without a filter. *)
Lemma returned_cookies_differ_witness :
  exists cookies w',
    HarLoader.load_cookies_from_har (R := CPython.runtime) tt "bad-url.har" None
      Archive.start
    = (Ok cookies, w')
    /\ NoDup (map name_and_domain cookies).
Proof.
  destruct (HarLoader.load_cookies_from_har (R := CPython.runtime) tt "bad-url.har"
              None Archive.start) as [[cookies|e] w'] eqn:Hrun;
    [|by vm_compute in Hrun].
  exists cookies, w'. split; [done|].
  exact (returned_cookies_differ_in_name_or_domain (R := CPython.runtime) tt
           "bad-url.har" None Archive.start cookies w' Hrun).
Defined.

(** The first [sid] of the archive with the duplicated cookie is returned. *)
Lemma first_cookie_of_a_key_witness :
  let sid := Sample.cookie (Some "sid") (Some "a.example.com") (Some (JStr "soon")) in
  exists cookies w',
    HarLoader.load_cookies_from_har (R := CPython.runtime) tt "bad-url.har" None
      Archive.start
    = (Ok cookies, w')
    /\ fs Archive.start !! "bad-url.har" = Some (Json Archive.with_bad_url)
    /\ In (normalized (R := CPython.runtime) sid) cookies.
Proof.
  intros sid.
  assert (fs Archive.start !! "bad-url.har" = Some (Json Archive.with_bad_url))
    as Hfile by (by vm_compute).
  destruct (HarLoader.load_cookies_from_har (R := CPython.runtime) tt "bad-url.har"
              None Archive.start) as [[cookies|e] w'] eqn:Hrun;
    [|by vm_compute in Hrun].
  exists cookies, w'. split; [done|]. split; [done|].
  destruct (first_cookie_of_a_key_is_returned (R := CPython.runtime) tt
              "bad-url.har" None Archive.start cookies w' Archive.with_bad_url
              Hrun Hfile) as (Hfirst & _ & _).
  apply (Hfirst [] sid
           [Sample.cookie (Some "sid") (Some "a.example.com") (Some (JStr "later"));
            Sample.cookie (Some "lang") (Some "b.example.com") None]).
  - reflexivity.
  - intros c' [].
Defined.

(** Three cookies in the archive, at most three returned. *)
Lemma returned_cookies_count_witness :
  exists cookies w',
    HarLoader.load_cookies_from_har (R := CPython.runtime) tt "bad-url.har" None
      Archive.start
    = (Ok cookies, w')
    /\ fs Archive.start !! "bad-url.har" = Some (Json Archive.with_bad_url)
    /\ (length cookies <= 3)%nat
    /\ cookies <> [].
Proof.
  assert (fs Archive.start !! "bad-url.har" = Some (Json Archive.with_bad_url))
    as Hfile by (by vm_compute).
  destruct (HarLoader.load_cookies_from_har (R := CPython.runtime) tt "bad-url.har"
              None Archive.start) as [[cookies|e] w'] eqn:Hrun;
    [|by vm_compute in Hrun].
  exists cookies, w'. split; [done|]. split; [done|].
  destruct (returned_cookies_count (R := CPython.runtime) tt "bad-url.har" None
              Archive.start cookies w' Archive.with_bad_url Hrun Hfile)
    as [Hle Hnone].
  split; [exact Hle|]. intros Hempty. by apply Hnone in Hempty.
Defined.

(** The files after a successful extraction. *)
Lemma successful_extraction_footprint_witness :
  exists cookies w',
    HarLoader.load_cookies_from_har (R := CPython.runtime) tt "bad-url.har" None
      Archive.start
    = (Ok cookies, w')
    /\ fs w' = fs Archive.start.
Proof.
  destruct (HarLoader.load_cookies_from_har (R := CPython.runtime) tt "bad-url.har"
              None Archive.start) as [[cookies|e] w'] eqn:Hrun;
    [|by vm_compute in Hrun].
  exists cookies, w'. split; [done|].
  destruct (successful_extraction_footprint (R := CPython.runtime) tt
              "bad-url.har" None Archive.start cookies w' Hrun)
    as (warned & _ & _ & Hfs & _).
  exact Hfs.
Defined.

(** Two cookies [sid] whose [expires] is not a number: the first one is
    returned and warned about, the second one is dropped without a warning. *)
Lemma warnings_name_returned_cookies_witness :
  exists cookies w',
    HarLoader.load_cookies_from_har (R := CPython.runtime) tt "bad-url.har" None
      Archive.start
    = (Ok cookies, w')
    /\ map (float_rejects (R := CPython.runtime))
         (kept_cookies (R := CPython.runtime) None (entries_of Archive.with_bad_url))
       = [true; true; false]
    /\ List.filter is_expires_warning (drop (length (trace Archive.start)) (trace w'))
       = [EvLog WARNING (MsgInvalidExpires (JStr "sid"))].
Proof.
  destruct (HarLoader.load_cookies_from_har (R := CPython.runtime) tt "bad-url.har"
              None Archive.start) as [[cookies|e] w'] eqn:Hrun;
    [|by vm_compute in Hrun].
  exists cookies, w'. split; [done|]. split; [by vm_compute|].
  destruct (warnings_name_returned_cookies (R := CPython.runtime) tt "bad-url.har"
              None Archive.start cookies w' Hrun)
    as (har_data & Hat & _ & Hwarnings & _).
  assert (har_data = Archive.with_bad_url) as ->.
  { assert (at_Path (R := CPython.runtime) Archive.start "bad-url.har"
            = Readable (Json Archive.with_bad_url)) as Hfile by (by vm_compute).
    rewrite Hfile in Hat. by injection Hat as <-. }
  rewrite Hwarnings. by vm_compute.
Defined.

(** The archive with the URL that [urlparse] rejects, under a domain filter. *)
Lemma rejected_url_witness :
  let first :=
    Sample.entry "https://a.example.com/"
      [Sample.cookie (Some "sid") (Some "a.example.com") (Some (JStr "soon"));
       Sample.cookie (Some "sid") (Some "a.example.com") (Some (JStr "later"))] 200 in
  let bad := Sample.entry "http://[bad/" [] 404 in
  let last :=
    Sample.entry "https://b.example.com/"
      [Sample.cookie (Some "lang") (Some "b.example.com") None] 200 in
  entries_of Archive.with_bad_url = [first] ++ bad :: [last]
  /\ urlparse_netloc (Runtime := CPython.runtime) (url_of first) <> None
  /\ urlparse_netloc (Runtime := CPython.runtime) (url_of bad) = None
  /\ fst (HarLoader.load_cookies_from_har (R := CPython.runtime) tt "bad-url.har"
            (Some ["example.com"]) Archive.start)
     = Raise (ValueError "http://[bad/")
  /\ chromium (snd (HarLoader.load_cookies_from_har (R := CPython.runtime) tt
                      "bad-url.har" (Some ["example.com"]) Archive.start))
     = Some [].
Proof.
  intros first bad last.
  assert (fs Archive.start !! "bad-url.har" = Some (Json Archive.with_bad_url))
    as Hfile by (by vm_compute).
  assert (urlparse_netloc (Runtime := CPython.runtime) (url_of first) <> None)
    as Hfirst by (by vm_compute).
  assert (urlparse_netloc (Runtime := CPython.runtime) (url_of bad) = None)
    as Hbad by (by vm_compute).
  split; [reflexivity|]. split; [done|]. split; [done|].
  destruct (rejected_url_stops_cookie_extraction (R := CPython.runtime) tt
              "bad-url.har" (Some ["example.com"]) Archive.start
              Archive.with_bad_url [first] bad [last] Hfile eq_refl eq_refl)
    as (Hraise & _ & Hbrowser & _).
  - intros e' [<-|[]]. exact Hfirst.
  - exact Hbad.
  - split; [exact Hraise|exact Hbrowser].
Defined.

(** The same archive without a domain filter: the URL is not parsed. *)
Lemma no_filter_no_url_error_witness :
  truthy (@None (list string)) = false
  /\ fst (HarLoader.load_cookies_from_har (R := CPython.runtime) tt "bad-url.har"
            None Archive.start)
     <> Raise (ValueError "http://[bad/")
  /\ fst (HarLoader.extract_urls_from_har (R := CPython.runtime) "bad-url.har"
            None None Archive.start)
     <> Raise (ValueError "http://[bad/").
Proof.
  split; [reflexivity|].
  exact (no_filter_no_url_error (R := CPython.runtime) tt "bad-url.har" None None
           Archive.start "http://[bad/" eq_refl).
Defined.

(** The cookie of the scenario under the filter [example.com]. *)
Lemma returned_cookies_origin_witness :
  let sid :=
    normalized (R := CPython.runtime)
      (Sample.cookie (Some "sid") (Some "a.example.com") None) in
  let run :=
    HarLoader.load_cookies_from_har (R := CPython.runtime) tt "scenario.har"
      (Some ["example.com"]) Sample.start in
  run = (Ok [sid], snd run)
  /\ fs Sample.start !! "scenario.har" = Some (Json Sample.scenario)
  /\ exists entry raw,
       In entry (entries_of Sample.scenario)
       /\ In raw (cookies_of entry)
       /\ sid = normalized (R := CPython.runtime) raw.
Proof.
  intros sid run.
  assert (run = (Ok [sid], snd run)) as Hrun by (by vm_compute).
  assert (fs Sample.start !! "scenario.har" = Some (Json Sample.scenario))
    as Hfile by (by vm_compute).
  split; [done|]. split; [done|].
  destruct (returned_cookies_come_from_kept_entries (R := CPython.runtime) tt
              "scenario.har" (Some ["example.com"]) Sample.start [sid] (snd run)
              Sample.scenario sid Hrun Hfile (or_introl eq_refl))
    as (entry & raw & Hentry & Hraw & Hout & _).
  by exists entry, raw.
Defined.

(** The document without a [log]. *)
Lemma document_without_entries_witness :
  fs Archive.start !! "empty.har" = Some (Json Archive.without_log)
  /\ Har.log Archive.without_log = None
  /\ fst (HarLoader.extract_urls_from_har (R := CPython.runtime) "empty.har"
            (Some ["example.com"]) (Some [200]) Archive.start)
     = Ok []
  /\ fst (HarLoader.load_cookies_from_har (R := CPython.runtime) tt "empty.har"
            (Some ["example.com"]) Archive.start)
     = Ok [].
Proof.
  assert (fs Archive.start !! "empty.har" = Some (Json Archive.without_log))
    as Hfile by (by vm_compute).
  split; [done|]. split; [reflexivity|].
  destruct (document_without_entries (R := CPython.runtime) tt "empty.har"
              (Some ["example.com"]) (Some [200]) Archive.start
              Archive.without_log Hfile (or_introl eq_refl)) as [-> ->].
  by split.
Defined.

(** The URLs of the scenario under the filters [example.com] and 200. *)
Lemma extracted_urls_subsequence_witness :
  exists urls w',
    HarLoader.extract_urls_from_har (R := CPython.runtime) "scenario.har"
      (Some ["example.com"]) (Some [200]) Sample.start
    = (Ok urls, w')
    /\ fs Sample.start !! "scenario.har" = Some (Json Sample.scenario)
    /\ sublist urls
         ["https://a.example.com/login"; "https://a.example.com/home";
          "https://b.other.com/missing"].
Proof.
  assert (fs Sample.start !! "scenario.har" = Some (Json Sample.scenario))
    as Hfile by (by vm_compute).
  destruct (HarLoader.extract_urls_from_har (R := CPython.runtime) "scenario.har"
              (Some ["example.com"]) (Some [200]) Sample.start)
    as [[urls|e] w'] eqn:Hrun; [|by vm_compute in Hrun].
  exists urls, w'. split; [done|]. split; [done|].
  destruct (extracted_urls_are_a_subsequence (R := CPython.runtime) "scenario.har"
              (Some ["example.com"]) (Some [200]) Sample.start urls w'
              Sample.scenario Hrun Hfile) as [Hsub _].
  exact Hsub.
Defined.

(** The scenario with and without the filter [example.com]. *)
Lemma domain_filter_selects_witness :
  exists urls w' every,
    HarLoader.extract_urls_from_har (R := CPython.runtime) "scenario.har"
      (Some ["example.com"]) None Sample.start
    = (Ok urls, w')
    /\ fst (HarLoader.extract_urls_from_har (R := CPython.runtime) "scenario.har"
              None None Sample.start)
       = Ok every
    /\ urls = List.filter (url_admitted (R := CPython.runtime) (Some ["example.com"]))
                every.
Proof.
  destruct (HarLoader.extract_urls_from_har (R := CPython.runtime) "scenario.har"
              (Some ["example.com"]) None Sample.start)
    as [[urls|e] w'] eqn:Hrun; [|by vm_compute in Hrun].
  destruct (domain_filter_selects_from_the_unfiltered (R := CPython.runtime)
              "scenario.har" (Some ["example.com"]) None Sample.start urls w' Hrun)
    as (every & Hevery & Hurls).
  by exists urls, w', every.
Defined.

(** The scenario under the status filters 200 and 200, 404. *)
Lemma narrower_status_filter_witness :
  exists urls' w' urls,
    HarLoader.extract_urls_from_har (R := CPython.runtime) "scenario.har" None
      (Some [200; 404]) Sample.start
    = (Ok urls', w')
    /\ fst (HarLoader.extract_urls_from_har (R := CPython.runtime) "scenario.har"
              None (Some [200]) Sample.start)
       = Ok urls
    /\ sublist urls urls'.
Proof.
  destruct (HarLoader.extract_urls_from_har (R := CPython.runtime) "scenario.har"
              None (Some [200; 404]) Sample.start)
    as [[urls'|e] w'] eqn:Hrun; [|by vm_compute in Hrun].
  destruct (narrower_status_filter_returns_less (R := CPython.runtime)
              "scenario.har" None (Some [200]) (Some [200; 404]) Sample.start
              urls' w' eq_refl) as (urls & Hurls & Hsub).
  - right. intros s [<-|[]]. by left.
  - exact Hrun.
  - by exists urls', w', urls.
Defined.

(** The archive with the URL that [urlparse] rejects: the entry is answered
    with 404, so the error needs a status filter that admits 404. *)
Lemma url_error_witness :
  fs Archive.start !! "bad-url.har" = Some (Json Archive.with_bad_url)
  /\ (exists url,
        fst (HarLoader.extract_urls_from_har (R := CPython.runtime) "bad-url.har"
               (Some ["example.com"]) (Some [404]) Archive.start)
        = Raise (ValueError url))
  /\ ~ (exists url,
          fst (HarLoader.extract_urls_from_har (R := CPython.runtime) "bad-url.har"
                 (Some ["example.com"]) (Some [200]) Archive.start)
          = Raise (ValueError url)).
Proof.
  assert (fs Archive.start !! "bad-url.har" = Some (Json Archive.with_bad_url))
    as Hfile by (by vm_compute).
  split; [done|]. split.
  - apply (url_error_needs_an_admitted_entry (R := CPython.runtime) "bad-url.har"
             (Some ["example.com"]) (Some [404]) Archive.start
             Archive.with_bad_url Hfile).
    split; [reflexivity|].
    exists (Sample.entry "http://[bad/" [] 404).
    split; [right; by left|]. split; by vm_compute.
  - intros [url Hraise]. by vm_compute in Hraise.
Defined.

(** A style sheet before a page. *)
Lemma initial_url_prefers_pages_witness :
  StartPage.is_media "https://a.example.com/site.css" = true
  /\ StartPage.initial_url
       (["https://a.example.com/site.css"] ++ "https://a.example.com/home" :: [])
     = "https://a.example.com/home".
Proof.
  assert (StartPage.is_media "https://a.example.com/site.css" = true) as Hmedia
    by (by vm_compute).
  split; [done|].
  destruct (initial_url_prefers_pages ["https://a.example.com/site.css"]
              "https://a.example.com/home" []) as (Hpage & _ & _).
  - intros u [<-|[]]. exact Hmedia.
  - apply Hpage; by vm_compute.
Defined.

(** The start page of the scenario. *)
Lemma start_page_witness :
  fs Sample.start !! "scenario.har" = Some (Json Sample.scenario)
  /\ exists urls,
       fst (HarExtension.extract_urls_from_har (R := CPython.runtime)
              "scenario.har" None (Passed (Some [200])) Sample.start)
       = Ok urls
       /\ StartPage.initial_url urls = "https://a.example.com/login".
Proof.
  assert (fs Sample.start !! "scenario.har" = Some (Json Sample.scenario))
    as Hfile by (by vm_compute).
  split; [done|].
  destruct (start_page_was_answered_200 (R := CPython.runtime) "scenario.har"
              Sample.start Sample.scenario Hfile) as (urls & Hurls & _).
  exists urls. split; [done|].
  vm_compute in Hurls. injection Hurls as <-. by vm_compute.
Defined.

(** ** The script on the sample files *)

(** A path of the sample disk at which nothing stands. *)
Lemma missing_archive_witness :
  let argv := ["load_from_har.py"; "missing.har"] in
  let run := LoadFromHar.main (R := CPython.runtime) (H := Desk.host) argv in
  fst (path_exists (R := CPython.runtime)
         (har_path_of (R := CPython.runtime) (H := Desk.host) argv)
         (LoadFromHar.host Desk.start))
  = Ok false
  /\ calls (added run Desk.start) = []
  /\ LoadFromHar.host (snd (run Desk.start))
     = record (R := CPython.runtime)
         [EvExists (har_path_of (R := CPython.runtime) (H := Desk.host) argv)]
         (LoadFromHar.host Desk.start).
Proof.
  intros argv run.
  assert (fst (path_exists (R := CPython.runtime)
                 (har_path_of (R := CPython.runtime) (H := Desk.host) argv)
                 (LoadFromHar.host Desk.start))
          = Ok false) as Hnone by (by vm_compute).
  split; [done|].
  destruct (missing_archive_starts_nothing (R := CPython.runtime) (H := Desk.host)
              argv Desk.start Hnone) as (Hcalls & Hhost & _).
  split; [exact Hcalls|exact Hhost].
Defined.

(** The task of the agent for the scenario of the specification. *)
Lemma agent_task_witness :
  let argv := ["load_from_har.py"; "scenario.har"; "Who is logged in?"] in
  let t := mkTask "https://a.example.com/login" "Who is logged in?" in
  In (LoadFromHar.CalledAgent t)
     (added (LoadFromHar.main (R := CPython.runtime) (H := Desk.host) argv)
        Desk.start)
  /\ exists har_data,
       fs (LoadFromHar.host Desk.start)
          !! har_path_of (R := CPython.runtime) (H := Desk.host) argv
       = Some (Json har_data)
       /\ start_url t
          = StartPage.initial_url
              (admitted_urls (R := CPython.runtime) None (Some [200])
                 (entries_of har_data)).
Proof.
  intros argv t.
  assert (In (LoadFromHar.CalledAgent t)
            (added (LoadFromHar.main (R := CPython.runtime) (H := Desk.host) argv)
               Desk.start)) as Hin.
  { vm_compute. repeat (first [left; reflexivity | right]). }
  split; [done|].
  destruct (agent_task (R := CPython.runtime) (H := Desk.host) argv Desk.start t
              Hin) as (har_data & Hfile & Hurl & _).
  exists har_data. split; [exact Hfile|exact Hurl].
Defined.

(** The file that is not JSON: the context is opened and closed. *)
Lemma context_closed_witness :
  let argv := ["load_from_har.py"; "broken.har"] in
  is_Some (fs (LoadFromHar.host Desk.start)
              !! har_path_of (R := CPython.runtime) (H := Desk.host) argv)
  /\ start_browser (Host := Desk.host) (chromium (LoadFromHar.host Desk.start))
     = (None, Some [])
  /\ fst (new_context (Host := Desk.host) (Some [])) = Ok Desk.ready
  /\ In LoadFromHar.CalledClose
       (added (LoadFromHar.main (R := CPython.runtime) (H := Desk.host) argv)
          Desk.start).
Proof.
  intros argv.
  assert (is_Some (fs (LoadFromHar.host Desk.start)
                      !! har_path_of (R := CPython.runtime) (H := Desk.host) argv))
    as Hfile by (by vm_compute; eexists).
  split; [done|]. split; [reflexivity|]. split; [reflexivity|].
  apply (context_closed_iff_opened (R := CPython.runtime) (H := Desk.host) argv
           Desk.start (Some []) Hfile eq_refl).
  by exists Desk.ready.
Defined.

(** A browser that has been closed refuses the cookies of the scenario: no
    agent. *)
Lemma agent_needs_loaded_cookies_witness :
  let closed :=
    LoadFromHar.mkScript (B := browser (Runtime := CPython.runtime)) Sample.closed [] in
  fs (LoadFromHar.host closed) !! "scenario.har" = Some (Json Sample.scenario)
  /\ fst (HarExtension.load_from_har (R := CPython.runtime) Desk.ready
            "scenario.har" None (LoadFromHar.host closed))
     <> Ok tt
  /\ ~ (exists t,
          In (LoadFromHar.CalledAgent t)
             (added (LoadFromHar.session (R := CPython.runtime) (H := Desk.host)
                       Desk.ready "scenario.har" "Who is logged in?") closed)).
Proof.
  intros closed.
  assert (fs (LoadFromHar.host closed) !! "scenario.har" = Some (Json Sample.scenario))
    as Hfile by (by vm_compute).
  assert (fst (HarExtension.load_from_har (R := CPython.runtime) Desk.ready
                 "scenario.har" None (LoadFromHar.host closed))
          <> Ok tt) as Hrefused by (by vm_compute).
  split; [done|]. split; [done|].
  intros Hagent. apply Hrefused.
  by apply (agent_needs_loaded_cookies (R := CPython.runtime) (H := Desk.host)
              Desk.ready "scenario.har" "Who is logged in?" closed Sample.scenario
              Hfile).
Defined.

(** A name that is too long: the existence test raises, and the script
    with it, before anything is called. *)
Lemma main_raises_witness :
  let argv := ["load_from_har.py"; Volume.long_name] in
  let s :=
    LoadFromHar.mkScript (B := browser (Runtime := CPython.runtime)) Volume.start [] in
  fst (path_exists (R := CPython.runtime)
         (har_path_of (R := CPython.runtime) (H := Desk.host) argv)
         (LoadFromHar.host s))
  = Raise (FileNameTooLong Volume.long_name)
  /\ fst (LoadFromHar.main (R := CPython.runtime) (H := Desk.host) argv s)
     = Raise (FileNameTooLong Volume.long_name)
  /\ calls (added (LoadFromHar.main (R := CPython.runtime) (H := Desk.host) argv) s)
     = [].
Proof.
  intros argv s.
  assert (fst (path_exists (R := CPython.runtime)
                 (har_path_of (R := CPython.runtime) (H := Desk.host) argv)
                 (LoadFromHar.host s))
          = Raise (FileNameTooLong Volume.long_name)) as Hprobe by (by vm_compute).
  split; [exact Hprobe|].
  pose proof (main_raises_only_at_the_probe (R := CPython.runtime) (H := Desk.host)
                argv s) as Hrun.
  cbv zeta in Hrun. rewrite Hprobe in Hrun.
  destruct Hrun as (Hraise & Hcalls & _). split; [exact Hraise|exact Hcalls].
Defined.
